(** * Pastezen VS Code extension: content protection and unlock cache

    A shallow embedding of the extension's codec ([crypto.ts]), its paste
    tree provider ([pastesProvider.ts]), the REST client ([api.ts]), the
    document tracker ([documentTracker.ts]) and the create / save commands of
    [extension.ts], followed by the properties the specification states about
    them.

    Node's built-ins ([crypto], [Buffer]) are not part of the repository; they
    enter as interfaces ([NodeBuffer], [NodeCrypto]) whose laws are named
    propositions, assumed only by the theorems that need them.  VS Code's
    window and the HTTP client are the outside world: the asynchronous
    commands are programs over the calls they make ([Prog]), run against an
    arbitrary environment ([run]). *)

From Stdlib Require Import String List ZArith Lia Bool Strings.Byte.
From stdpp Require Import base option list gmap strings.
Import ListNotations.
Local Open Scope string_scope.
Local Open Scope list_scope.

(** ** Values shared by all modules *)

Abbreviation bytes := (list byte).

#[global] Instance byte_eq_decision : EqDecision byte := fun x y =>
  match Byte.eqb x y as b return Byte.eqb x y = b -> Decision (x = y) with
  | true => fun H => left (byte_dec_bl x y H)
  | false => fun H => right (Byte.eqb_false H)
  end eq_refl.

(** What a [catch (error: any)] clause can observe of a thrown value:
    [error.response?.status] and [error.message]. *)
Record JsError := mkJsError {
  response_status : option nat;
  message : option string
}.

(** A call that either returns or throws. *)
Inductive Throws (A : Type) : Type :=
| Ok (a : A)
| Throw (e : JsError).
Arguments Ok {A} a.
Arguments Throw {A} e.

#[global] Instance Throws_ret : MRet Throws := fun A a => Ok a.
#[global] Instance Throws_bind : MBind Throws := fun A B k m =>
  match m with
  | Ok a => k a
  | Throw e => Throw e
  end.

(** JavaScript truthiness of a possibly absent string ([undefined] and the
    empty string are falsy). *)
Definition truthy (s : option string) : bool :=
  match s with
  | Some EmptyString => false
  | Some _ => true
  | None => false
  end.

(** [buf.slice(start, end)]: negative offsets count from the end, all offsets
    are clamped to the buffer, an empty range gives an empty buffer. *)
Definition Buffer_slice (b : bytes) (start : Z) (end_ : option Z) : bytes :=
  let len := Z.of_nat (length b) in
  let norm := fun i : Z => if (i <? 0)%Z then Z.max (len + i) 0 else Z.min i len in
  let s := norm start in
  let e := match end_ with Some e => norm e | None => len end in
  firstn (Z.to_nat (e - s)) (skipn (Z.to_nat s) b).

(** The operating system's entropy pool, as the unread rest of a tape of
    random bytes; [crypto.randomBytes(n)] reads the next [n] bytes. *)
Definition Entropy := nat -> byte.

Definition randomBytes (n : nat) (e : Entropy) : bytes * Entropy :=
  (map e (seq 0 n), fun i => e (n + i)).

(** ** Node's Buffer encodings and crypto primitives, as interfaces *)

Class NodeBuffer := {
  (** [Buffer.from(s, 'utf8')] *)
  Buffer_from_utf8 : string -> bytes;
  (** [buf.toString('utf8')] *)
  toString_utf8 : bytes -> string;
  (** [buf.toString('base64')] *)
  toString_base64 : bytes -> string;
  (** [Buffer.from(s, 'base64')]; never throws *)
  Buffer_from_base64 : string -> bytes;
  (** [s.isWellFormed()]: the string is valid Unicode text *)
  isWellFormed : string -> bool
}.

Class NodeCrypto := {
  (** [crypto.pbkdf2Sync(password, salt, iterations, keylen, digest)] *)
  pbkdf2Sync : string -> bytes -> N -> nat -> string -> bytes;
  (** the state of a [Cipher] object and its methods *)
  Cipher : Type;
  createCipheriv : string -> bytes -> bytes -> Throws Cipher;
  Cipher_update : Cipher -> bytes -> bytes * Cipher;
  Cipher_final : Cipher -> Throws (bytes * Cipher);
  Cipher_getAuthTag : Cipher -> Throws bytes;
  (** the state of a [Decipher] object and its methods *)
  Decipher : Type;
  createDecipheriv : string -> bytes -> bytes -> Throws Decipher;
  Decipher_setAuthTag : Decipher -> bytes -> Throws Decipher;
  Decipher_update : Decipher -> bytes -> bytes * Decipher;
  Decipher_final : Decipher -> Throws (bytes * Decipher)
}.

(** ** crypto.ts *)

Module Crypto.
Section Codec.
Context `{NB : NodeBuffer} `{NC : NodeCrypto}.

Definition PBKDF2_ITERATIONS : N := 100000.
Definition SALT_LENGTH : nat := 16.
Definition IV_LENGTH : nat := 12.
Definition KEY_LENGTH : nat := 32.

Definition deriveKey (passphrase : string) (salt : bytes) : bytes :=
  pbkdf2Sync passphrase salt PBKDF2_ITERATIONS KEY_LENGTH "sha256".

Record Encrypted := mkEncrypted {
  encrypted : string;
  salt : string;
  iv : string
}.

Definition encryptContent (content passphrase : string) (rng : Entropy)
  : Throws Encrypted * Entropy :=
  let '(salt, rng) := randomBytes SALT_LENGTH rng in
  let '(iv, rng) := randomBytes IV_LENGTH rng in
  let key := deriveKey passphrase salt in
  (cipher ← createCipheriv "aes-256-gcm" key iv;
   let '(encrypted, cipher) := Cipher_update cipher (Buffer_from_utf8 content) in
   '(final, cipher) ← Cipher_final cipher;
   let encrypted := encrypted ++ final in
   authTag ← Cipher_getAuthTag cipher;
   let encryptedWithTag := encrypted ++ authTag in
   Ok {| encrypted := toString_base64 encryptedWithTag;
         salt := toString_base64 salt;
         iv := toString_base64 iv |},
   rng).

Definition decryptContent (encryptedBase64 passphrase saltBase64 ivBase64 : string)
  : Throws string :=
  let encryptedWithTag := Buffer_from_base64 encryptedBase64 in
  let salt := Buffer_from_base64 saltBase64 in
  let iv := Buffer_from_base64 ivBase64 in
  let key := deriveKey passphrase salt in
  let authTag := Buffer_slice encryptedWithTag (-16) None in
  let encrypted := Buffer_slice encryptedWithTag 0 (Some (-16)%Z) in
  decipher ← createDecipheriv "aes-256-gcm" key iv;
  decipher ← Decipher_setAuthTag decipher authTag;
  let '(decrypted, decipher) := Decipher_update decipher encrypted in
  '(final, decipher) ← Decipher_final decipher;
  let decrypted := decrypted ++ final in
  Ok (toString_utf8 decrypted).

End Codec.
End Crypto.

(** ** The wire format of the paste store *)

Inductive Visibility := public | private.
Inductive EncryptionLevel := aes | des | rc4.

(** One element of a paste's [files] array. *)
Record PasteFile := mkPasteFile {
  name : string;
  content : string;
  language : string;
  isMain : bool;
  salt : option string;
  iv : option string
}.

(** A paste as the store returns it ([response.data]).  The store's contract
    makes it a JSON object, hence truthy; its optional members are options. *)
Record Paste := mkPaste {
  _id : string;
  title : option string;
  createdAt : string;
  visibility : option string;
  paste_language : option string;
  files : option (list PasteFile);
  isPasswordProtected : option bool
}.

(** The body of [POST /api/pastes]. *)
Record CreatePayload := mkCreatePayload {
  payload_title : string;
  payload_files : list PasteFile;
  payload_visibility : Visibility;
  payload_isPasswordProtected : bool;
  payload_encryptionLevel : option EncryptionLevel;
  payload_password : option string
}.

(** The body of [PUT /api/pastes/:id] as [saveToPastezen] builds it. *)
Record Updates := mkUpdates {
  updates_files : list PasteFile
}.

(** ** The outside world: VS Code's window and the HTTP client *)

Record InputBoxOptions := mkInputBoxOptions {
  prompt : string;
  password : bool;
  ignoreFocusOut : bool;
  value : option string;
  validateInput : option (string -> option string)
}.

Record QuickPickItem (V : Type) := mkQuickPickItem {
  label : string;
  description : string;
  item_value : V
}.
Arguments mkQuickPickItem {V} label description item_value.
Arguments label {V} q.
Arguments description {V} q.
Arguments item_value {V} q.

Record TextDocument := mkTextDocument {
  uri : string;
  getText : string;
  fileName : string;
  languageId : string
}.

(** Every call that leaves the extension, indexed by the type of its answer.
    A request of the HTTP client answers with [response.data] or rejects. *)
Inductive Call : Type -> Type :=
| showInputBox (options : InputBoxOptions) : Call (option string)
| showQuickPick {V : Type} (items : list (QuickPickItem V)) (placeHolder : string)
    : Call (option (QuickPickItem V))
| showWarningMessage (msg : string) : Call unit
| showErrorMessage (msg : string) (items : list string) : Call (option string)
| showInformationMessage (msg : string) (items : list string) : Call (option string)
| activeTextEditor : Call (option TextDocument)
| executeCommand (command : string) : Call unit
| getConfiguration (section key : string) : Call (option string)
| clipboard_writeText (text : string) : Call unit
| openExternal (url : string) : Call unit
| withProgress (title : string) : Call unit
| fire_onDidChangeTreeData : Call unit
| client_post_pastes (url : string) (payload : CreatePayload) : Call (Throws Paste)
| client_post_unlock (url : string) (password : string) : Call (Throws Paste)
| client_get_list (url : string) : Call (Throws (option (list Paste)))
| client_get (url : string) : Call (Throws Paste)
| client_put (url : string) (updates : Updates) : Call (Throws Paste)
| client_delete (url : string) : Call (Throws unit).

(** An asynchronous function: the calls it awaits, each followed by what it
    does with the answer.  Every command of the extension is loop-free, so the
    tree is finite. *)
Inductive Prog (A : Type) : Type :=
| Ret (a : A)
| Vis {X : Type} (c : Call X) (k : X -> Prog A).
Arguments Ret {A} a.
Arguments Vis {A X} c k.

Fixpoint Prog_bind {A B} (k : A -> Prog B) (m : Prog A) : Prog B :=
  match m with
  | Ret a => k a
  | Vis c h => Vis c (fun x => Prog_bind k (h x))
  end.

#[global] Instance Prog_ret : MRet Prog := fun A a => Ret a.
#[global] Instance Prog_mbind : MBind Prog := fun A B k m => Prog_bind k m.

Definition await {X} (c : Call X) : Prog X := Vis c Ret.

(** One observed call with its answer. *)
Inductive Event : Type :=
| Ev {X : Type} (c : Call X) (x : X).

(** An environment answers the [n]-th call of a session; since the answer may
    depend on [n], the user and the store may answer the same question
    differently at different times. *)
Definition Env := nat -> forall X, Call X -> X.

(** Running a program from time [n]: its result and the calls it made. *)
Fixpoint run {A} (env : Env) (n : nat) (p : Prog A) : A * list Event :=
  match p with
  | Ret a => (a, [])
  | Vis c k =>
      let x := env n _ c in
      let '(a, t) := run env (S n) (k x) in
      (a, Ev c x :: t)
  end.

Definition is_store_call (e : Event) : bool :=
  match e with
  | Ev (client_post_pastes _ _) _ | Ev (client_post_unlock _ _) _
  | Ev (client_get_list _) _ | Ev (client_get _) _
  | Ev (client_put _ _) _ | Ev (client_delete _) _ => true
  | _ => false
  end.

Definition is_prompt (e : Event) : bool :=
  match e with
  | Ev (showInputBox _) _ => true
  | _ => false
  end.

(** An unlock request that the store rejected. *)
Definition is_denied_unlock (e : Event) : bool :=
  match e with
  | Ev c x =>
      match c in Call X return X -> bool with
      | client_post_unlock _ _ => fun x => match x with Throw _ => true | Ok _ => false end
      | _ => fun _ => false
      end x
  end.

(** The error message of a failed unlock. *)
Definition is_incorrect_passphrase (e : Event) : bool :=
  match e with
  | Ev (showErrorMessage msg _) _ => bool_decide (msg = "Incorrect passphrase")
  | _ => false
  end.

(** A request that the store rejected. *)
Definition is_rejected (e : Event) : bool :=
  let thrown := fun {A} (x : Throws A) =>
    match x with Throw _ => true | Ok _ => false end in
  match e with
  | Ev c x =>
      match c in Call X return X -> bool with
      | client_post_pastes _ _ => thrown
      | client_post_unlock _ _ => thrown
      | client_get_list _ => thrown
      | client_get _ => thrown
      | client_put _ _ => thrown
      | client_delete _ => thrown
      | _ => fun _ => false
      end x
  end.

Definition is_unlock (e : Event) : bool :=
  match e with
  | Ev (client_post_unlock _ _) _ => true
  | _ => false
  end.

(** Every unlock request of a trace carries the answer to the latest prompt
    shown before it in the same trace. *)
Fixpoint freshly_prompted (typed : option string) (t : list Event) : bool :=
  match t with
  | [] => true
  | Ev c x :: t =>
      match c in Call X return X -> bool with
      | showInputBox _ => fun answer => freshly_prompted answer t
      | client_post_unlock _ password => fun _ =>
          bool_decide (typed = Some password) && freshly_prompted typed t
      | _ => fun _ => freshly_prompted typed t
      end x
  end.

(** The bodies of the [PUT] requests of a trace, with their URLs. *)
Fixpoint uploads (t : list Event) : list (string * Updates) :=
  match t with
  | [] => []
  | Ev (client_put url updates) _ :: t => (url, updates) :: uploads t
  | _ :: t => uploads t
  end.

(** The bodies of the [POST /api/pastes] requests of a trace. *)
Fixpoint posted (t : list Event) : list CreatePayload :=
  match t with
  | [] => []
  | Ev (client_post_pastes _ payload) _ :: t => payload :: posted t
  | _ :: t => posted t
  end.

(** ** api.ts *)

Module CreatePasteOptions.
Record t := mk {
  title : string;
  fileName : string;
  content : string;
  language : string;
  visibility : option Visibility;
  encryptionLevel : option EncryptionLevel;
  isPasswordProtected : option bool;
  password : option string;
  salt : option string;
  iv : option string
}.
End CreatePasteOptions.

Module PastezenAPI.

Definition createPaste (options : CreatePasteOptions.t) : Prog (Throws Paste) :=
  let title := CreatePasteOptions.title options in
  let fileName := CreatePasteOptions.fileName options in
  let content := CreatePasteOptions.content options in
  let language := CreatePasteOptions.language options in
  let visibility := default public (CreatePasteOptions.visibility options) in
  let encryptionLevel := CreatePasteOptions.encryptionLevel options in
  let isPasswordProtected := default false (CreatePasteOptions.isPasswordProtected options) in
  let password := CreatePasteOptions.password options in
  let salt := CreatePasteOptions.salt options in
  let iv := CreatePasteOptions.iv options in
  let file :=
    if truthy salt && truthy iv
    then mkPasteFile fileName content language true salt iv
    else mkPasteFile fileName content language true None None in
  let payload :=
    {| payload_title := title;
       payload_files := [file];
       payload_visibility := visibility;
       payload_isPasswordProtected := isPasswordProtected;
       payload_encryptionLevel := encryptionLevel;
       payload_password := if truthy password then password else None |} in
  await (client_post_pastes "/api/pastes" payload).

Definition listPastes : Prog (Throws (list Paste)) :=
  response ← await (client_get_list "/api/pastes");
  Ret (data ← response; Ok (default [] data)).

Definition deletePaste (pasteId : string) : Prog (Throws unit) :=
  await (client_delete ("/api/pastes/" +:+ pasteId)).

Definition updatePaste (pasteId : string) (updates : Updates) : Prog (Throws Paste) :=
  await (client_put ("/api/pastes/" +:+ pasteId) updates).

Definition getPaste (pasteId : string) : Prog (Throws Paste) :=
  await (client_get ("/api/pastes/" +:+ pasteId)).

Definition unlockPaste (pasteId password : string) : Prog (Throws Paste) :=
  await (client_post_unlock ("/api/pastes/" +:+ pasteId +:+ "/unlock") password).

End PastezenAPI.

(** ** pastesProvider.ts *)

Module PasteItem.
Record t := mk {
  title : string;
  id : string;
  createdAt : string;
  visibility : string;
  language : string;
  fileCount : nat;
  isPasswordProtected : bool
}.
End PasteItem.

Module FileItem.
Record t := mk {
  fileName : string;
  content : string;
  language : string;
  isMain : bool;
  pasteId : string;
  fileIndex : nat;
  isEncrypted : bool
}.
End FileItem.

Inductive TreeItem :=
| TPaste (p : PasteItem.t)
| TFile (f : FileItem.t).

(** An entry of [unlockedPastes]. *)
Module Unlocked.
Record t := mk {
  paste : Paste;
  passphrase : string
}.
End Unlocked.

(** [s.includes(sub)] *)
Fixpoint includes (sub s : string) : bool :=
  String.prefix sub s ||
  match s with
  | EmptyString => false
  | String _ s' => includes sub s'
  end.

Definition dquote : string := String (Ascii.ascii_of_nat 34) EmptyString.

Module PastesProvider.
Section Provider.
Context `{NB : NodeBuffer} `{NC : NodeCrypto}.

(** The provider's two private maps. *)
Record t := mk {
  pasteCache : gmap string Paste;
  unlockedPastes : gmap string Unlocked.t
}.

Definition init : t := mk ∅ ∅.

Definition refresh (this : t) : Prog t :=
  let this := mk ∅ (unlockedPastes this) in
  let this := mk (pasteCache this) ∅ in
  _ ← await fire_onDidChangeTreeData;
  Ret this.

Definition unlockPrompt (element : PasteItem.t) : InputBoxOptions :=
  {| prompt := "🔐 Enter passphrase to unlock " +:+ dquote +:+ PasteItem.title element +:+ dquote;
     password := true;
     ignoreFocusOut := true;
     value := None;
     validateInput := None |}.

(** The callback of [paste.files.map] on the cached path. *)
Definition fileItem (passphrase : option string) (element : PasteItem.t)
    (index : nat) (file : PasteFile) : TreeItem :=
  let content :=
    if truthy passphrase && truthy (salt file) && truthy (iv file)
    then match Crypto.decryptContent (content file) (default EmptyString passphrase)
                 (default EmptyString (salt file)) (default EmptyString (iv file)) with
         | Ok content => content
         | Throw decryptError => "[Decryption failed]"
         end
    else content file in
  TFile (FileItem.mk (name file) content (language file) (isMain file)
           (PasteItem.id element) index (PasteItem.isPasswordProtected element)).

(** The callback of [unlockedPaste.files.map] after a 403. *)
Definition fileItem403 (password : string) (element : PasteItem.t)
    (index : nat) (file : PasteFile) : TreeItem :=
  let content :=
    if truthy (salt file) && truthy (iv file)
    then match Crypto.decryptContent (content file) password
                 (default EmptyString (salt file)) (default EmptyString (iv file)) with
         | Ok content => content
         | Throw e => "[Decryption failed]"
         end
    else content file in
  TFile (FileItem.mk (name file) content (language file) (isMain file)
           (PasteItem.id element) index true).

(** [paste.files && paste.files.length > 0] *)
Definition nonempty_files (paste : Paste) : option (list PasteFile) :=
  match files paste with
  | Some (f :: fs) => Some (f :: fs)
  | _ => None
  end.

(** The outer [catch (error: any)] of the paste branch. *)
Definition getChildren_catch (this : t) (element : PasteItem.t) (error : JsError)
  : Prog (list TreeItem * t) :=
  let is403 :=
    bool_decide (response_status error = Some 403)
    || from_option (includes "403") false (message error) in
  if is403 && negb (bool_decide (is_Some (unlockedPastes this !! PasteItem.id element))) then
    password ← await (showInputBox (unlockPrompt element));
    if truthy password then
      let password := default EmptyString password in
      unlocked ← PastezenAPI.unlockPaste (PasteItem.id element) password;
      match unlocked with
      | Ok unlockedPaste =>
          let this := mk (pasteCache this)
            (<[PasteItem.id element := Unlocked.mk unlockedPaste password]> (unlockedPastes this)) in
          match nonempty_files unlockedPaste with
          | Some files => Ret (imap (fileItem403 password element) files, this)
          | None => Ret ([], this)
          end
      | Throw unlockError =>
          _ ← await (showErrorMessage "Incorrect passphrase" []);
          Ret ([], this)
      end
    else Ret ([], this)
  else Ret ([], this).

(** Lines 168-195: the file items of a resolved payload, decrypted with the
    passphrase of the paste's session if it has one. *)
Definition fileItems (this : t) (element : PasteItem.t) (paste : Paste) : list TreeItem :=
  match nonempty_files paste with
  | Some files =>
      let passphrase := Unlocked.passphrase <$> unlockedPastes this !! PasteItem.id element in
      imap (fileItem passphrase element) files
  | None => []
  end.

(** Line 162: [this.unlockedPastes.get(id)?.paste || this.pasteCache.get(id)] *)
Definition cached (this : t) (id : string) : option Paste :=
  match unlockedPastes this !! id with
  | Some unlocked => Some (Unlocked.paste unlocked)
  | None => pasteCache this !! id
  end.

(** Every session holds a passphrase that is not empty: the invariant that
    lets a session's files be decrypted. *)
Definition sessions_keyed (this : t) : Prop :=
  ∀ id unlocked,
    unlockedPastes this !! id = Some unlocked →
    Unlocked.passphrase unlocked ≠ EmptyString.

(** Lines 161-195: resolve the payload and build the file items. *)
Definition getChildren_files (this : t) (element : PasteItem.t)
  : Prog (list TreeItem * t) :=
  match cached this (PasteItem.id element) with
  | Some paste => Ret (fileItems this element paste, this)
  | None =>
      fetched ← PastezenAPI.getPaste (PasteItem.id element);
      match fetched with
      | Ok paste =>
          let this := mk (<[PasteItem.id element := paste]> (pasteCache this)) (unlockedPastes this) in
          Ret (fileItems this element paste, this)
      | Throw error => getChildren_catch this element error
      end
  end.

(** [paste.title || 'Untitled'] and the like. *)
Definition or_else (o : option string) (d : string) : string :=
  if truthy o then default d o else d.

Definition pasteItem (paste : Paste) : TreeItem :=
  let fileCount :=
    match files paste with
    | Some (f :: fs) => length (f :: fs)
    | _ => 1
    end in
  TPaste (PasteItem.mk
    (or_else (title paste) "Untitled")
    (_id paste)
    (createdAt paste)
    (or_else (visibility paste) "public")
    (or_else (paste_language paste) "plaintext")
    fileCount
    (default false (isPasswordProtected paste)
     || bool_decide (visibility paste = Some "private"))).

Definition getChildren (this : t) (element : option TreeItem)
  : Prog (list TreeItem * t) :=
  match element with
  | Some (TPaste element) =>
      if PasteItem.isPasswordProtected element
         && negb (bool_decide (is_Some (unlockedPastes this !! PasteItem.id element)))
      then
        password ← await (showInputBox (unlockPrompt element));
        if negb (truthy password) then
          _ ← await (showWarningMessage "Paste access cancelled");
          Ret ([], this)
        else
          let password := default EmptyString password in
          unlocked ← PastezenAPI.unlockPaste (PasteItem.id element) password;
          match unlocked with
          | Ok unlockedPaste =>
              let this := mk (pasteCache this)
                (<[PasteItem.id element := Unlocked.mk unlockedPaste password]> (unlockedPastes this)) in
              getChildren_files this element
          | Throw error =>
              _ ← await (showErrorMessage "Incorrect passphrase" []);
              Ret ([], this)
          end
      else getChildren_files this element
  | _ =>
      listed ← PastezenAPI.listPastes;
      match listed with
      | Ok pastes => Ret (map pasteItem pastes, this)
      | Throw error =>
          if bool_decide (response_status error = Some 401) then
            action ← await (showErrorMessage "Invalid API token. Please set your token." ["Set Token"]);
            _ ← (if bool_decide (action = Some "Set Token")
                 then await (executeCommand "pastezen.setApiToken")
                 else Ret tt);
            Ret ([], this)
          else Ret ([], this)
      end
  end.

(** The states the provider can be in when every item it is asked about
    carries the protection flag that one listing [listed] gives its paste. *)
Inductive reachable (listed : string → bool) : t → Prop :=
| reachable_init : reachable listed init
| reachable_refresh this env n :
    reachable listed this →
    reachable listed (run env n (refresh this)).1
| reachable_getChildren this element env n :
    reachable listed this →
    (∀ item, element = Some (TPaste item) →
       PasteItem.isPasswordProtected item = listed (PasteItem.id item)) →
    reachable listed (run env n (getChildren this element)).1.2.

(** A plain cache entry of a paste listed as protected comes with a session. *)
Definition plain_entries_unlocked (listed : string → bool) (this : t) : Prop :=
  ∀ id, is_Some (pasteCache this !! id) →
    listed id = false ∨ is_Some (unlockedPastes this !! id).

End Provider.
End PastesProvider.

(** ** documentTracker.ts *)

Module DocumentMetadata.
Record t := mk {
  pasteId : string;
  fileIndex : nat;
  fileName : string;
  language : string
}.
End DocumentMetadata.

Module DocumentTracker.

(** The module-level [documentMetadataMap], keyed by [uri.toString()]. *)
Abbreviation t := (gmap string DocumentMetadata.t).

Definition trackDocument (documentMetadataMap : t) (uri : string)
    (metadata : DocumentMetadata.t) : t :=
  <[uri := metadata]> documentMetadataMap.

Definition getDocumentMetadata (documentMetadataMap : t) (uri : string)
  : option DocumentMetadata.t :=
  documentMetadataMap !! uri.

Definition removeDocumentMetadata (documentMetadataMap : t) (uri : string) : t :=
  delete uri documentMetadataMap.

Definition isTrackedDocument (documentMetadataMap : t) (uri : string) : bool :=
  bool_decide (is_Some (documentMetadataMap !! uri)).

Definition getAllTrackedDocuments (documentMetadataMap : t) : t :=
  documentMetadataMap.

End DocumentTracker.

(** ** extension.ts *)

Module Extension.
Section Commands.
Context `{NB : NodeBuffer} `{NC : NodeCrypto}.

(** [`...${error.message}`] *)
Definition error_message (error : JsError) : string :=
  default "undefined" (message error).

Definition visibilityItems : list (QuickPickItem Visibility) :=
  [ mkQuickPickItem "🌍 Public" "Anyone can view" public;
    mkQuickPickItem "🔒 Private" "Password protected & encrypted" private ].

Definition algorithmItems : list (QuickPickItem EncryptionLevel) :=
  [ mkQuickPickItem "AES-256" "Recommended - strongest encryption" aes;
    mkQuickPickItem "3DES" "Legacy triple DES" des;
    mkQuickPickItem "RC4" "Stream cipher" rc4 ].

Definition passphraseBox : InputBoxOptions :=
  {| prompt := "Enter encryption passphrase (min 6 characters)";
     password := true;
     ignoreFocusOut := false;
     value := None;
     validateInput := Some (fun value =>
       if Nat.ltb (String.length value) 6
       then Some "Passphrase must be at least 6 characters"
       else None) |}.

Definition confirmBox (passphrase : string) : InputBoxOptions :=
  {| prompt := "Confirm passphrase";
     password := true;
     ignoreFocusOut := false;
     value := None;
     validateInput := Some (fun value =>
       if bool_decide (value ≠ passphrase)
       then Some "Passphrases do not match"
       else None) |}.

(** The callback handed to [vscode.window.withProgress]; it is not awaited
    by [createPaste], so a rejection inside it ends the callback unreported. *)
Definition createPaste_progress (pasteOptions : CreatePasteOptions.t)
    (visibility : Visibility) (pastesProvider : PastesProvider.t)
  : Prog PastesProvider.t :=
  created ← PastezenAPI.createPaste pasteOptions;
  match created with
  | Throw _ => Ret pastesProvider
  | Ok paste =>
      webUrl ← await (getConfiguration "pastezen" "webUrl");
      let url := default "undefined" webUrl +:+ "/pastes/" +:+ _id paste in
      _ ← await (clipboard_writeText url);
      let message :=
        match visibility with
        | private => "🔒 Encrypted paste created! URL copied."
        | public => "Paste created! URL copied to clipboard."
        end in
      action ← await (showInformationMessage message ["Open in Browser"; "OK"]);
      _ ← (if bool_decide (action = Some "Open in Browser")
           then await (openExternal url)
           else Ret tt);
      PastesProvider.refresh pastesProvider
  end.

Definition titleBox (fileName : string) : InputBoxOptions :=
  {| prompt := "Enter paste title"; password := false; ignoreFocusOut := false;
     value := Some fileName; validateInput := None |}.

Definition createPaste (fileName content language : string)
    (pastesProvider : PastesProvider.t) (rng : Entropy)
  : Prog (PastesProvider.t * Entropy) :=
  (* Step 1: Get title *)
  title ← await (showInputBox (titleBox fileName));
  if negb (truthy title) then Ret (pastesProvider, rng) else
  let title := default EmptyString title in
  (* Step 2: Choose visibility *)
  visibility ← await (showQuickPick visibilityItems "Choose visibility");
  match visibility with
  | None => Ret (pastesProvider, rng)
  | Some visibility =>
      let pasteOptions :=
        {| CreatePasteOptions.title := title;
           CreatePasteOptions.fileName := fileName;
           CreatePasteOptions.content := toString_base64 (Buffer_from_utf8 content);
           CreatePasteOptions.language := language;
           CreatePasteOptions.visibility := Some (item_value visibility);
           CreatePasteOptions.encryptionLevel := None;
           CreatePasteOptions.isPasswordProtected := None;
           CreatePasteOptions.password := None;
           CreatePasteOptions.salt := None;
           CreatePasteOptions.iv := None |} in
      let finish := fun (pasteOptions : CreatePasteOptions.t) (rng : Entropy) =>
        _ ← await (withProgress
          match item_value visibility with
          | private => "Encrypting and creating paste..."
          | public => "Creating paste..."
          end);
        pastesProvider ← createPaste_progress pasteOptions (item_value visibility) pastesProvider;
        Ret (pastesProvider, rng) in
      (* Step 3: If private, get encryption options *)
      match item_value visibility with
      | public => finish pasteOptions rng
      | private =>
          algorithm ← await (showQuickPick algorithmItems "Choose encryption algorithm");
          match algorithm with
          | None => Ret (pastesProvider, rng)
          | Some algorithm =>
              passphrase ← await (showInputBox passphraseBox);
              if negb (truthy passphrase) then Ret (pastesProvider, rng) else
              let passphrase := default EmptyString passphrase in
              confirmPassphrase ← await (showInputBox (confirmBox passphrase));
              if negb (truthy confirmPassphrase) then Ret (pastesProvider, rng) else
              (* Encrypt content *)
              let '(encrypted, rng) := Crypto.encryptContent content passphrase rng in
              match encrypted with
              | Throw error =>
                  _ ← await (showErrorMessage ("Failed to create paste: " +:+ error_message error) []);
                  Ret (pastesProvider, rng)
              | Ok encrypted =>
                  let pasteOptions :=
                    {| CreatePasteOptions.title := CreatePasteOptions.title pasteOptions;
                       CreatePasteOptions.fileName := CreatePasteOptions.fileName pasteOptions;
                       CreatePasteOptions.content := Crypto.encrypted encrypted;
                       CreatePasteOptions.language := CreatePasteOptions.language pasteOptions;
                       CreatePasteOptions.visibility := CreatePasteOptions.visibility pasteOptions;
                       CreatePasteOptions.encryptionLevel := Some (item_value algorithm);
                       CreatePasteOptions.isPasswordProtected := Some true;
                       CreatePasteOptions.password := Some passphrase;
                       CreatePasteOptions.salt := Some (Crypto.salt encrypted);
                       CreatePasteOptions.iv := Some (Crypto.iv encrypted) |} in
                  finish pasteOptions rng
              end
          end
      end
  end.

(** [paste.files[fileIndex].content = content]: a [TypeError] when the paste
    has no [files] or no element at [fileIndex]. *)
Definition set_file_content (paste : Paste) (fileIndex : nat) (content : string)
  : Throws (list PasteFile) :=
  match files paste with
  | None =>
      Throw (mkJsError None (Some "Cannot read properties of undefined"))
  | Some files =>
      match files !! fileIndex with
      | None =>
          Throw (mkJsError None (Some "Cannot set properties of undefined (setting 'content')"))
      | Some file =>
          Ok (<[fileIndex := mkPasteFile (name file) content (language file)
                                (isMain file) (salt file) (iv file)]> files)
      end
  end.

Definition saveToPastezen (documentMetadataMap : DocumentTracker.t)
    (pastesProvider : PastesProvider.t) : Prog PastesProvider.t :=
  editor ← await activeTextEditor;
  match editor with
  | None =>
      _ ← await (showErrorMessage "No active editor" []);
      Ret pastesProvider
  | Some document =>
      match DocumentTracker.getDocumentMetadata documentMetadataMap (uri document) with
      | None =>
          (* Not a tracked paste document - offer to create new paste *)
          action ← await (showInformationMessage
            "This document is not linked to a Pastezen paste."
            ["Create New Paste"; "Cancel"]);
          _ ← (if bool_decide (action = Some "Create New Paste")
               then await (executeCommand "pastezen.createPasteFromFile")
               else Ret tt);
          Ret pastesProvider
      | Some metadata =>
          let failed := fun (error : JsError) =>
            _ ← await (showErrorMessage ("Failed to save: " +:+ error_message error) []);
            Ret pastesProvider in
          let content := getText document in
          fetched ← PastezenAPI.getPaste (DocumentMetadata.pasteId metadata);
          match fetched with
          | Throw error => failed error
          | Ok paste =>
              (* Update the specific file in the paste (store as plain text) *)
              match set_file_content paste (DocumentMetadata.fileIndex metadata) content with
              | Throw error => failed error
              | Ok files =>
                  updated ← PastezenAPI.updatePaste (DocumentMetadata.pasteId metadata)
                    {| updates_files := files |};
                  match updated with
                  | Throw error => failed error
                  | Ok _ =>
                      _ ← await (showInformationMessage
                        ("✅ Saved to Pastezen: " +:+ DocumentMetadata.fileName metadata) []);
                      PastesProvider.refresh pastesProvider
                  end
              end
          end
      end
  end.

End Commands.
End Extension.

(** ** The laws of the Node interfaces

    What the codec relies on, one proposition per documented guarantee. *)

Section Laws.
Context `{NB : NodeBuffer} `{NC : NodeCrypto}.

(** Decoding an encoder's output gives the bytes back. *)
Definition base64_lossless : Prop :=
  ∀ b : bytes, Buffer_from_base64 (toString_base64 b) = b.

(** UTF-8 is lossless on well-formed strings (a lone surrogate is replaced
    by U+FFFD when encoding). *)
Definition utf8_lossless : Prop :=
  ∀ s : string, isWellFormed s = true → toString_utf8 (Buffer_from_utf8 s) = s.

(** [pbkdf2Sync] returns [keylen] bytes. *)
Definition pbkdf2_keylen : Prop :=
  ∀ p s c n d, length (pbkdf2Sync p s c n d) = n.

(** One-shot sealing with a fresh cipher object: the calls of
    [encryptContent] between key derivation and encoding. *)
Definition gcm_seal (key iv plaintext : bytes) : Throws (bytes * bytes) :=
  cipher ← createCipheriv "aes-256-gcm" key iv;
  let '(encrypted, cipher) := Cipher_update cipher plaintext in
  '(final, cipher) ← Cipher_final cipher;
  authTag ← Cipher_getAuthTag cipher;
  Ok (encrypted ++ final, authTag).

(** One-shot opening with a fresh decipher object: the calls of
    [decryptContent] between slicing and decoding. *)
Definition gcm_open (key iv encrypted authTag : bytes) : Throws bytes :=
  decipher ← createDecipheriv "aes-256-gcm" key iv;
  decipher ← Decipher_setAuthTag decipher authTag;
  let '(decrypted, decipher) := Decipher_update decipher encrypted in
  '(final, decipher) ← Decipher_final decipher;
  Ok (decrypted ++ final).

(** Sealing under a given salt and nonce: what [encryptContent] does once
    it has drawn them, and what any other client of the store does with
    parameters of its own choosing. *)
Definition seal_with (salt iv : bytes) (content passphrase : string)
  : Throws Crypto.Encrypted :=
  '(encrypted, authTag) ←
     gcm_seal (Crypto.deriveKey passphrase salt) iv (Buffer_from_utf8 content);
  Ok {| Crypto.encrypted := toString_base64 (encrypted ++ authTag);
        Crypto.salt := toString_base64 salt;
        Crypto.iv := toString_base64 iv |}.

(** AES-256-GCM accepts a 32-byte key with a 12-byte nonce, is length
    preserving, and its tag is 16 bytes unless configured otherwise. *)
Definition gcm_seals : Prop :=
  ∀ key iv plaintext, length key = 32 → length iv = 12 →
    ∃ encrypted authTag,
      gcm_seal key iv plaintext = Ok (encrypted, authTag)
      ∧ length encrypted = length plaintext
      ∧ length authTag = 16.

(** The tag of GCM is 16 bytes whenever sealing succeeds (no
    [authTagLength] is configured). *)
Definition gcm_tag_16 : Prop :=
  ∀ key iv plaintext encrypted authTag,
    gcm_seal key iv plaintext = Ok (encrypted, authTag) → length authTag = 16.

(** What was sealed under a key and nonce opens under the same ones. *)
Definition gcm_opens : Prop :=
  ∀ key iv plaintext encrypted authTag,
    gcm_seal key iv plaintext = Ok (encrypted, authTag) →
    gcm_open key iv encrypted authTag = Ok plaintext.

End Laws.

(** ** An executable instance of the interfaces

    A small stand-in for Node's primitives that satisfies the laws above, so
    that the model runs on concrete inputs.  The stream cipher and the tag
    are toys; only their interface behaviour matters here. *)

Module Sim.

Definition bxor (a b : byte) : byte :=
  let '(a0, (a1, (a2, (a3, (a4, (a5, (a6, a7))))))) := Byte.to_bits a in
  let '(b0, (b1, (b2, (b3, (b4, (b5, (b6, b7))))))) := Byte.to_bits b in
  Byte.of_bits (xorb a0 b0, (xorb a1 b1, (xorb a2 b2, (xorb a3 b3,
               (xorb a4 b4, (xorb a5 b5, (xorb a6 b6, xorb a7 b7))))))).

Definition byte_at (l : bytes) (i : nat) : byte :=
  nth (i mod length l) l x00.

(** The key stream from position [off]. *)
Definition keystream (key iv : bytes) (off n : nat) : bytes :=
  map (fun i => bxor (byte_at key i) (byte_at iv i)) (seq off n).

Fixpoint xor_with (data ks : bytes) : bytes :=
  match data, ks with
  | d :: data, k :: ks => bxor d k :: xor_with data ks
  | _, _ => []
  end.

Definition checksum (l : bytes) : byte := foldr bxor x01 l.

(** A 16-byte tag over key, nonce and ciphertext. *)
Definition tag16 (key iv ct : bytes) : bytes :=
  map (fun j => bxor (byte_at key j) (bxor (byte_at key (16 + j)) (checksum (iv ++ ct))))
      (seq 0 16).

Record cipher_state := mkCipher {
  c_key : bytes;
  c_iv : bytes;
  c_out : bytes
}.

Record decipher_state := mkDecipher {
  d_key : bytes;
  d_iv : bytes;
  d_tag : option bytes;
  d_in : bytes
}.

Definition TypeError (msg : string) : JsError := mkJsError None (Some msg).

Definition accepts (algorithm : string) (key iv : bytes) : Throws unit :=
  if negb (bool_decide (algorithm = "aes-256-gcm")) then Throw (TypeError "Unknown cipher")
  else if negb (bool_decide (length key = 32)) then Throw (TypeError "Invalid key length")
  else if bool_decide (length iv = 0) then Throw (TypeError "Invalid initialization vector")
  else Ok tt.

(** Tag lengths [setAuthTag] accepts in GCM mode. *)
Definition valid_tag_length (n : nat) : bool :=
  bool_decide (n ∈ [4; 8; 12; 13; 14; 15; 16]).

(** Base64 (RFC 4648) on bits: three bytes regroup into four sextets, most
    significant bit first; [Byte.to_bits] lists the least significant first. *)
Definition sextet : Type := bool * bool * bool * bool * bool * bool.

Definition alphabet : list Ascii.ascii :=
  list_ascii_of_string
    "ABCDEFGHIJKLMNOPQRSTUVWXYZabcdefghijklmnopqrstuvwxyz0123456789+/".

Definition pad : Ascii.ascii := Ascii.ascii_of_nat 61.

Definition sextet_index (s : sextet) : nat :=
  let '(b5, b4, b3, b2, b1, b0) := s in
  32 * Nat.b2n b5 + 16 * Nat.b2n b4 + 8 * Nat.b2n b3
  + 4 * Nat.b2n b2 + 2 * Nat.b2n b1 + Nat.b2n b0.

Definition index_sextet (n : nat) : sextet :=
  (Nat.testbit n 5, Nat.testbit n 4, Nat.testbit n 3,
   Nat.testbit n 2, Nat.testbit n 1, Nat.testbit n 0).

Definition char_of_sextet (s : sextet) : Ascii.ascii :=
  nth (sextet_index s) alphabet pad.

Fixpoint position (c : Ascii.ascii) (l : list Ascii.ascii) : option nat :=
  match l with
  | [] => None
  | x :: l => if Ascii.eqb c x then Some 0 else S <$> position c l
  end.

Definition sextet_of_char (c : Ascii.ascii) : option sextet :=
  index_sextet <$> position c alphabet.

Definition split3 (a b c : byte) : sextet * sextet * sextet * sextet :=
  let '(a0, (a1, (a2, (a3, (a4, (a5, (a6, a7))))))) := Byte.to_bits a in
  let '(b0, (b1, (b2, (b3, (b4, (b5, (b6, b7))))))) := Byte.to_bits b in
  let '(c0, (c1, (c2, (c3, (c4, (c5, (c6, c7))))))) := Byte.to_bits c in
  ((a7, a6, a5, a4, a3, a2), (a1, a0, b7, b6, b5, b4),
   (b3, b2, b1, b0, c7, c6), (c5, c4, c3, c2, c1, c0)).

Definition join4 (s0 s1 s2 s3 : sextet) : byte * byte * byte :=
  let '(a7, a6, a5, a4, a3, a2) := s0 in
  let '(a1, a0, b7, b6, b5, b4) := s1 in
  let '(b3, b2, b1, b0, c7, c6) := s2 in
  let '(c5, c4, c3, c2, c1, c0) := s3 in
  (Byte.of_bits (a0, (a1, (a2, (a3, (a4, (a5, (a6, a7))))))),
   Byte.of_bits (b0, (b1, (b2, (b3, (b4, (b5, (b6, b7))))))),
   Byte.of_bits (c0, (c1, (c2, (c3, (c4, (c5, (c6, c7)))))))).

Fixpoint base64_encode (l : bytes) : string :=
  match l with
  | [] => EmptyString
  | [a] =>
      let '(s0, s1, _, _) := split3 a x00 x00 in
      String (char_of_sextet s0) (String (char_of_sextet s1) (String pad (String pad EmptyString)))
  | [a; b] =>
      let '(s0, s1, s2, _) := split3 a b x00 in
      String (char_of_sextet s0) (String (char_of_sextet s1)
        (String (char_of_sextet s2) (String pad EmptyString)))
  | a :: b :: c :: l =>
      let '(s0, s1, s2, s3) := split3 a b c in
      String (char_of_sextet s0) (String (char_of_sextet s1)
        (String (char_of_sextet s2) (String (char_of_sextet s3) (base64_encode l))))
  end.

(** Decoding is lenient as in Node: it stops at the padding and skips what
    is not in the alphabet, so it never fails. *)
Fixpoint sextets (s : string) : list sextet :=
  match s with
  | EmptyString => []
  | String c s =>
      if Ascii.eqb c pad then []
      else match sextet_of_char c with
           | Some x => x :: sextets s
           | None => sextets s
           end
  end.

Definition zero6 : sextet := (false, false, false, false, false, false).

Fixpoint unpack (l : list sextet) : bytes :=
  match l with
  | s0 :: s1 :: s2 :: s3 :: l =>
      let '(a, b, c) := join4 s0 s1 s2 s3 in a :: b :: c :: unpack l
  | [s0; s1; s2] => let '(a, b, _) := join4 s0 s1 s2 zero6 in [a; b]
  | [s0; s1] => let '(a, _, _) := join4 s0 s1 zero6 zero6 in [a]
  | _ => []
  end.

Definition base64_decode (s : string) : bytes := unpack (sextets s).

(** Strings hold their UTF-8 bytes, so the UTF-8 codec is the identity and
    every string is well formed. *)
#[global] Instance buffer : NodeBuffer := {|
  Buffer_from_utf8 := list_byte_of_string;
  toString_utf8 := string_of_list_byte;
  toString_base64 := base64_encode;
  Buffer_from_base64 := base64_decode;
  isWellFormed := fun _ => true
|}.

#[global] Instance crypto : NodeCrypto := {|
  pbkdf2Sync := fun password salt iterations keylen digest =>
    let seed := list_byte_of_string password ++ salt ++ [x01] in
    map (fun i => bxor (byte_at seed i) (byte_at salt (i + keylen))) (seq 0 keylen);
  Cipher := cipher_state;
  createCipheriv := fun algorithm key iv =>
    _ ← accepts algorithm key iv; Ok (mkCipher key iv []);
  Cipher_update := fun c data =>
    let out := xor_with data (keystream (c_key c) (c_iv c) (length (c_out c)) (length data)) in
    (out, mkCipher (c_key c) (c_iv c) (c_out c ++ out));
  Cipher_final := fun c => Ok ([], c);
  Cipher_getAuthTag := fun c => Ok (tag16 (c_key c) (c_iv c) (c_out c));
  Decipher := decipher_state;
  createDecipheriv := fun algorithm key iv =>
    _ ← accepts algorithm key iv; Ok (mkDecipher key iv None []);
  Decipher_setAuthTag := fun d tag =>
    if valid_tag_length (length tag)
    then Ok (mkDecipher (d_key d) (d_iv d) (Some tag) (d_in d))
    else Throw (TypeError "Invalid authentication tag length");
  Decipher_update := fun d data =>
    let out := xor_with data (keystream (d_key d) (d_iv d) (length (d_in d)) (length data)) in
    (out, mkDecipher (d_key d) (d_iv d) (d_tag d) (d_in d ++ data));
  Decipher_final := fun d =>
    match d_tag d with
    | Some tag =>
        if bool_decide (tag = firstn (length tag) (tag16 (d_key d) (d_iv d) (d_in d)))
        then Ok ([], d)
        else Throw (mkJsError None (Some "Unsupported state or unable to authenticate data"))
    | None => Throw (mkJsError None (Some "Unsupported state or unable to authenticate data"))
    end
|}.

(** A tape of entropy. *)
Definition tape : Entropy :=
  fun i => default x00 (Byte.of_nat ((37 * i + 11) mod 256)).

(** A scripted world: what the user types and picks, which editor is active,
    and how the store answers, each as a function of time. *)
Record World := mkWorld {
  inputs : nat → option string;
  picks : nat → option nat;
  buttons : nat → option string;
  editor : nat → option TextDocument;
  settings : string → string → option string;
  store_create : nat → CreatePayload → Throws Paste;
  store_unlock : nat → string → string → Throws Paste;
  store_list : nat → Throws (option (list Paste));
  store_get : nat → string → Throws Paste;
  store_put : nat → string → Updates → Throws Paste;
  store_delete : nat → string → Throws unit
}.

Definition env (w : World) : Env :=
  fun n X c =>
    match c in Call X return X with
    | showInputBox _ => inputs w n
    | showQuickPick items _ => i ← picks w n; items !! i
    | showWarningMessage _ => tt
    | showErrorMessage _ _ => buttons w n
    | showInformationMessage _ _ => buttons w n
    | activeTextEditor => editor w n
    | executeCommand _ => tt
    | getConfiguration section key => settings w section key
    | clipboard_writeText _ => tt
    | openExternal _ => tt
    | withProgress _ => tt
    | fire_onDidChangeTreeData => tt
    | client_post_pastes _ payload => store_create w n payload
    | client_post_unlock url password => store_unlock w n url password
    | client_get_list _ => store_list w n
    | client_get url => store_get w n url
    | client_put url updates => store_put w n url updates
    | client_delete url => store_delete w n url
    end.

Definition forbidden : JsError :=
  mkJsError (Some 403) (Some "Request failed with status code 403").

(** A world in which nobody answers and the store denies everything. *)
Definition silent : World :=
  {| inputs := fun _ => None;
     picks := fun _ => None;
     buttons := fun _ => None;
     editor := fun _ => None;
     settings := fun _ _ => None;
     store_create := fun _ _ => Throw forbidden;
     store_unlock := fun _ _ _ => Throw forbidden;
     store_list := fun _ => Throw forbidden;
     store_get := fun _ _ => Throw forbidden;
     store_put := fun _ _ _ => Throw forbidden;
     store_delete := fun _ _ => Throw forbidden |}.

End Sim.

(** ** Sample data for the executable instance *)

Module Sample.
Import Sim.

(** A file sealed under [passphrase] with the given salt and nonce. *)
Definition sealed_file (name body passphrase : string) (salt iv : bytes) : PasteFile :=
  match seal_with salt iv body passphrase with
  | Ok e => mkPasteFile name (Crypto.encrypted e) "plaintext" false
              (Some (Crypto.salt e)) (Some (Crypto.iv e))
  | Throw _ => mkPasteFile name EmptyString "plaintext" false None None
  end.

Definition notes : PasteFile :=
  Eval vm_compute in
    sealed_file "notes.txt" "hello world" "correct-horse"
      (map tape (seq 0 16)) (map tape (seq 16 12)).

(** A file of the same paste sealed under another passphrase. *)
Definition stray : PasteFile :=
  Eval vm_compute in
    sealed_file "stray.txt" "top secret" "other-key"
      (map tape (seq 28 16)) (map tape (seq 44 12)).

Definition readme : PasteFile :=
  mkPasteFile "README.md" "# plain" "markdown" true None None.

Definition paste (files : list PasteFile) : Paste :=
  {| _id := "A"; title := Some "sample"; createdAt := "2024-01-01T00:00:00Z";
     visibility := None; paste_language := Some "plaintext";
     files := Some files; isPasswordProtected := None |}.

Definition protectedItem : PasteItem.t :=
  PasteItem.mk "sample" "A" "2024-01-01T00:00:00Z" "private" "plaintext" 3 true.

Definition publicItem : PasteItem.t :=
  PasteItem.mk "sample" "A" "2024-01-01T00:00:00Z" "public" "plaintext" 3 false.

(** The provider after unlocking paste A with the right passphrase. *)
Definition unlockedA : PastesProvider.t :=
  PastesProvider.mk ∅
    {[ "A" := Unlocked.mk (paste [notes; stray; readme]) "correct-horse" ]}.

(** The provider after fetching paste A through an item that is not
    flagged as protected. *)
Definition fetchedA : PastesProvider.t :=
  PastesProvider.mk {[ "A" := paste [readme] ]} ∅.

(** A store that serves paste A to anyone, and a user who answers no prompt. *)
Definition openStore : World :=
  {| inputs := inputs silent; picks := picks silent; buttons := buttons silent;
     editor := editor silent; settings := settings silent;
     store_create := store_create silent;
     store_unlock := store_unlock silent;
     store_list := store_list silent;
     store_get := fun _ _ => Ok (paste [readme]);
     store_put := store_put silent;
     store_delete := store_delete silent |}.

(** A user who types a wrong passphrase, and a store that denies it. *)
Definition wrongGuess : World :=
  {| inputs := fun _ => Some "wrong-pass"; picks := picks silent; buttons := buttons silent;
     editor := editor silent; settings := settings silent;
     store_create := store_create silent;
     store_unlock := store_unlock silent;
     store_list := store_list silent;
     store_get := store_get silent;
     store_put := store_put silent;
     store_delete := store_delete silent |}.

(** A user who types the right passphrase, and a store that accepts it. *)
Definition rightGuess : World :=
  {| inputs := fun _ => Some "correct-horse"; picks := picks silent; buttons := buttons silent;
     editor := editor silent; settings := settings silent;
     store_create := store_create silent;
     store_unlock := fun _ _ _ => Ok (paste [notes; stray; readme]);
     store_list := store_list silent;
     store_get := store_get silent;
     store_put := store_put silent;
     store_delete := store_delete silent |}.

(** The editor shows a document opened from file 0 of paste A. *)
Definition document : TextDocument :=
  mkTextDocument "untitled:Untitled-1" "edited text" "Untitled-1" "plaintext".

Definition tracker : DocumentTracker.t :=
  DocumentTracker.trackDocument ∅ "untitled:Untitled-1"
    (DocumentMetadata.mk "A" 0 "notes.txt" "plaintext").

(** The store has revoked access: every request is answered with 403. *)
Definition revoked : World :=
  {| inputs := inputs silent; picks := picks silent; buttons := buttons silent;
     editor := fun _ => Some document; settings := settings silent;
     store_create := store_create silent;
     store_unlock := store_unlock silent;
     store_list := store_list silent;
     store_get := store_get silent;
     store_put := store_put silent;
     store_delete := store_delete silent |}.

(** The store serves paste A with its sealed files and accepts updates. *)
Definition writable : World :=
  {| inputs := inputs silent; picks := picks silent; buttons := buttons silent;
     editor := fun _ => Some document; settings := settings silent;
     store_create := store_create silent;
     store_unlock := store_unlock silent;
     store_list := store_list silent;
     store_get := fun _ _ => Ok (paste [notes; stray; readme]);
     store_put := fun _ _ updates => Ok (paste (updates_files updates));
     store_delete := store_delete silent |}.

(** What [encryptContent] makes of the sample text on the sample tape. *)
Definition blob : Crypto.Encrypted :=
  Eval vm_compute in
    match (Crypto.encryptContent "hello world" "correct-horse" tape).1 with
    | Ok e => e
    | Throw _ => Crypto.mkEncrypted EmptyString EmptyString EmptyString
    end.

(** A user who creates a private paste and picks the algorithm at index
    [algorithm] of the list; the store accepts the paste. *)
Definition creator (algorithm : nat) : World :=
  {| inputs := fun n =>
       match n with
       | 0 => Some "my notes"
       | 3 | 4 => Some "correct-horse"
       | _ => None
       end;
     picks := fun n =>
       match n with
       | 1 => Some 1
       | 2 => Some algorithm
       | _ => None
       end;
     buttons := buttons silent;
     editor := editor silent; settings := settings silent;
     store_create := fun _ payload => Ok (paste (payload_files payload));
     store_unlock := store_unlock silent;
     store_list := store_list silent;
     store_get := store_get silent;
     store_put := store_put silent;
     store_delete := store_delete silent |}.

End Sample.

From stdpp Require Import pretty.

(** ** pastesProvider.ts: how tree items present themselves *)

(** A line break inside a template literal. *)
Definition newline : string := String (Ascii.ascii_of_nat 10) EmptyString.

(** What reading a property of an object literal can give: a value the
    literal defines, or a member every object inherits. *)
Inductive Member :=
| own (value : string)
| inherited (name : string).

(** The own property names of [Object.prototype]. *)
Definition Object_prototype : list string :=
  [ "constructor"; "__defineGetter__"; "__defineSetter__"; "hasOwnProperty";
    "__lookupGetter__"; "__lookupSetter__"; "isPrototypeOf"; "propertyIsEnumerable";
    "toString"; "valueOf"; "__proto__"; "toLocaleString" ].

Fixpoint own_property (literal : list (string * string)) (key : string) : option string :=
  match literal with
  | [] => None
  | (k, v) :: literal => if String.eqb k key then Some v else own_property literal key
  end.

(** [literal[key]] *)
Definition object_get (literal : list (string * string)) (key : string) : option Member :=
  match own_property literal key with
  | Some v => Some (own v)
  | None => if bool_decide (key ∈ Object_prototype) then Some (inherited key) else None
  end.

(** [literal[key] || fallback]: inherited members are functions or objects,
    hence truthy; an own value is falsy when it is the empty string. *)
Definition object_get_or (literal : list (string * string)) (key fallback : string) : Member :=
  match object_get literal key with
  | Some (own EmptyString) => own fallback
  | Some member => member
  | None => own fallback
  end.

(** A [Date] object: its time value in milliseconds ([None] for an invalid
    date, whose [getTime()] is [NaN]) and its two locale renderings. *)
Record Date := mkDate {
  getTime : option Z;
  toLocaleString : string;
  toLocaleDateString : string
}.

Inductive TreeItemCollapsibleState := Collapsible_None | Collapsed.

Record ThemeIcon := mkThemeIcon {
  icon_id : Member;
  icon_color : option string
}.

(** The fields of a [vscode.TreeItem] that the two item classes set; a
    command's only argument is the item itself. *)
Record TreeItemView := mkTreeItemView {
  view_label : string;
  collapsibleState : TreeItemCollapsibleState;
  view_description : string;
  tooltip : string;
  contextValue : string;
  iconPath : ThemeIcon;
  view_command : option (string * string)
}.

Module Presentation.

(** [getTimeAgo(date)], with [now] the time value of [new Date()].  The
    subtraction and the division are on integers: time values are whole
    milliseconds, and rounding of a double can only occur far beyond the
    last threshold.  With [NaN] every comparison is false. *)
Definition getTimeAgo (now : Z) (date : Date) : string :=
  match getTime date with
  | None => toLocaleDateString date
  | Some time =>
      let seconds := ((now - time) / 1000)%Z in
      if (seconds <? 60)%Z then "just now"
      else if (seconds <? 3600)%Z then pretty (seconds / 60)%Z +:+ "m ago"
      else if (seconds <? 86400)%Z then pretty (seconds / 3600)%Z +:+ "h ago"
      else if (seconds <? 604800)%Z then pretty (seconds / 86400)%Z +:+ "d ago"
      else toLocaleDateString date
  end.

Definition iconMap : list (string * string) :=
  [ ("javascript", "symbol-method");
    ("typescript", "symbol-method");
    ("python", "symbol-method");
    ("java", "symbol-class");
    ("html", "code");
    ("css", "symbol-color");
    ("json", "json");
    ("markdown", "markdown");
    ("plaintext", "file-text") ].

Definition getFileIcon (language fileName : string) : ThemeIcon :=
  mkThemeIcon (object_get_or iconMap language "file-code") None.

(** The constructor of [PasteItem]; [date] is [new Date(createdAt)]. *)
Definition PasteItem_view (now : Z) (date : Date) (this : PasteItem.t) : TreeItemView :=
  let title := PasteItem.title this in
  let fileCount := PasteItem.fileCount this in
  let isPasswordProtected := PasteItem.isPasswordProtected this in
  let timeAgo := getTimeAgo now date in
  let lockIcon := if isPasswordProtected then "🔒 " else EmptyString in
  {| view_label := title;
     collapsibleState := if Nat.ltb 1 fileCount then Collapsed else Collapsible_None;
     view_description :=
       if Nat.ltb 1 fileCount
       then "📁 " +:+ pretty fileCount +:+ " files • " +:+ timeAgo
       else timeAgo;
     tooltip :=
       lockIcon +:+ title +:+ newline +:+ "📅 " +:+ toLocaleString date
       +:+ newline +:+ "👁 " +:+ PasteItem.visibility this
       +:+ newline +:+ "📝 " +:+ PasteItem.language this
       +:+ (if Nat.ltb 1 fileCount
            then newline +:+ "📁 " +:+ pretty fileCount +:+ " files"
            else EmptyString);
     contextValue := if isPasswordProtected then "paste-private" else "paste";
     iconPath :=
       if isPasswordProtected then mkThemeIcon (own "lock") (Some "charts.red")
       else if Nat.ltb 1 fileCount
            then mkThemeIcon (own "folder-library") (Some "charts.yellow")
            else mkThemeIcon (own "file-code") (Some "charts.blue");
     view_command :=
       if Nat.leb fileCount 1
       then Some ("pastezen.openPasteInEditor", "Open Paste")
       else None |}.

(** The constructor of [FileItem]. *)
Definition FileItem_view (this : FileItem.t) : TreeItemView :=
  let fileName := FileItem.fileName this in
  let language := FileItem.language this in
  {| view_label := fileName;
     collapsibleState := Collapsible_None;
     view_description := if FileItem.isMain this then "⭐ main" else EmptyString;
     tooltip :=
       fileName +:+ newline +:+ "📝 " +:+ language
       +:+ (if FileItem.isMain this then newline +:+ "⭐ Main file" else EmptyString)
       +:+ (if FileItem.isEncrypted this then newline +:+ "🔒 Encrypted" else EmptyString);
     contextValue := "file";
     iconPath := getFileIcon language fileName;
     view_command := Some ("pastezen.openFileInEditor", "Open File") |}.

End Presentation.

(** ** extension.ts: the remaining commands *)

(** [s.split('/')]: the pieces between the slashes, at least one. *)
Fixpoint split_slash (s : string) : list string :=
  match s with
  | EmptyString => [EmptyString]
  | String c s =>
      if Ascii.eqb c (Ascii.ascii_of_nat 47) then EmptyString :: split_slash s
      else match split_slash s with
           | piece :: pieces => String c piece :: pieces
           | [] => [String c EmptyString]
           end
  end.

(** The string has no slash in it. *)
Fixpoint no_slash (s : string) : bool :=
  match s with
  | EmptyString => true
  | String c s => negb (Ascii.eqb c (Ascii.ascii_of_nat 47)) && no_slash s
  end.

(** [fileName.split('/').pop() || fallback] *)
Definition split_pop_or (fileName fallback : string) : string :=
  PastesProvider.or_else (last (split_slash fileName)) fallback.

(** [s.toLowerCase()] is Unicode-aware in JavaScript; it enters as an
    interface with its behaviour on ASCII as a law. *)
Class JsString := {
  toLowerCase : string -> string
}.

Definition ascii_lower (c : Ascii.ascii) : Ascii.ascii :=
  let n := Ascii.nat_of_ascii c in
  if Nat.leb 65 n && Nat.leb n 90 then Ascii.ascii_of_nat (n + 32) else c.

Fixpoint string_lower (s : string) : string :=
  match s with
  | EmptyString => EmptyString
  | String c s => String (ascii_lower c) (string_lower s)
  end.



Inductive ConfigurationTarget := Global | Workspace | WorkspaceFolder.

(** The calls of the remaining commands that [Call] does not have. *)
Inductive Window : Type -> Type :=
| showInputBox_placeHolder (options : InputBoxOptions) (placeHolder : string)
    : Window (option string)
| showWarningMessage_items (msg : string) (items : list string) : Window (option string)
| selection_getText : Window string
| configuration_update (section key value : string) (target : ConfigurationTarget)
    : Window (Throws unit)
| openTextDocument (content : string) (language : Member) : Window (Throws TextDocument)
| showTextDocument (document : TextDocument) : Window (Throws unit).

(** A command handler: a program over both kinds of calls.  Console output
    is left out; it has no influence on what a handler does. *)
Inductive Cmd (A : Type) : Type :=
| Done (a : A)
| Core {X : Type} (c : Call X) (k : X -> Cmd A)
| Win {X : Type} (w : Window X) (k : X -> Cmd A).
Arguments Done {A} a.
Arguments Core {A X} c k.
Arguments Win {A X} w k.

Fixpoint Cmd_bind {A B} (k : A -> Cmd B) (m : Cmd A) : Cmd B :=
  match m with
  | Done a => k a
  | Core c h => Core c (fun x => Cmd_bind k (h x))
  | Win w h => Win w (fun x => Cmd_bind k (h x))
  end.

#[global] Instance Cmd_ret : MRet Cmd := fun A a => Done a.
#[global] Instance Cmd_mbind : MBind Cmd := fun A B k m => Cmd_bind k m.

(** A program of the first kind as a command handler. *)
Fixpoint lift {A} (p : Prog A) : Cmd A :=
  match p with
  | Ret a => Done a
  | Vis c k => Core c (fun x => lift (k x))
  end.

Definition ask {X} (w : Window X) : Cmd X := Win w Done.

Inductive Step : Type :=
| Called (e : Event)
| Asked {X : Type} (w : Window X) (x : X).

Definition WEnv := nat -> forall X, Window X -> X.

(** Running a handler from time [n] against both environments. *)
Fixpoint exec {A} (env : Env) (wenv : WEnv) (n : nat) (c : Cmd A) : A * list Step :=
  match c with
  | Done a => (a, [])
  | Core c k =>
      let x := env n _ c in
      let '(a, t) := exec env wenv (S n) (k x) in
      (a, Called (Ev c x) :: t)
  | Win w k =>
      let x := wenv n _ w in
      let '(a, t) := exec env wenv (S n) (k x) in
      (a, Asked w x :: t)
  end.

(** The editors a run has opened: content and language handed to
    [openTextDocument]. *)
Fixpoint opened (t : list Step) : list (string * Member) :=
  match t with
  | [] => []
  | Asked (openTextDocument content language) _ :: t => (content, language) :: opened t
  | _ :: t => opened t
  end.

(** The requests a run has sent to the store. *)
Fixpoint requests (t : list Step) : list Event :=
  match t with
  | [] => []
  | Called e :: t => if is_store_call e then e :: requests t else requests t
  | _ :: t => requests t
  end.

(** The values a run has written to the configuration. *)
Fixpoint written (t : list Step) : list (string * string * string) :=
  match t with
  | [] => []
  | Asked (configuration_update section key value _) _ :: t =>
      (section, key, value) :: written t
  | _ :: t => written t
  end.

(** The error messages a run has shown. *)
Fixpoint errors (t : list Step) : list string :=
  match t with
  | [] => []
  | Called (Ev (showErrorMessage msg _) _) :: t => msg :: errors t
  | _ :: t => errors t
  end.


Module Commands.
Section Handlers.
Context `{NB : NodeBuffer} `{NC : NodeCrypto} `{JS : JsString}.

(** Lines 25-43 of extension.ts.  The handler's promise rejects when the
    configuration cannot be written. *)
Definition tokenBox : InputBoxOptions :=
  {| prompt := "Enter your Pastezen API token"; password := true;
     ignoreFocusOut := false; value := None; validateInput := None |}.

Definition setApiToken : Cmd (Throws unit) :=
  token ← ask (showInputBox_placeHolder tokenBox
                 "Get your token from https://pastezen.com/tokens");
  if truthy token then
    updated ← ask (configuration_update "pastezen" "apiToken"
                     (default EmptyString token) Global);
    match updated with
    | Throw error => Done (Throw error)
    | Ok _ =>
        _ ← lift (await (showInformationMessage "API token saved! Please reload VS Code." []));
        Done (Ok tt)
    end
  else Done (Ok tt).

(** Lines 49-71. *)
Definition createFromSelection (pastesProvider : PastesProvider.t) (rng : Entropy)
  : Cmd (PastesProvider.t * Entropy) :=
  editor ← lift (await activeTextEditor);
  match editor with
  | None =>
      _ ← lift (await (showErrorMessage "No active editor" []));
      Done (pastesProvider, rng)
  | Some document =>
      text ← ask selection_getText;
      if negb (truthy (Some text)) then
        _ ← lift (await (showErrorMessage "No text selected" []));
        Done (pastesProvider, rng)
      else
        let fileName := split_pop_or (fileName document) "selection.txt" in
        let language := languageId document in
        lift (Extension.createPaste fileName text language pastesProvider rng)
  end.

(** Lines 74-89. *)
Definition createFromFile (pastesProvider : PastesProvider.t) (rng : Entropy)
  : Cmd (PastesProvider.t * Entropy) :=
  editor ← lift (await activeTextEditor);
  match editor with
  | None =>
      _ ← lift (await (showErrorMessage "No active editor" []));
      Done (pastesProvider, rng)
  | Some document =>
      let text := getText document in
      let fileName := split_pop_or (fileName document) "file.txt" in
      let language := languageId document in
      lift (Extension.createPaste fileName text language pastesProvider rng)
  end.

(** Lines 92-95. *)
Definition refreshPastes (pastesProvider : PastesProvider.t) : Cmd PastesProvider.t :=
  lift (PastesProvider.refresh pastesProvider).

(** [`${webUrl}/pastes/${paste.id}`] *)
Definition pasteUrl (webUrl : option string) (id : string) : string :=
  default "undefined" webUrl +:+ "/pastes/" +:+ id.

(** Lines 98-105. *)
Definition openPaste (paste : PasteItem.t) : Cmd unit :=
  webUrl ← lift (await (getConfiguration "pastezen" "webUrl"));
  lift (await (openExternal (pasteUrl webUrl (PasteItem.id paste)))).

(** Lines 130-138. *)
Definition copyPasteUrl (paste : PasteItem.t) : Cmd unit :=
  webUrl ← lift (await (getConfiguration "pastezen" "webUrl"));
  _ ← lift (await (clipboard_writeText (pasteUrl webUrl (PasteItem.id paste))));
  _ ← lift (await (showInformationMessage "Paste URL copied to clipboard" []));
  Done tt.

(** Lines 108-127. *)
Definition deletePaste (pastesProvider : PastesProvider.t) (paste : PasteItem.t)
  : Cmd PastesProvider.t :=
  confirm ← ask (showWarningMessage_items
    ("Delete paste " +:+ dquote +:+ PasteItem.title paste +:+ dquote +:+ "?")
    ["Delete"; "Cancel"]);
  if bool_decide (confirm = Some "Delete") then
    deleted ← lift (PastezenAPI.deletePaste (PasteItem.id paste));
    match deleted with
    | Ok _ =>
        _ ← lift (await (showInformationMessage ("Deleted: " +:+ PasteItem.title paste) []));
        lift (PastesProvider.refresh pastesProvider)
    | Throw error =>
        _ ← lift (await (showErrorMessage
               ("Failed to delete paste: " +:+ Extension.error_message error) []));
        Done pastesProvider
    end
  else Done pastesProvider.

(** Lines 438-462. *)
Definition languageMap : list (string * string) :=
  [ ("javascript", "javascript");
    ("typescript", "typescript");
    ("python", "python");
    ("java", "java");
    ("csharp", "csharp");
    ("cpp", "cpp");
    ("c", "c");
    ("html", "html");
    ("css", "css");
    ("json", "json");
    ("markdown", "markdown");
    ("plaintext", "plaintext");
    ("xml", "xml");
    ("yaml", "yaml");
    ("shell", "shellscript");
    ("bash", "shellscript");
    ("sql", "sql");
    ("php", "php");
    ("ruby", "ruby");
    ("go", "go");
    ("rust", "rust");
    ("swift", "swift");
    ("kotlin", "kotlin") ].

(** Lines 436-486.  The module-level map of documentTracker.ts is passed in
    and handed back with the outcome. *)
Definition openContentInEditor (documentMetadataMap : DocumentTracker.t)
    (content language fileName : string) (pasteId : option string) (fileIndex : option nat)
  : Cmd (Throws unit * DocumentTracker.t) :=
  let vscodeLang := object_get_or languageMap (toLowerCase language) "plaintext" in
  (* Create untitled document with content *)
  created ← ask (openTextDocument content vscodeLang);
  match created with
  | Throw error => Done (Throw error, documentMetadataMap)
  | Ok doc =>
      (* Track this document if it's linked to a paste *)
      let documentMetadataMap :=
        match pasteId, fileIndex with
        | Some pasteId, Some fileIndex =>
            DocumentTracker.trackDocument documentMetadataMap (uri doc)
              (DocumentMetadata.mk pasteId fileIndex fileName language)
        | _, _ => documentMetadataMap
        end in
      shown ← ask (showTextDocument doc);
      Done (shown, documentMetadataMap)
  end.

(** Lines 228-237. *)
Definition openFileInEditor (documentMetadataMap : DocumentTracker.t)
    (fileItem : FileItem.t) : Cmd DocumentTracker.t :=
  outcome ← openContentInEditor documentMetadataMap
    (FileItem.content fileItem) (FileItem.language fileItem) (FileItem.fileName fileItem)
    (Some (FileItem.pasteId fileItem)) (Some (FileItem.fileIndex fileItem));
  match outcome.1 with
  | Ok _ => Done outcome.2
  | Throw error =>
      _ ← lift (await (showErrorMessage
             ("Failed to open file: " +:+ Extension.error_message error) []));
      Done outcome.2
  end.

Definition protectedPrompt : InputBoxOptions :=
  {| prompt := "🔐 This paste is protected. Enter passphrase:";
     password := true;
     ignoreFocusOut := true;
     value := None;
     validateInput := None |}.

Definition incorrect (documentMetadataMap : DocumentTracker.t) : Cmd DocumentTracker.t :=
  _ ← lift (await (showErrorMessage "Incorrect passphrase" []));
  Done documentMetadataMap.

(** Lines 192-223: the outer [catch (error: any)] of [openPasteInEditor]. *)
Definition openPasteInEditor_catch (documentMetadataMap : DocumentTracker.t)
    (paste : PasteItem.t) (error : JsError) : Cmd DocumentTracker.t :=
  let is403 :=
    bool_decide (response_status error = Some 403)
    || from_option (includes "403") false (message error) in
  if is403 then
    (* Try prompting for password if we get 403 *)
    passphrase ← lift (await (showInputBox protectedPrompt));
    if truthy passphrase then
      let passphrase := default EmptyString passphrase in
      unlocked ← lift (PastezenAPI.unlockPaste (PasteItem.id paste) passphrase);
      match unlocked with
      | Throw unlockError => incorrect documentMetadataMap
      | Ok fullPaste =>
          match PastesProvider.nonempty_files fullPaste with
          | Some (file :: _) =>
              let decrypted :=
                if truthy (salt file) && truthy (iv file)
                then Crypto.decryptContent (content file) passphrase
                       (default EmptyString (salt file)) (default EmptyString (iv file))
                else Ok (content file) in
              match decrypted with
              | Throw unlockError => incorrect documentMetadataMap
              | Ok content =>
                  outcome ← openContentInEditor documentMetadataMap content
                    (language file) (name file) (Some (PasteItem.id paste)) (Some 0);
                  match outcome.1 with
                  | Ok _ => Done outcome.2
                  | Throw unlockError => incorrect outcome.2
                  end
              end
          | _ => Done documentMetadataMap
          end
      end
    else Done documentMetadataMap
  else
    _ ← lift (await (showErrorMessage
           ("Failed to open paste: " +:+ Extension.error_message error) []));
    Done documentMetadataMap.

(** Lines 175-191: open the first file of the resolved payload. *)
Definition openPasteInEditor_first (documentMetadataMap : DocumentTracker.t)
    (paste : PasteItem.t) (fullPaste : Paste) (passphrase : option string)
  : Cmd DocumentTracker.t :=
  match PastesProvider.nonempty_files fullPaste with
  | Some (file :: _) =>
      let decrypted :=
        (* Decrypt if encrypted *)
        if truthy passphrase && truthy (salt file) && truthy (iv file)
        then Crypto.decryptContent (content file) (default EmptyString passphrase)
               (default EmptyString (salt file)) (default EmptyString (iv file))
        else Ok (content file) in
      match decrypted with
      | Throw decryptError =>
          _ ← lift (await (showErrorMessage "Failed to decrypt content" []));
          Done documentMetadataMap
      | Ok content =>
          outcome ← openContentInEditor documentMetadataMap content
            (language file) (name file) (Some (PasteItem.id paste)) (Some 0);
          match outcome.1 with
          | Ok _ => Done outcome.2
          | Throw error => openPasteInEditor_catch outcome.2 paste error
          end
      end
  | _ => Done documentMetadataMap
  end.

(** Lines 141-225. *)
Definition openPasteInEditor (documentMetadataMap : DocumentTracker.t)
    (paste : PasteItem.t) : Cmd DocumentTracker.t :=
  (* Check if paste is private/password-protected *)
  if PasteItem.isPasswordProtected paste then
    passphrase ← lift (await (showInputBox (PastesProvider.unlockPrompt paste)));
    if negb (truthy passphrase) then Done documentMetadataMap
    else
      unlocked ← lift (PastezenAPI.unlockPaste (PasteItem.id paste)
                         (default EmptyString passphrase));
      match unlocked with
      | Throw unlockError => incorrect documentMetadataMap
      | Ok fullPaste =>
          openPasteInEditor_first documentMetadataMap paste fullPaste passphrase
      end
  else
    fetched ← lift (PastezenAPI.getPaste (PasteItem.id paste));
    match fetched with
    | Throw error => openPasteInEditor_catch documentMetadataMap paste error
    | Ok fullPaste => openPasteInEditor_first documentMetadataMap paste fullPaste None
    end.

End Handlers.
End Commands.

(** Every item of the list is a file item of [element] that knows its own
    position in the list. *)
Definition indexed (element : PasteItem.t) (items : list TreeItem) : Prop :=
  ∀ i item, items !! i = Some item →
    ∃ f, item = TFile f
      ∧ FileItem.pasteId f = PasteItem.id element
      ∧ FileItem.fileIndex f = i.

(** The texts a run has put on the clipboard, and the links it has opened
    in the browser. *)
Fixpoint copied (t : list Event) : list string :=
  match t with
  | [] => []
  | Ev (clipboard_writeText text) _ :: t => text :: copied t
  | _ :: t => copied t
  end.

Fixpoint browsed (t : list Event) : list string :=
  match t with
  | [] => []
  | Ev (openExternal url) _ :: t => url :: browsed t
  | _ :: t => browsed t
  end.

(** The information messages a run has shown. *)
Fixpoint infos (t : list Step) : list string :=
  match t with
  | [] => []
  | Called (Ev (showInformationMessage msg _) _) :: t => msg :: infos t
  | _ :: t => infos t
  end.

(** The store served a paste: a GET or an unlock that was answered. *)
Definition is_served (s : Step) : bool :=
  match s with
  | Called (Ev c x) =>
      let answered := fun (x : Throws Paste) =>
        match x with Ok _ => true | Throw _ => false end in
      match c in Call X return X -> bool with
      | client_get _ => answered
      | client_post_unlock _ _ => answered
      | _ => fun _ => false
      end x
  | Asked _ _ => false
  end.

(** The calls of the first kind in a run. *)
Fixpoint events (t : list Step) : list Event :=
  match t with
  | [] => []
  | Called e :: t => e :: events t
  | Asked _ _ :: t => events t
  end.


(** ** An executable window

    The counterpart of [Sim.World] for the calls of [Window]: plain ASCII
    lowering for [toLowerCase] and fixed answers of the editor. *)
Module SimWindow.

#[global] Instance js : JsString := {| toLowerCase := string_lower |}.

Record Desk := mkDesk {
  token_typed : option string;
  confirmation : option string;
  selected : string;
  config_write : Throws unit;
  document_for : string -> Member -> Throws TextDocument;
  reveal : Throws unit
}.

Definition wenv (d : Desk) : WEnv := fun n X w =>
  match w in Window X return X with
  | showInputBox_placeHolder _ _ => token_typed d
  | showWarningMessage_items _ _ => confirmation d
  | selection_getText => selected d
  | configuration_update _ _ _ _ => config_write d
  | openTextDocument content language => document_for d content language
  | showTextDocument _ => reveal d
  end.

(** An editor that opens every document under one URI and shows it. *)
Definition untitled (content : string) (language : Member) : Throws TextDocument :=
  Ok (mkTextDocument "untitled:Untitled-1" content EmptyString
        match language with own id => id | inherited name => name end).

Definition desk : Desk :=
  {| token_typed := None; confirmation := None; selected := EmptyString;
     config_write := Ok tt; document_for := untitled; reveal := Ok tt |}.

End SimWindow.

(** ** More sample data *)

Module Desk.

(** 2023-11-13T22:40:00Z, as [new Date] of an ISO string reads it. *)
Definition yesterday : Date :=
  mkDate (Some 1699915200000%Z) "11/13/2023, 10:40:00 PM" "11/13/2023".

(** Paste A as the store lists it when it is private. *)
Definition privatePaste : Paste :=
  {| _id := "A"; title := Some "sample"; createdAt := "2024-01-01T00:00:00Z";
     visibility := Some "private"; paste_language := Some "plaintext";
     files := Some [Sample.notes; Sample.stray; Sample.readme];
     isPasswordProtected := None |}.


(** A store that answers GET with 403 and accepts any unlock request, and
    a user who types a passphrase that opens none of the files. *)
Definition lenient : Sim.World :=
  {| Sim.inputs := fun _ => Some "wrong-pass"; Sim.picks := Sim.picks Sim.silent;
     Sim.buttons := Sim.buttons Sim.silent; Sim.editor := Sim.editor Sim.silent;
     Sim.settings := Sim.settings Sim.silent;
     Sim.store_create := Sim.store_create Sim.silent;
     Sim.store_unlock :=
       fun _ _ _ => Ok (Sample.paste [Sample.notes; Sample.stray; Sample.readme]);
     Sim.store_list := Sim.store_list Sim.silent;
     Sim.store_get := Sim.store_get Sim.silent;
     Sim.store_put := Sim.store_put Sim.silent;
     Sim.store_delete := Sim.store_delete Sim.silent |}.

(** A user who answers the warning with "Cancel", and one who answers it
    with "Delete". *)
Definition hesitant : SimWindow.Desk :=
  {| SimWindow.token_typed := None; SimWindow.confirmation := Some "Cancel";
     SimWindow.selected := EmptyString; SimWindow.config_write := Ok tt;
     SimWindow.document_for := SimWindow.untitled; SimWindow.reveal := Ok tt |}.

Definition resolute : SimWindow.Desk :=
  {| SimWindow.token_typed := None; SimWindow.confirmation := Some "Delete";
     SimWindow.selected := EmptyString; SimWindow.config_write := Ok tt;
     SimWindow.document_for := SimWindow.untitled; SimWindow.reveal := Ok tt |}.

(** The editor shows a file of a project, with a part of it selected. *)
Definition source : TextDocument :=
  mkTextDocument "file:///home/me/project/src/main.py"
    ("print(1)" +:+ newline +:+ "print(2)") "/home/me/project/src/main.py" "python".

Definition coding : Sim.World :=
  {| Sim.inputs := Sim.inputs Sim.silent; Sim.picks := Sim.picks Sim.silent;
     Sim.buttons := Sim.buttons Sim.silent; Sim.editor := fun _ => Some source;
     Sim.settings := Sim.settings Sim.silent;
     Sim.store_create := Sim.store_create Sim.silent;
     Sim.store_unlock := Sim.store_unlock Sim.silent;
     Sim.store_list := Sim.store_list Sim.silent;
     Sim.store_get := Sim.store_get Sim.silent;
     Sim.store_put := Sim.store_put Sim.silent;
     Sim.store_delete := Sim.store_delete Sim.silent |}.

Definition selecting : SimWindow.Desk :=
  {| SimWindow.token_typed := None; SimWindow.confirmation := None;
     SimWindow.selected := "print(2)"; SimWindow.config_write := Ok tt;
     SimWindow.document_for := SimWindow.untitled; SimWindow.reveal := Ok tt |}.

(** The document of the editor was opened from a fourth file of paste A,
    which the paste no longer has. *)
Definition staleTracker : DocumentTracker.t :=
  DocumentTracker.trackDocument ∅ "untitled:Untitled-1"
    (DocumentMetadata.mk "A" 3 "gone.txt" "plaintext").

(** A store that answers GET with 403 and accepts the unlock request of a
    user who types the right passphrase. *)
Definition guarded : Sim.World :=
  {| Sim.inputs := fun _ => Some "correct-horse"; Sim.picks := Sim.picks Sim.silent;
     Sim.buttons := Sim.buttons Sim.silent; Sim.editor := Sim.editor Sim.silent;
     Sim.settings := Sim.settings Sim.silent;
     Sim.store_create := Sim.store_create Sim.silent;
     Sim.store_unlock :=
       fun _ _ _ => Ok (Sample.paste [Sample.notes; Sample.stray; Sample.readme]);
     Sim.store_list := Sim.store_list Sim.silent;
     Sim.store_get := Sim.store_get Sim.silent;
     Sim.store_put := Sim.store_put Sim.silent;
     Sim.store_delete := Sim.store_delete Sim.silent |}.

(** The settings name the web site; the store accepts what is posted and
    the user asks for the browser. *)
Definition online : Sim.World :=
  {| Sim.inputs := Sim.inputs Sim.silent; Sim.picks := Sim.picks Sim.silent;
     Sim.buttons := fun _ => Some "Open in Browser"; Sim.editor := Sim.editor Sim.silent;
     Sim.settings := fun _ _ => Some "https://pastezen.com";
     Sim.store_create := fun _ payload => Ok (Sample.paste (payload_files payload));
     Sim.store_unlock := Sim.store_unlock Sim.silent;
     Sim.store_list := Sim.store_list Sim.silent;
     Sim.store_get := Sim.store_get Sim.silent;
     Sim.store_put := Sim.store_put Sim.silent;
     Sim.store_delete := Sim.store_delete Sim.silent |}.

Definition publicOptions : CreatePasteOptions.t :=
  {| CreatePasteOptions.title := "sample";
     CreatePasteOptions.fileName := "README.md";
     CreatePasteOptions.content := "IyBwbGFpbg==";
     CreatePasteOptions.language := "markdown";
     CreatePasteOptions.visibility := Some public;
     CreatePasteOptions.encryptionLevel := None;
     CreatePasteOptions.isPasswordProtected := None;
     CreatePasteOptions.password := None;
     CreatePasteOptions.salt := None;
     CreatePasteOptions.iv := None |}.

End Desk.

(** * Properties *)

(** ** Buffers and entropy *)

Lemma Buffer_slice_tail (body tail : bytes) :
  length tail = 16 → Buffer_slice (body ++ tail) (-16) None = tail.
Proof.
  intros Ht. unfold Buffer_slice. cbn zeta.
  rewrite length_app, Ht.
  replace (Z.to_nat _) with 16 by (cbn; lia).
  replace (Z.to_nat _) with (length body) by (cbn; lia).
  rewrite drop_app_length. rewrite <- Ht. apply firstn_all.
Qed.

Lemma Buffer_slice_body (body tail : bytes) :
  length tail = 16 → Buffer_slice (body ++ tail) 0 (Some (-16)%Z) = body.
Proof.
  intros Ht. unfold Buffer_slice. cbn zeta.
  rewrite length_app, Ht.
  replace (Z.to_nat _) with (length body) by (cbn; lia).
  replace (Z.to_nat _) with 0 by (cbn; lia).
  cbn [skipn]. apply take_app_length.
Qed.

Lemma randomBytes_length (n : nat) (e : Entropy) :
  length (fst (randomBytes n e)) = n.
Proof. unfold randomBytes. cbn. now rewrite length_map, length_seq. Qed.

(** A buffer of at most 16 bytes is all tag and no body. *)
Lemma Buffer_slice_short (b : bytes) :
  (length b ≤ 16)%nat →
  Buffer_slice b (-16) None = b ∧ Buffer_slice b 0 (Some (-16)%Z) = [].
Proof.
  intros H. unfold Buffer_slice. cbn zeta.
  change (-16 <? 0)%Z with true. change (0 <? 0)%Z with false. cbn iota.
  rewrite Z.max_r by lia. rewrite Z.min_l by lia.
  split.
  - cbn [Z.to_nat skipn]. apply firstn_all2. lia.
  - now replace (Z.to_nat (0 - 0)) with 0 by reflexivity.
Qed.

(** ** The executable instance obeys the laws *)

Module SimFacts.
Import Sim.

Lemma bxor_involutive (a k : byte) : bxor (bxor a k) k = a.
Proof.
  unfold bxor.
  rewrite <- (Byte.of_bits_to_bits a) at 2.
  destruct (Byte.to_bits a) as (a0 & a1 & a2 & a3 & a4 & a5 & a6 & a7).
  destruct (Byte.to_bits k) as (k0 & k1 & k2 & k3 & k4 & k5 & k6 & k7).
  rewrite Byte.to_bits_of_bits.
  now rewrite !xorb_assoc, !xorb_nilpotent, !xorb_false_r.
Qed.

Lemma xor_with_length (data ks : bytes) :
  length ks = length data → length (xor_with data ks) = length data.
Proof.
  revert ks. induction data as [|d data IH]; intros [|k ks] H; cbn in *; try lia.
  now rewrite IH by lia.
Qed.

Lemma xor_with_involutive (data ks : bytes) :
  length ks = length data → xor_with (xor_with data ks) ks = data.
Proof.
  revert ks. induction data as [|d data IH]; intros [|k ks] H; cbn in *; try easy.
  now rewrite bxor_involutive, IH by lia.
Qed.

Lemma keystream_length (key iv : bytes) (off n : nat) :
  length (keystream key iv off n) = n.
Proof. unfold keystream. now rewrite length_map, length_seq. Qed.

Lemma char_of_sextet_spec (s : sextet) :
  Ascii.eqb (char_of_sextet s) pad = false
  ∧ sextet_of_char (char_of_sextet s) = Some s.
Proof.
  destruct s as [[[[[b5 b4] b3] b2] b1] b0].
  destruct b5, b4, b3, b2, b1, b0; vm_compute; split; reflexivity.
Qed.

Lemma sextets_cons (s : sextet) (rest : string) :
  sextets (String (char_of_sextet s) rest) = s :: sextets rest.
Proof.
  destruct (char_of_sextet_spec s) as [Hp Hs].
  cbn [sextets]. now rewrite Hp, Hs.
Qed.

Lemma sextets_pad (rest : string) : sextets (String pad rest) = [].
Proof. reflexivity. Qed.

Lemma join4_split3 (a b c : byte) (s0 s1 s2 s3 : sextet) :
  split3 a b c = (s0, s1, s2, s3) → join4 s0 s1 s2 s3 = (a, b, c).
Proof.
  unfold split3. intros H.
  pose proof (Byte.of_bits_to_bits a) as Ha.
  pose proof (Byte.of_bits_to_bits b) as Hb.
  pose proof (Byte.of_bits_to_bits c) as Hc.
  destruct (Byte.to_bits a) as (a0 & a1 & a2 & a3 & a4 & a5 & a6 & a7).
  destruct (Byte.to_bits b) as (b0 & b1 & b2 & b3 & b4 & b5 & b6 & b7).
  destruct (Byte.to_bits c) as (c0 & c1 & c2 & c3 & c4 & c5 & c6 & c7).
  inversion H; subst. reflexivity.
Qed.

(** With fewer than three bytes left, the sextets that carry only filling
    bits are dropped and the bytes before them are unaffected. *)
Lemma join4_first (a b c : byte) (s0 s1 s2 s3 t2 t3 : sextet) :
  split3 a b c = (s0, s1, s2, s3) → (join4 s0 s1 t2 t3).1.1 = a.
Proof.
  intros H. pose proof (join4_split3 _ _ _ _ _ _ _ H) as J.
  destruct s0 as [[[[[? ?] ?] ?] ?] ?], s1 as [[[[[? ?] ?] ?] ?] ?],
    s2 as [[[[[? ?] ?] ?] ?] ?], s3 as [[[[[? ?] ?] ?] ?] ?],
    t2 as [[[[[? ?] ?] ?] ?] ?], t3 as [[[[[? ?] ?] ?] ?] ?].
  cbn in *. now inversion J.
Qed.

Lemma join4_second (a b c : byte) (s0 s1 s2 s3 t3 : sextet) :
  split3 a b c = (s0, s1, s2, s3) → (join4 s0 s1 s2 t3).1.2 = b.
Proof.
  intros H. pose proof (join4_split3 _ _ _ _ _ _ _ H) as J.
  destruct s0 as [[[[[? ?] ?] ?] ?] ?], s1 as [[[[[? ?] ?] ?] ?] ?],
    s2 as [[[[[? ?] ?] ?] ?] ?], s3 as [[[[[? ?] ?] ?] ?] ?],
    t3 as [[[[[? ?] ?] ?] ?] ?].
  cbn in *. now inversion J.
Qed.

(** Induction over a buffer three bytes at a time. *)
Lemma bytes_by_three (P : bytes → Prop) :
  P [] → (∀ a, P [a]) → (∀ a b, P [a; b]) →
  (∀ a b c l, P l → P (a :: b :: c :: l)) →
  ∀ l, P l.
Proof.
  intros H0 H1 H2 H3. fix IH 1.
  intros [|a [|b [|c l]]]; [exact H0 | apply H1 | apply H2 | apply H3, IH].
Qed.

Lemma base64_roundtrip (l : bytes) : base64_decode (base64_encode l) = l.
Proof.
  unfold base64_decode. induction l as [|a|a b|a b c l IH] using bytes_by_three.
  - reflexivity.
  - cbn [base64_encode].
    destruct (split3 a x00 x00) as [[[s0 s1] s2] s3] eqn:H.
    rewrite !sextets_cons, sextets_pad. cbn [unpack].
    pose proof (join4_first _ _ _ _ _ _ _ zero6 zero6 H) as J.
    destruct (join4 s0 s1 zero6 zero6) as [[? ?] ?]. cbn in J. now subst.
  - cbn [base64_encode].
    destruct (split3 a b x00) as [[[s0 s1] s2] s3] eqn:H.
    rewrite !sextets_cons, sextets_pad. cbn [unpack].
    pose proof (join4_first _ _ _ _ _ _ _ s2 zero6 H) as J1.
    pose proof (join4_second _ _ _ _ _ _ _ zero6 H) as J2.
    destruct (join4 s0 s1 s2 zero6) as [[? ?] ?]. cbn in J1, J2. now subst.
  - cbn [base64_encode].
    destruct (split3 a b c) as [[[s0 s1] s2] s3] eqn:H.
    rewrite !sextets_cons. cbn [unpack].
    now rewrite (join4_split3 _ _ _ _ _ _ _ H), IH.
Qed.

Lemma sim_base64 : @base64_lossless buffer.
Proof. exact base64_roundtrip. Qed.

Lemma sim_utf8 : @utf8_lossless buffer.
Proof. intros s _. apply string_of_list_byte_of_string. Qed.

Lemma sim_pbkdf2 : @pbkdf2_keylen crypto.
Proof. intros p s c n d. cbn. now rewrite length_map, length_seq. Qed.

(** Sealing in the instance, in closed form. *)
Lemma sim_seal (key iv plaintext : bytes) :
  @gcm_seal crypto key iv plaintext =
    (_ ← accepts "aes-256-gcm" key iv;
     let ct := xor_with plaintext (keystream key iv 0 (length plaintext)) in
     Ok (ct, tag16 key iv ct)).
Proof.
  unfold gcm_seal. cbn.
  destruct (accepts _ key iv); [|reflexivity]. cbn.
  now rewrite app_nil_r.
Qed.

(** Opening in the instance, in closed form. *)
Lemma sim_open (key iv ct tag : bytes) :
  @gcm_open crypto key iv ct tag =
    (_ ← accepts "aes-256-gcm" key iv;
     if valid_tag_length (length tag) then
       if bool_decide (tag = firstn (length tag) (tag16 key iv ct))
       then Ok (xor_with ct (keystream key iv 0 (length ct)))
       else Throw (mkJsError None (Some "Unsupported state or unable to authenticate data"))
     else Throw (TypeError "Invalid authentication tag length")).
Proof.
  unfold gcm_open. cbn.
  destruct (accepts _ key iv); [|reflexivity]. cbn.
  destruct (valid_tag_length _); [|reflexivity]. cbn.
  destruct (bool_decide _); [|reflexivity]. cbn.
  now rewrite app_nil_r.
Qed.

Lemma accepts_ok (key iv : bytes) :
  length key = 32 → length iv ≠ 0 → accepts "aes-256-gcm" key iv = Ok tt.
Proof.
  intros Hk Hi. unfold accepts.
  rewrite !bool_decide_eq_true_2 by done. cbn.
  now rewrite bool_decide_eq_false_2.
Qed.

Lemma sim_seals : @gcm_seals crypto.
Proof.
  intros key iv pt Hk Hi. rewrite sim_seal, accepts_ok by lia. cbn.
  do 2 eexists. split; [reflexivity|]. split; [|reflexivity].
  apply xor_with_length, keystream_length.
Qed.

Lemma sim_tag_16 : @gcm_tag_16 crypto.
Proof.
  intros key iv pt ct tag. rewrite sim_seal.
  destruct (accepts _ key iv); [|discriminate]. cbn.
  now intros [= <- <-].
Qed.

Lemma sim_opens : @gcm_opens crypto.
Proof.
  intros key iv pt ct tag. rewrite sim_seal, sim_open.
  destruct (accepts _ key iv); [|discriminate]. cbn.
  intros [= <- <-].
  rewrite bool_decide_eq_true_2 by reflexivity.
  rewrite xor_with_length by apply keystream_length.
  now rewrite xor_with_involutive by apply keystream_length.
Qed.

End SimFacts.

(** ** The codec *)

Section CodecFacts.
Context `{NB : NodeBuffer} `{NC : NodeCrypto}.

(** [encryptContent] draws salt and nonce, then seals once and encodes. *)
Lemma encryptContent_unfold (content passphrase : string) (rng : Entropy) :
  let salt := fst (randomBytes Crypto.SALT_LENGTH rng) in
  let rng1 := snd (randomBytes Crypto.SALT_LENGTH rng) in
  let iv := fst (randomBytes Crypto.IV_LENGTH rng1) in
  let rng2 := snd (randomBytes Crypto.IV_LENGTH rng1) in
  Crypto.encryptContent content passphrase rng =
    (seal_with salt iv content passphrase, rng2).
Proof.
  cbn zeta. unfold Crypto.encryptContent, seal_with, gcm_seal, randomBytes. cbn [fst snd].
  f_equal.
  destruct (createCipheriv _ _ _) as [c|e]; [|reflexivity]. cbn.
  destruct (Cipher_update c _) as [out c1].
  destruct (Cipher_final c1) as [[fin c2]|e]; [|reflexivity]. cbn.
  destruct (Cipher_getAuthTag c2) as [tag|e]; reflexivity.
Qed.

(** [decryptContent] decodes, splits off the last 16 bytes, opens once and
    decodes the text. *)
Lemma decryptContent_unfold (encryptedBase64 passphrase saltBase64 ivBase64 : string) :
  Crypto.decryptContent encryptedBase64 passphrase saltBase64 ivBase64 =
    (decrypted ←
       gcm_open (Crypto.deriveKey passphrase (Buffer_from_base64 saltBase64))
                (Buffer_from_base64 ivBase64)
                (Buffer_slice (Buffer_from_base64 encryptedBase64) 0 (Some (-16)%Z))
                (Buffer_slice (Buffer_from_base64 encryptedBase64) (-16) None);
     Ok (toString_utf8 decrypted)).
Proof.
  unfold Crypto.decryptContent, gcm_open. cbn zeta.
  destruct (createDecipheriv _ _ _) as [d|e]; [|reflexivity]. cbn.
  destruct (Decipher_setAuthTag d _) as [d1|e]; [|reflexivity]. cbn.
  destruct (Decipher_update d1 _) as [out d2].
  destruct (Decipher_final d2) as [[fin d3]|e]; reflexivity.
Qed.

Lemma deriveKey_length (passphrase : string) (salt : bytes) :
  pbkdf2_keylen → length (Crypto.deriveKey passphrase salt) = 32.
Proof. intros H. apply H. Qed.

(** A blob built by the sealing construction opens again, whatever the
    lengths of its salt and nonce. *)
Lemma decrypt_sealed (salt iv : bytes) (x p : string) (encrypted authTag : bytes) :
  base64_lossless → utf8_lossless → gcm_opens →
  isWellFormed x = true →
  gcm_seal (Crypto.deriveKey p salt) iv (Buffer_from_utf8 x) = Ok (encrypted, authTag) →
  length authTag = 16 →
  Crypto.decryptContent (toString_base64 (encrypted ++ authTag)) p
    (toString_base64 salt) (toString_base64 iv) = Ok x.
Proof.
  intros Hb64 Hutf8 Hopen Hx Hs Htag.
  rewrite decryptContent_unfold, !Hb64.
  rewrite Buffer_slice_body, Buffer_slice_tail by assumption.
  rewrite (Hopen _ _ _ _ _ Hs). cbn. now rewrite Hutf8.
Qed.

End CodecFacts.

(** C1. Round trip: a well-formed string sealed under a passphrase unseals,
    under the same passphrase and the blob's own salt and nonce, to exactly
    that string; sealing itself never throws. *)
Theorem seal_unseal_roundtrip `{NB : NodeBuffer} `{NC : NodeCrypto} :
  base64_lossless → utf8_lossless → pbkdf2_keylen → gcm_seals → gcm_opens →
  ∀ (x p : string) (rng : Entropy),
    isWellFormed x = true →
    ∃ e, fst (Crypto.encryptContent x p rng) = Ok e
         ∧ Crypto.decryptContent (Crypto.encrypted e) p (Crypto.salt e) (Crypto.iv e) = Ok x.
Proof.
  intros Hb64 Hutf8 Hkey Hseal Hopen x p rng Hx.
  rewrite encryptContent_unfold. cbn [fst].
  set (salt := fst (randomBytes Crypto.SALT_LENGTH rng)).
  set (iv := fst (randomBytes Crypto.IV_LENGTH _)).
  assert (Hiv : length iv = 12) by apply randomBytes_length.
  clearbody salt iv.
  destruct (Hseal (Crypto.deriveKey p salt) iv (Buffer_from_utf8 x))
    as (ct & tag & Hs & _ & Htag); [now apply deriveKey_length | assumption |].
  unfold seal_with. rewrite Hs. cbn. eexists; split; [reflexivity|]. cbn.
  now apply decrypt_sealed.
Qed.

Lemma seal_unseal_roundtrip_witness :
  ∃ e, fst (@Crypto.encryptContent Sim.buffer Sim.crypto
              "hello world" "correct-horse" Sim.tape) = Ok e
       ∧ @Crypto.decryptContent Sim.buffer Sim.crypto
           (Crypto.encrypted e) "correct-horse" (Crypto.salt e) (Crypto.iv e)
         = Ok "hello world".
Proof.
  apply (@seal_unseal_roundtrip Sim.buffer Sim.crypto
           SimFacts.sim_base64 SimFacts.sim_utf8 SimFacts.sim_pbkdf2
           SimFacts.sim_seals SimFacts.sim_opens).
  reflexivity.
Defined.

(** C2. Key derivation is PBKDF2 over SHA-256 with the fixed count of
    100000 iterations and a 32-byte output; it takes nothing but passphrase
    and salt, so equal inputs give equal keys and no call can choose another
    iteration count. *)
Theorem deriveKey_is_pbkdf2 `{NC : NodeCrypto} :
  pbkdf2_keylen →
  ∀ (passphrase : string) (salt : bytes),
    length salt = 16 →
    Crypto.deriveKey passphrase salt
      = pbkdf2Sync passphrase salt 100000%N 32 "sha256"
    ∧ length (Crypto.deriveKey passphrase salt) = 32
    ∧ Crypto.PBKDF2_ITERATIONS = 100000%N
    ∧ ∀ (passphrase' : string) (salt' : bytes),
        passphrase' = passphrase → salt' = salt →
        Crypto.deriveKey passphrase' salt' = Crypto.deriveKey passphrase salt.
Proof.
  intros Hlen passphrase salt _. repeat split.
  - apply Hlen.
  - now intros ? ? -> ->.
Qed.

Lemma deriveKey_is_pbkdf2_witness :
  let salt := fst (randomBytes 16 Sim.tape) in
  @Crypto.deriveKey Sim.crypto "correct-horse" salt
    = @pbkdf2Sync Sim.crypto "correct-horse" salt 100000%N 32 "sha256"
  ∧ length (@Crypto.deriveKey Sim.crypto "correct-horse" salt) = 32
  ∧ Crypto.PBKDF2_ITERATIONS = 100000%N
  ∧ ∀ (passphrase' : string) (salt' : bytes),
      passphrase' = "correct-horse" → salt' = salt →
      @Crypto.deriveKey Sim.crypto passphrase' salt'
        = @Crypto.deriveKey Sim.crypto "correct-horse" salt.
Proof.
  intros salt.
  apply (@deriveKey_is_pbkdf2 Sim.crypto SimFacts.sim_pbkdf2 "correct-horse" salt).
  reflexivity.
Defined.

(** C3. Seal output structure: the salt is the next 16 bytes of entropy and
    the nonce the 12 bytes after them; the ciphertext field encodes the GCM
    output followed by its 16-byte tag, salt and nonce are encoded on their
    own, and the decoded ciphertext is 16 bytes longer than the UTF-8
    plaintext.  The 28 bytes read are consumed. *)
Theorem seal_structure `{NB : NodeBuffer} `{NC : NodeCrypto} :
  base64_lossless → pbkdf2_keylen → gcm_seals →
  ∀ (x p : string) (rng : Entropy),
    let salt := map rng (seq 0 16) in
    let iv := map rng (seq 16 12) in
    ∃ encrypted authTag e,
      gcm_seal (Crypto.deriveKey p salt) iv (Buffer_from_utf8 x) = Ok (encrypted, authTag)
      ∧ length authTag = 16
      ∧ fst (Crypto.encryptContent x p rng) = Ok e
      ∧ Crypto.encrypted e = toString_base64 (encrypted ++ authTag)
      ∧ Crypto.salt e = toString_base64 salt
      ∧ Crypto.iv e = toString_base64 iv
      ∧ length salt = 16 ∧ length iv = 12
      ∧ length (Buffer_from_base64 (Crypto.encrypted e))
          = length (Buffer_from_utf8 x) + 16
      ∧ (16 ≤ length (Buffer_from_base64 (Crypto.encrypted e)))%nat
      ∧ ∀ i, snd (Crypto.encryptContent x p rng) i = rng (28 + i).
Proof.
  intros Hb64 Hkey Hseal x p rng salt iv.
  rewrite encryptContent_unfold. cbn [fst snd].
  change (fst (randomBytes Crypto.SALT_LENGTH rng)) with salt.
  change (fst (randomBytes Crypto.IV_LENGTH (snd (randomBytes Crypto.SALT_LENGTH rng))))
    with iv.
  assert (Hs : length salt = 16) by reflexivity.
  assert (Hi : length iv = 12) by reflexivity.
  clearbody salt iv.
  destruct (Hseal (Crypto.deriveKey p salt) iv (Buffer_from_utf8 x))
    as (ct & tag & Hsealed & Hct & Htag); [now apply deriveKey_length | assumption |].
  exists ct, tag. unfold seal_with. rewrite Hsealed. cbn. eexists. split; [reflexivity|].
  split; [assumption|]. split; [reflexivity|]. cbn.
  rewrite Hb64, length_app, Hct, Htag.
  repeat split; try assumption; try lia.
Qed.

Lemma seal_structure_witness :
  let salt := map Sim.tape (seq 0 16) in
  let iv := map Sim.tape (seq 16 12) in
  ∃ encrypted authTag e,
    @gcm_seal Sim.crypto (@Crypto.deriveKey Sim.crypto "correct-horse" salt) iv
       (@Buffer_from_utf8 Sim.buffer "hello world") = Ok (encrypted, authTag)
    ∧ length authTag = 16
    ∧ fst (@Crypto.encryptContent Sim.buffer Sim.crypto
             "hello world" "correct-horse" Sim.tape) = Ok e
    ∧ Crypto.encrypted e = @toString_base64 Sim.buffer (encrypted ++ authTag)
    ∧ Crypto.salt e = @toString_base64 Sim.buffer salt
    ∧ Crypto.iv e = @toString_base64 Sim.buffer iv
    ∧ length salt = 16 ∧ length iv = 12
    ∧ length (@Buffer_from_base64 Sim.buffer (Crypto.encrypted e))
        = length (@Buffer_from_utf8 Sim.buffer "hello world") + 16
    ∧ (16 ≤ length (@Buffer_from_base64 Sim.buffer (Crypto.encrypted e)))%nat
    ∧ ∀ i, snd (@Crypto.encryptContent Sim.buffer Sim.crypto
                  "hello world" "correct-horse" Sim.tape) i = Sim.tape (28 + i).
Proof.
  exact (@seal_structure Sim.buffer Sim.crypto
           SimFacts.sim_base64 SimFacts.sim_pbkdf2 SimFacts.sim_seals
           "hello world" "correct-horse" Sim.tape).
Defined.

(** C4, as the code has it.  [decryptContent] checks no lengths of its own
    and decoding never fails: it throws exactly when the decipher rejects
    its key, nonce or tag or the tag fails verification, and what it
    returns is the text of what the decipher released. *)
Theorem unseal_fails_closed `{NB : NodeBuffer} `{NC : NodeCrypto}
    (encryptedBase64 passphrase saltBase64 ivBase64 : string) :
  let encryptedWithTag := Buffer_from_base64 encryptedBase64 in
  let opened :=
    gcm_open (Crypto.deriveKey passphrase (Buffer_from_base64 saltBase64))
             (Buffer_from_base64 ivBase64)
             (Buffer_slice encryptedWithTag 0 (Some (-16)%Z))
             (Buffer_slice encryptedWithTag (-16) None) in
  (∀ error, opened = Throw error →
     Crypto.decryptContent encryptedBase64 passphrase saltBase64 ivBase64 = Throw error)
  ∧ (∀ decrypted, opened = Ok decrypted →
       Crypto.decryptContent encryptedBase64 passphrase saltBase64 ivBase64
       = Ok (toString_utf8 decrypted))
  ∧ (∀ text,
       Crypto.decryptContent encryptedBase64 passphrase saltBase64 ivBase64 = Ok text →
       ∃ decrypted, opened = Ok decrypted ∧ text = toString_utf8 decrypted).
Proof.
  cbn zeta. rewrite decryptContent_unfold. split; [|split].
  - now intros error ->.
  - now intros decrypted ->.
  - intros text. destruct (gcm_open _ _ _ _) as [decrypted|error]; [|discriminate].
    cbn. intros [= <-]. now exists decrypted.
Qed.

(** Interoperability: a blob sealed by the same construction under any salt
    and any nonce the cipher accepts, by this client or another, unseals to
    its plaintext. *)
Theorem sealed_with_any_parameters_unseals `{NB : NodeBuffer} `{NC : NodeCrypto} :
  base64_lossless → utf8_lossless → gcm_opens → gcm_tag_16 →
  ∀ (salt iv : bytes) (x p : string) (e : Crypto.Encrypted),
    isWellFormed x = true →
    seal_with salt iv x p = Ok e →
    Crypto.decryptContent (Crypto.encrypted e) p (Crypto.salt e) (Crypto.iv e) = Ok x.
Proof.
  intros Hb64 Hutf8 Hopen Htag salt iv x p e Hx. unfold seal_with.
  destruct (gcm_seal _ _ _) as [[ct tag]|error] eqn:Hs; [|discriminate].
  cbn. intros [= <-]. cbn.
  apply decrypt_sealed; eauto.
Qed.

Lemma sealed_with_any_parameters_unseals_witness :
  @Crypto.decryptContent Sim.buffer Sim.crypto
    (Crypto.encrypted Sample.blob) "correct-horse"
    (Crypto.salt Sample.blob) (Crypto.iv Sample.blob)
  = Ok "hello world".
Proof.
  apply (@sealed_with_any_parameters_unseals Sim.buffer Sim.crypto
           SimFacts.sim_base64 SimFacts.sim_utf8 SimFacts.sim_opens SimFacts.sim_tag_16
           (map Sim.tape (seq 0 16)) (map Sim.tape (seq 16 12))
           "hello world" "correct-horse" Sample.blob);
    reflexivity.
Defined.

(** C4 as stated fails: a blob whose salt decodes to 8 bytes, one whose
    nonce decodes to 16 bytes, and one whose ciphertext decodes to 12 bytes
    (the first 12 bytes of the tag of the empty text) all unseal. *)
Lemma unseal_accepts_other_lengths :
  let salt8 := map Sim.tape (seq 0 8) in
  let iv12 := map Sim.tape (seq 8 12) in
  let salt16 := map Sim.tape (seq 0 16) in
  let iv16 := map Sim.tape (seq 16 16) in
  (∃ e, @seal_with Sim.buffer Sim.crypto salt8 iv12 "hello world" "correct-horse" = Ok e
        ∧ length (@Buffer_from_base64 Sim.buffer (Crypto.salt e)) = 8
        ∧ @Crypto.decryptContent Sim.buffer Sim.crypto
            (Crypto.encrypted e) "correct-horse" (Crypto.salt e) (Crypto.iv e)
          = Ok "hello world")
  ∧ (∃ e, @seal_with Sim.buffer Sim.crypto salt16 iv16 "hello world" "correct-horse" = Ok e
          ∧ length (@Buffer_from_base64 Sim.buffer (Crypto.iv e)) = 16
          ∧ @Crypto.decryptContent Sim.buffer Sim.crypto
              (Crypto.encrypted e) "correct-horse" (Crypto.salt e) (Crypto.iv e)
            = Ok "hello world")
  ∧ (∃ e short,
       @seal_with Sim.buffer Sim.crypto salt16 iv12 EmptyString "correct-horse" = Ok e
       ∧ short = @toString_base64 Sim.buffer
                   (firstn 12 (@Buffer_from_base64 Sim.buffer (Crypto.encrypted e)))
       ∧ length (@Buffer_from_base64 Sim.buffer short) = 12
       ∧ @Crypto.decryptContent Sim.buffer Sim.crypto
           short "correct-horse" (Crypto.salt e) (Crypto.iv e)
         = Ok EmptyString).
Proof.
  split; [|split].
  - eexists. split; [vm_compute; reflexivity|]. vm_compute. split; reflexivity.
  - eexists. split; [vm_compute; reflexivity|]. vm_compute. split; reflexivity.
  - do 2 eexists. split; [vm_compute; reflexivity|]. split; [reflexivity|].
    vm_compute. split; reflexivity.
Qed.

(** ** Programs and their traces *)

Lemma run_bind {A B} (env : Env) (n : nat) (m : Prog A) (k : A → Prog B) :
  run env n (m ≫= k) =
    let '(a, t) := run env n m in
    let '(b, t') := run env (n + length t) (k a) in
    (b, t ++ t').
Proof.
  revert n. induction m as [a|X c h IH]; intros n.
  - cbn. rewrite Nat.add_0_r. now destruct (run env n (k a)).
  - cbn. change (Prog_bind k (h (env n X c))) with (h (env n X c) ≫= k).
    rewrite IH. destruct (run env (S n) (h (env n X c))) as [a t].
    cbn. replace (n + S (length t)) with (S (n + length t)) by lia.
    now destruct (run env (S (n + length t)) (k a)).
Qed.

(** ** The paste tree provider *)

Section ProviderFacts.
Context `{NB : NodeBuffer} `{NC : NodeCrypto}.
Import PastesProvider.

Implicit Types (this : PastesProvider.t) (element : PasteItem.t).

Lemma cached_session this id unlocked :
  unlockedPastes this !! id = Some unlocked →
  cached this id = Some (Unlocked.paste unlocked).
Proof. unfold cached. now intros ->. Qed.

(** With a payload at hand the resolution step awaits nothing. *)
Lemma getChildren_files_cached this element paste :
  cached this (PasteItem.id element) = Some paste →
  getChildren_files this element = Ret (fileItems this element paste, this).
Proof. unfold getChildren_files. now intros ->. Qed.

(** The guard of line 139 is closed by a session, and by an item that is
    not flagged as protected. *)
Lemma getChildren_unguarded this element :
  PasteItem.isPasswordProtected element = false
  ∨ is_Some (unlockedPastes this !! PasteItem.id element) →
  getChildren this (Some (TPaste element)) = getChildren_files this element.
Proof.
  intros H. unfold getChildren.
  destruct H as [-> | H]; [reflexivity|].
  now rewrite (bool_decide_eq_true_2 _ H), andb_false_r.
Qed.

(** Served from a session, or from the plain cache through an unflagged
    item, the call is a plain return. *)
Lemma getChildren_served this element paste (env : Env) (n : nat) :
  cached this (PasteItem.id element) = Some paste →
  PasteItem.isPasswordProtected element = false
  ∨ is_Some (unlockedPastes this !! PasteItem.id element) →
  run env n (getChildren this (Some (TPaste element)))
  = ((fileItems this element paste, this), []).
Proof.
  intros Hc Hg.
  now rewrite getChildren_unguarded, (getChildren_files_cached _ _ _ Hc).
Qed.

End ProviderFacts.

(** C7, as the code has it.  When a session exists for the paste, or a plain
    cache entry exists and the item is not flagged as protected, the files
    are served from that entry: the call awaits nothing (no store request,
    no prompt) and leaves both maps as they were. *)
Theorem cache_reuse `{NB : NodeBuffer} `{NC : NodeCrypto}
    (this : PastesProvider.t) (element : PasteItem.t) (paste : Paste) :
  PastesProvider.cached this (PasteItem.id element) = Some paste →
  PasteItem.isPasswordProtected element = false
  ∨ is_Some (PastesProvider.unlockedPastes this !! PasteItem.id element) →
  ∀ (env : Env) (n : nat),
    let r := run env n (PastesProvider.getChildren this (Some (TPaste element))) in
    r.1 = (PastesProvider.fileItems this element paste, this)
    ∧ existsb is_store_call r.2 = false
    ∧ existsb is_prompt r.2 = false
    ∧ r.2 = [].
Proof.
  intros Hc Hg env n. cbn zeta.
  now rewrite (getChildren_served _ _ _ _ _ Hc Hg).
Qed.

Lemma cache_reuse_witness :
  let r := run (Sim.env Sim.silent) 0
    (@PastesProvider.getChildren Sim.buffer Sim.crypto
       Sample.unlockedA (Some (TPaste Sample.protectedItem))) in
  r.1 = (@PastesProvider.fileItems Sim.buffer Sim.crypto Sample.unlockedA
           Sample.protectedItem
           (Sample.paste [Sample.notes; Sample.stray; Sample.readme]),
         Sample.unlockedA)
  ∧ existsb is_store_call r.2 = false
  ∧ existsb is_prompt r.2 = false
  ∧ r.2 = [].
Proof.
  apply (@cache_reuse Sim.buffer Sim.crypto).
  - reflexivity.
  - right. eexists. reflexivity.
Defined.

(** C7 as stated fails for a plain cache entry of an item flagged as
    protected: after a first call cached paste A through an unflagged item,
    a call through a flagged item for the same identifier prompts. *)
Lemma plain_entry_of_protected_item_prompts :
  let first := run (Sim.env Sample.openStore) 0
    (@PastesProvider.getChildren Sim.buffer Sim.crypto
       PastesProvider.init (Some (TPaste Sample.publicItem))) in
  let this := first.1.2 in
  let second := run (Sim.env Sample.openStore) (length first.2)
    (@PastesProvider.getChildren Sim.buffer Sim.crypto
       this (Some (TPaste Sample.protectedItem))) in
  PastesProvider.pasteCache this !! "A" = Some (Sample.paste [Sample.readme])
  ∧ existsb is_prompt second.2 = true.
Proof. vm_compute. split; reflexivity. Qed.

Section UnlockFacts.
Context `{NB : NodeBuffer} `{NC : NodeCrypto}.
Import PastesProvider.

Implicit Types (this : PastesProvider.t) (element : PasteItem.t).

(** While the guard of line 139 is open, the call starts with the prompt. *)
Lemma getChildren_guarded_prompts this element (env : Env) (n : nat) :
  PasteItem.isPasswordProtected element = true →
  unlockedPastes this !! PasteItem.id element = None →
  ∃ rest,
    (run env n (getChildren this (Some (TPaste element)))).2
    = Ev (showInputBox (unlockPrompt element))
         (env n _ (showInputBox (unlockPrompt element))) :: rest.
Proof.
  intros Hp Hs. unfold getChildren. rewrite Hp, Hs.
  rewrite bool_decide_eq_false_2 by (intros [? ?]; discriminate).
  cbn. destruct (run env (S n) _) as [a t]. now exists t.
Qed.

(** The 403 handler either returns at once or asks for a passphrase; a
    denied unlock in it ends the call with nothing changed. *)
Lemma getChildren_catch_denied this element error (env : Env) (n : nat) :
  let r := run env n (getChildren_catch this element error) in
  existsb is_denied_unlock r.2 = true →
  r.1 = ([], this) ∧ existsb is_incorrect_passphrase r.2 = true.
Proof.
  unfold getChildren_catch.
  destruct (_ && _); [|discriminate]. cbn.
  destruct (truthy _); [|discriminate]. cbn.
  destruct (env (S n) _ _) as [paste|e]; cbn.
  - destruct (nonempty_files paste); discriminate.
  - easy.
Qed.

Lemma getChildren_files_denied this element (env : Env) (n : nat) :
  let r := run env n (getChildren_files this element) in
  existsb is_denied_unlock r.2 = true →
  r.1 = ([], this) ∧ existsb is_incorrect_passphrase r.2 = true.
Proof.
  unfold getChildren_files.
  destruct (cached _ _); [discriminate|]. cbn.
  destruct (env n _ _) as [paste|e]; cbn; [discriminate|].
  pose proof (getChildren_catch_denied this element e env (S n)) as H.
  cbn zeta in H. destruct (run env (S n) _) as [a t]. exact H.
Qed.

End UnlockFacts.

(** C6. Failed unlock leaves no trace: whenever the store rejects the unlock
    request of a call, the call reports an incorrect passphrase and ends with
    no files and with both maps exactly as they were, so no session exists
    from the attempt; the next call for a protected item therefore starts
    with the passphrase prompt again. *)
Theorem failed_unlock_leaves_no_trace `{NB : NodeBuffer} `{NC : NodeCrypto}
    (this : PastesProvider.t) (element : PasteItem.t) (env : Env) (n : nat) :
  let r := run env n (PastesProvider.getChildren this (Some (TPaste element))) in
  existsb is_denied_unlock r.2 = true →
  r.1 = ([], this)
  ∧ existsb is_incorrect_passphrase r.2 = true
  ∧ (PasteItem.isPasswordProtected element = true →
     PastesProvider.unlockedPastes r.1.2 !! PasteItem.id element = None
     ∧ ∀ (env' : Env) (m : nat), ∃ rest,
         (run env' m (PastesProvider.getChildren r.1.2 (Some (TPaste element)))).2
         = Ev (showInputBox (PastesProvider.unlockPrompt element))
              (env' m _ (showInputBox (PastesProvider.unlockPrompt element))) :: rest).
Proof.
  cbn zeta. intros Hdenied.
  assert (Hres : ((run env n (PastesProvider.getChildren this (Some (TPaste element)))).1
                  = ([], this)
                  ∧ existsb is_incorrect_passphrase
                      (run env n (PastesProvider.getChildren this (Some (TPaste element)))).2
                    = true)
                 ∧ (PasteItem.isPasswordProtected element = true →
                    PastesProvider.unlockedPastes this !! PasteItem.id element = None)).
  { revert Hdenied. unfold PastesProvider.getChildren.
    destruct (PasteItem.isPasswordProtected element) eqn:Hp; cbn [andb].
    - destruct (PastesProvider.unlockedPastes this !! PasteItem.id element)
        as [u|] eqn:Hs.
      + rewrite bool_decide_eq_true_2 by eauto. cbn [negb].
        rewrite (getChildren_files_cached _ _ _ (cached_session _ _ _ Hs)).
        discriminate.
      + rewrite bool_decide_eq_false_2 by (intros [? ?]; discriminate). cbn.
        destruct (truthy _); cbn; [|discriminate].
        destruct (env (S n) _ _) as [paste|e]; cbn; [|now split].
        erewrite getChildren_files_cached
          by (apply cached_session; cbn; apply lookup_insert_eq).
        discriminate.
    - intros H. split; [|discriminate].
      now apply getChildren_files_denied. }
  destruct Hres as [[Hres Hmsg] Hnone]. split; [exact Hres|]. split; [exact Hmsg|].
  intros Hp. rewrite Hres. cbn [snd]. split; [auto|].
  intros env' m. apply getChildren_guarded_prompts; auto.
Qed.

Lemma failed_unlock_leaves_no_trace_witness :
  let r := run (Sim.env Sample.wrongGuess) 0
    (@PastesProvider.getChildren Sim.buffer Sim.crypto
       Sample.fetchedA (Some (TPaste Sample.protectedItem))) in
  r.1 = ([], Sample.fetchedA)
  ∧ existsb is_incorrect_passphrase r.2 = true
  ∧ (PasteItem.isPasswordProtected Sample.protectedItem = true →
     PastesProvider.unlockedPastes r.1.2 !! PasteItem.id Sample.protectedItem = None
     ∧ ∀ (env' : Env) (m : nat), ∃ rest,
         (run env' m (@PastesProvider.getChildren Sim.buffer Sim.crypto
                        r.1.2 (Some (TPaste Sample.protectedItem)))).2
         = Ev (showInputBox (PastesProvider.unlockPrompt Sample.protectedItem))
              (env' m _ (showInputBox (PastesProvider.unlockPrompt Sample.protectedItem)))
           :: rest).
Proof.
  apply (@failed_unlock_leaves_no_trace Sim.buffer Sim.crypto
           Sample.fetchedA Sample.protectedItem (Sim.env Sample.wrongGuess) 0).
  reflexivity.
Defined.

(** C5. Per-file isolation: materialising an unlocked paste returns one item
    per file, in the store's order; a file that carries salt and nonce shows
    its decrypted body if unsealing succeeds and the marker
    [[Decryption failed]] if it throws, whatever happens to the other files;
    a file without them shows its body verbatim.  The call itself succeeds
    without awaiting anything. *)
Theorem per_file_isolation `{NB : NodeBuffer} `{NC : NodeCrypto}
    (this : PastesProvider.t) (element : PasteItem.t)
    (unlocked : Unlocked.t) (fs : list PasteFile) (env : Env) (n : nat) :
  PastesProvider.unlockedPastes this !! PasteItem.id element = Some unlocked →
  Unlocked.passphrase unlocked ≠ EmptyString →
  files (Unlocked.paste unlocked) = Some fs →
  ∃ items,
    run env n (PastesProvider.getChildren this (Some (TPaste element)))
      = ((items, this), [])
    ∧ length items = length fs
    ∧ ∀ (i : nat) (file : PasteFile),
        fs !! i = Some file →
        ∃ body,
          items !! i = Some (TFile (FileItem.mk (name file) body (language file)
                                      (isMain file) (PasteItem.id element) i
                                      (PasteItem.isPasswordProtected element)))
          ∧ if truthy (salt file) && truthy (iv file) then
              match Crypto.decryptContent (content file) (Unlocked.passphrase unlocked)
                      (default EmptyString (salt file)) (default EmptyString (iv file)) with
              | Ok text => body = text
              | Throw _ => body = "[Decryption failed]"
              end
            else body = content file.
Proof.
  intros Hs Hpass Hfiles.
  exists (imap (PastesProvider.fileItem (Some (Unlocked.passphrase unlocked)) element) fs).
  split; [|split].
  - rewrite (getChildren_served this element (Unlocked.paste unlocked))
      by (eauto using cached_session).
    do 2 f_equal. unfold PastesProvider.fileItems, PastesProvider.nonempty_files.
    rewrite Hfiles, Hs. now destruct fs.
  - apply length_imap.
  - intros i file Hi. rewrite list_lookup_imap, Hi. cbn.
    unfold PastesProvider.fileItem.
    assert (Ht : truthy (Some (Unlocked.passphrase unlocked)) = true).
    { cbn. destruct (Unlocked.passphrase unlocked); [congruence | reflexivity]. }
    rewrite Ht. cbn [andb default].
    eexists. split; [reflexivity|].
    destruct (truthy (salt file) && truthy (iv file)); [|reflexivity].
    now destruct (Crypto.decryptContent _ _ _ _).
Qed.

Lemma per_file_isolation_witness :
  ∃ items,
    run (Sim.env Sim.silent) 0
      (@PastesProvider.getChildren Sim.buffer Sim.crypto
         Sample.unlockedA (Some (TPaste Sample.protectedItem)))
      = ((items, Sample.unlockedA), [])
    ∧ length items = length [Sample.notes; Sample.stray; Sample.readme]
    ∧ ∀ (i : nat) (file : PasteFile),
        [Sample.notes; Sample.stray; Sample.readme] !! i = Some file →
        ∃ body,
          items !! i = Some (TFile (FileItem.mk (name file) body (language file)
                                      (isMain file) (PasteItem.id Sample.protectedItem) i
                                      (PasteItem.isPasswordProtected Sample.protectedItem)))
          ∧ if truthy (salt file) && truthy (iv file) then
              match @Crypto.decryptContent Sim.buffer Sim.crypto (content file) "correct-horse"
                      (default EmptyString (salt file)) (default EmptyString (iv file)) with
              | Ok text => body = text
              | Throw _ => body = "[Decryption failed]"
              end
            else body = content file.
Proof.
  apply (@per_file_isolation Sim.buffer Sim.crypto Sample.unlockedA Sample.protectedItem
           (Unlocked.mk (Sample.paste [Sample.notes; Sample.stray; Sample.readme])
              "correct-horse")).
  - reflexivity.
  - discriminate.
  - reflexivity.
Defined.

(** The sample paste in full: the file sealed under the session's passphrase
    is readable, the one sealed under another key shows the marker, the
    plain one is verbatim. *)
Example per_file_isolation_sample :
  (run (Sim.env Sim.silent) 0
     (@PastesProvider.getChildren Sim.buffer Sim.crypto
        Sample.unlockedA (Some (TPaste Sample.protectedItem)))).1.1
  = [ TFile (FileItem.mk "notes.txt" "hello world" "plaintext" false "A" 0 true);
      TFile (FileItem.mk "stray.txt" "[Decryption failed]" "plaintext" false "A" 1 true);
      TFile (FileItem.mk "README.md" "# plain" "markdown" true "A" 2 true) ].
Proof. vm_compute. reflexivity. Qed.

(** ** The save and create commands *)

Section SaveFacts.
Context `{NB : NodeBuffer} `{NC : NodeCrypto}.

Lemma set_file_content_ok (paste : Paste) (fs : list PasteFile)
    (i : nat) (file : PasteFile) (text : string) :
  files paste = Some fs → fs !! i = Some file →
  Extension.set_file_content paste i text
  = Ok (<[i := mkPasteFile (name file) text (language file) (isMain file)
                 (salt file) (iv file)]> fs).
Proof. unfold Extension.set_file_content. now intros -> ->. Qed.

End SaveFacts.

(** C10. Saving re-uploads plaintext: for a tracked document whose paste the
    store returns, the command sends exactly one update, to that paste, whose
    file list is the fetched one with the editor's text put verbatim as the
    content of the tracked file; that file keeps its name, language, salt and
    nonce, and every other file is sent back unchanged.  Nothing is sealed. *)
Theorem save_uploads_plaintext `{NB : NodeBuffer} `{NC : NodeCrypto}
    (documentMetadataMap : DocumentTracker.t) (pastesProvider : PastesProvider.t)
    (env : Env) (n : nat) (document : TextDocument) (metadata : DocumentMetadata.t)
    (paste : Paste) (fs : list PasteFile) (file : PasteFile) :
  env n _ activeTextEditor = Some document →
  DocumentTracker.getDocumentMetadata documentMetadataMap (uri document) = Some metadata →
  env (S n) _ (client_get ("/api/pastes/" +:+ DocumentMetadata.pasteId metadata)) = Ok paste →
  files paste = Some fs →
  fs !! DocumentMetadata.fileIndex metadata = Some file →
  ∃ sent,
    uploads (run env n (Extension.saveToPastezen documentMetadataMap pastesProvider)).2
      = [("/api/pastes/" +:+ DocumentMetadata.pasteId metadata, {| updates_files := sent |})]
    ∧ sent !! DocumentMetadata.fileIndex metadata
        = Some (mkPasteFile (name file) (getText document) (language file)
                  (isMain file) (salt file) (iv file))
    ∧ length sent = length fs
    ∧ ∀ j, j ≠ DocumentMetadata.fileIndex metadata → sent !! j = fs !! j.
Proof.
  intros Hed Hmeta Hget Hfiles Hfile.
  exists (<[DocumentMetadata.fileIndex metadata :=
             mkPasteFile (name file) (getText document) (language file)
               (isMain file) (salt file) (iv file)]> fs).
  split; [|split; [|split]].
  - unfold Extension.saveToPastezen. cbn. rewrite Hed, Hmeta. cbn. rewrite Hget.
    rewrite (set_file_content_ok _ _ _ _ _ Hfiles Hfile). cbn.
    destruct (env (S (S n)) _ _) as [updated|error]; reflexivity.
  - apply list_lookup_insert_eq. now apply lookup_lt_Some in Hfile.
  - apply length_insert.
  - intros j Hj. now apply list_lookup_insert_ne.
Qed.

Lemma save_uploads_plaintext_witness :
  ∃ sent,
    uploads (run (Sim.env Sample.writable) 0
               (Extension.saveToPastezen Sample.tracker Sample.unlockedA)).2
      = [("/api/pastes/" +:+ "A", {| updates_files := sent |})]
    ∧ sent !! 0
        = Some (mkPasteFile (name Sample.notes) (getText Sample.document)
                  (language Sample.notes) (isMain Sample.notes)
                  (salt Sample.notes) (iv Sample.notes))
    ∧ length sent = length [Sample.notes; Sample.stray; Sample.readme]
    ∧ ∀ j, j ≠ 0 → sent !! j = [Sample.notes; Sample.stray; Sample.readme] !! j.
Proof.
  apply (save_uploads_plaintext Sample.tracker Sample.unlockedA
           (Sim.env Sample.writable) 0 Sample.document
           (DocumentMetadata.mk "A" 0 "notes.txt" "plaintext")
           (Sample.paste [Sample.notes; Sample.stray; Sample.readme])
           [Sample.notes; Sample.stray; Sample.readme] Sample.notes);
    reflexivity.
Defined.

(** The sample in full: the sealed file of a protected paste goes back to
    the store as the editor's text, still carrying its salt and nonce. *)
Example save_uploads_plaintext_sample :
  uploads (run (Sim.env Sample.writable) 0
             (Extension.saveToPastezen Sample.tracker Sample.unlockedA)).2
  = [("/api/pastes/A",
      {| updates_files :=
           [ mkPasteFile "notes.txt" "edited text" "plaintext" false
               (salt Sample.notes) (iv Sample.notes);
             Sample.stray; Sample.readme ] |})]
  ∧ truthy (salt Sample.notes) = true ∧ truthy (iv Sample.notes) = true.
Proof. vm_compute. repeat split. Qed.

(** ** Sessions and access-denied answers *)

Section SessionFacts.
Context `{NB : NodeBuffer} `{NC : NodeCrypto}.
Import PastesProvider.

Implicit Types (this : PastesProvider.t) (element : PasteItem.t).

(** With a session at hand the 403 handler returns at once. *)
Lemma getChildren_catch_session this element error :
  is_Some (unlockedPastes this !! PasteItem.id element) →
  getChildren_catch this element error = Ret ([], this).
Proof.
  intros H. unfold getChildren_catch.
  now rewrite (bool_decide_eq_true_2 _ H), andb_false_r.
Qed.

(** A save that the store rejects changes nothing in the provider and
    involves neither a prompt nor an unlock request. *)
Lemma saveToPastezen_rejected (documentMetadataMap : DocumentTracker.t) this
    (env : Env) (n : nat) :
  let r := run env n (Extension.saveToPastezen documentMetadataMap this) in
  existsb is_rejected r.2 = true →
  r.1 = this ∧ existsb is_prompt r.2 = false ∧ existsb is_unlock r.2 = false.
Proof.
  unfold Extension.saveToPastezen. cbn.
  destruct (env n _ activeTextEditor) as [document|]; cbn; [|discriminate].
  destruct (DocumentTracker.getDocumentMetadata _ _) as [metadata|]; cbn.
  - destruct (env (S n) _ _) as [paste|error]; cbn; [|easy].
    destruct (Extension.set_file_content _ _ _) as [files|error]; cbn; [|discriminate].
    destruct (env (S (S n)) _ _) as [updated|error]; cbn; [discriminate|easy].
  - destruct (bool_decide _); cbn; discriminate.
Qed.

(** Unlock requests of the paste branch carry what the user has just typed. *)
Lemma getChildren_catch_freshly_prompted this element error (env : Env) (n : nat) :
  freshly_prompted None (run env n (getChildren_catch this element error)).2 = true.
Proof.
  unfold getChildren_catch.
  destruct (_ && _); [|reflexivity]. cbn.
  destruct (env n _ _) as [[|a s]|]; try reflexivity. cbn.
  destruct (env (S n) _ _) as [paste|e]; cbn.
  - destruct (nonempty_files paste); cbn; now rewrite bool_decide_eq_true_2.
  - now rewrite bool_decide_eq_true_2.
Qed.

Lemma getChildren_files_freshly_prompted this element (env : Env) (n : nat) :
  freshly_prompted None (run env n (getChildren_files this element)).2 = true.
Proof.
  unfold getChildren_files.
  destruct (cached _ _); [reflexivity|]. cbn.
  destruct (env n _ _) as [paste|e]; [reflexivity|]. cbn.
  pose proof (getChildren_catch_freshly_prompted this element e env (S n)) as H.
  now destruct (run env (S n) _).
Qed.

Lemma getChildren_freshly_prompted this element (env : Env) (n : nat) :
  freshly_prompted None (run env n (getChildren this (Some (TPaste element)))).2 = true.
Proof.
  unfold getChildren.
  destruct (_ && _); [|apply getChildren_files_freshly_prompted]. cbn.
  destruct (env n _ _) as [[|a s]|]; try reflexivity. cbn.
  destruct (env (S n) _ _) as [paste|e]; cbn.
  - erewrite getChildren_files_cached
      by (apply cached_session; cbn; apply lookup_insert_eq).
    cbn. now rewrite bool_decide_eq_true_2.
  - now rewrite bool_decide_eq_true_2.
Qed.

(** A session is only ever added for a paste that has none. *)
Lemma sessions_grow_insert this id (unlocked : Unlocked.t) :
  ¬ is_Some (unlockedPastes this !! id) →
  unlockedPastes this ⊆ <[id := unlocked]> (unlockedPastes this).
Proof.
  intros H. apply insert_subseteq.
  destruct (unlockedPastes this !! id) eqn:E; [|reflexivity].
  exfalso. apply H. eauto.
Qed.

Lemma getChildren_catch_grows this element error (env : Env) (n : nat) :
  unlockedPastes this ⊆ unlockedPastes (run env n (getChildren_catch this element error)).1.2.
Proof.
  unfold getChildren_catch.
  destruct (bool_decide (is_Some _)) eqn:Hs; [now rewrite andb_false_r|].
  apply bool_decide_eq_false_1 in Hs.
  destruct (_ || _); [|reflexivity]. cbn.
  destruct (truthy _); [|reflexivity]. cbn.
  destruct (env (S n) _ _) as [paste|e]; cbn; [|reflexivity].
  destruct (nonempty_files paste); cbn; now apply sessions_grow_insert.
Qed.

Lemma getChildren_files_grows this element (env : Env) (n : nat) :
  unlockedPastes this ⊆ unlockedPastes (run env n (getChildren_files this element)).1.2.
Proof.
  unfold getChildren_files.
  destruct (cached _ _); [reflexivity|]. cbn.
  destruct (env n _ _) as [paste|e]; cbn; [reflexivity|].
  pose proof (getChildren_catch_grows this element e env (S n)) as H.
  now destruct (run env (S n) _).
Qed.

(** No call of [getChildren] drops or replaces a session. *)
Lemma getChildren_sessions_grow this (element : option TreeItem) (env : Env) (n : nat) :
  unlockedPastes this ⊆ unlockedPastes (run env n (getChildren this element)).1.2.
Proof.
  destruct element as [[element|file]|].
  - unfold getChildren.
    destruct (bool_decide (is_Some _)) eqn:Hs;
      [rewrite andb_false_r; apply getChildren_files_grows|].
    apply bool_decide_eq_false_1 in Hs.
    destruct (PasteItem.isPasswordProtected element); [|apply getChildren_files_grows]. cbn.
    destruct (truthy _); [|reflexivity]. cbn.
    destruct (env (S n) _ _) as [paste|e]; cbn; [|reflexivity].
    erewrite getChildren_files_cached
      by (apply cached_session; cbn; apply lookup_insert_eq).
    cbn. now apply sessions_grow_insert.
  - cbn. destruct (env n _ _) as [pastes|e]; cbn; [reflexivity|].
    destruct (bool_decide _); [|reflexivity]. cbn.
    now destruct (bool_decide _).
  - cbn. destruct (env n _ _) as [pastes|e]; cbn; [reflexivity|].
    destruct (bool_decide _); [|reflexivity]. cbn.
    now destruct (bool_decide _).
Qed.

End SessionFacts.

(** C8, as the code has it.  A session is not dropped when the store denies
    access.  With a session for the paste in place: the 403 handler of the
    paste branch returns at once, without prompting; a save that the store
    rejects leaves the session where it is and involves neither a prompt nor
    an unlock request; no call of [getChildren], for whatever item and
    whatever the store answers, drops or replaces the session; and a call
    for the paste itself awaits nothing.  A stored passphrase is never sent
    again: in any state, every unlock request carries the answer to the
    prompt shown just before it. *)
Theorem session_survives_denial `{NB : NodeBuffer} `{NC : NodeCrypto}
    (this : PastesProvider.t) (element : PasteItem.t) (unlocked : Unlocked.t) :
  PastesProvider.unlockedPastes this !! PasteItem.id element = Some unlocked →
  (∀ error, PastesProvider.getChildren_catch this element error = Ret ([], this))
  ∧ (∀ (documentMetadataMap : DocumentTracker.t) (env : Env) (n : nat),
       let r := run env n (Extension.saveToPastezen documentMetadataMap this) in
       existsb is_rejected r.2 = true →
       PastesProvider.unlockedPastes r.1 !! PasteItem.id element = Some unlocked
       ∧ existsb is_prompt r.2 = false ∧ existsb is_unlock r.2 = false)
  ∧ (∀ (other : option TreeItem) (env : Env) (n : nat),
       PastesProvider.unlockedPastes
         (run env n (PastesProvider.getChildren this other)).1.2 !! PasteItem.id element
       = Some unlocked)
  ∧ (∀ (env : Env) (n : nat),
       (run env n (PastesProvider.getChildren this (Some (TPaste element)))).2 = [])
  ∧ (∀ (any : PastesProvider.t) (env : Env) (n : nat),
       freshly_prompted None
         (run env n (PastesProvider.getChildren any (Some (TPaste element)))).2 = true).
Proof.
  intros Hs. split; [|split; [|split; [|split]]].
  - intros error. apply getChildren_catch_session. eauto.
  - intros tracker env n. cbn zeta. intros Hr.
    destruct (saveToPastezen_rejected tracker this env n Hr) as (-> & Hp & Hu).
    auto.
  - intros other env n.
    eapply lookup_weaken; [exact Hs|]. apply getChildren_sessions_grow.
  - intros env n.
    now rewrite (getChildren_served this element (Unlocked.paste unlocked))
      by (eauto using cached_session).
  - intros any env n. apply getChildren_freshly_prompted.
Qed.

Lemma session_survives_denial_witness :
  let session := Unlocked.mk (Sample.paste [Sample.notes; Sample.stray; Sample.readme])
                   "correct-horse" in
  (∀ error,
     @PastesProvider.getChildren_catch Sim.buffer Sim.crypto
       Sample.unlockedA Sample.protectedItem error = Ret ([], Sample.unlockedA))
  ∧ (∀ (documentMetadataMap : DocumentTracker.t) (env : Env) (n : nat),
       let r := run env n (Extension.saveToPastezen documentMetadataMap Sample.unlockedA) in
       existsb is_rejected r.2 = true →
       PastesProvider.unlockedPastes r.1 !! PasteItem.id Sample.protectedItem = Some session
       ∧ existsb is_prompt r.2 = false ∧ existsb is_unlock r.2 = false)
  ∧ (∀ (other : option TreeItem) (env : Env) (n : nat),
       PastesProvider.unlockedPastes
         (run env n (@PastesProvider.getChildren Sim.buffer Sim.crypto
                       Sample.unlockedA other)).1.2 !! PasteItem.id Sample.protectedItem
       = Some session)
  ∧ (∀ (env : Env) (n : nat),
       (run env n (@PastesProvider.getChildren Sim.buffer Sim.crypto
                     Sample.unlockedA (Some (TPaste Sample.protectedItem)))).2 = [])
  ∧ (∀ (any : PastesProvider.t) (env : Env) (n : nat),
       freshly_prompted None
         (run env n (@PastesProvider.getChildren Sim.buffer Sim.crypto
                       any (Some (TPaste Sample.protectedItem)))).2 = true).
Proof.
  intros session.
  apply (@session_survives_denial Sim.buffer Sim.crypto
           Sample.unlockedA Sample.protectedItem).
  reflexivity.
Defined.

(** C8 as stated fails: with a session for paste A in place, a save is
    answered with 403; afterwards the session is still there, and the tree
    keeps serving the paste from it without asking the store or the user.
    The 403 handler of the tree leaves the session in place as well. *)
Lemma revoked_session_is_kept :
  let saved := run (Sim.env Sample.revoked) 0
    (Extension.saveToPastezen Sample.tracker Sample.unlockedA) in
  let shown := run (Sim.env Sample.revoked) (length saved.2)
    (@PastesProvider.getChildren Sim.buffer Sim.crypto
       saved.1 (Some (TPaste Sample.protectedItem))) in
  existsb is_rejected saved.2 = true
  ∧ PastesProvider.unlockedPastes saved.1 !! "A"
      = Some (Unlocked.mk (Sample.paste [Sample.notes; Sample.stray; Sample.readme])
                "correct-horse")
  ∧ shown.2 = []
  ∧ PastesProvider.unlockedPastes shown.1.2 !! "A"
      = Some (Unlocked.mk (Sample.paste [Sample.notes; Sample.stray; Sample.readme])
                "correct-horse")
  ∧ @PastesProvider.getChildren_catch Sim.buffer Sim.crypto
      Sample.unlockedA Sample.protectedItem Sim.forbidden
    = Ret ([], Sample.unlockedA).
Proof. vm_compute. repeat split. Qed.

(** ** Creating a private paste *)

#[local] Arguments Crypto.encryptContent : simpl never.

(** C9. The algorithm selection is cosmetic: when a private paste is
    created, the single request posted carries the blob that [encryptContent]
    (AES-256-GCM under a PBKDF2 key) produced for the content and passphrase,
    with its salt and nonce, whatever algorithm was picked; the pick appears
    in the [encryptionLevel] field and nowhere else. *)
Theorem algorithm_choice_is_cosmetic `{NB : NodeBuffer} `{NC : NodeCrypto}
    (fileName content language : string) (pastesProvider : PastesProvider.t)
    (rng : Entropy) (env : Env) (n : nat)
    (title passphrase confirmPassphrase : string)
    (visibility : QuickPickItem Visibility) (algorithm : QuickPickItem EncryptionLevel)
    (e : Crypto.Encrypted) :
  env n _ (showInputBox (Extension.titleBox fileName)) = Some title →
  title ≠ EmptyString →
  env (1 + n) _ (showQuickPick Extension.visibilityItems "Choose visibility")
    = Some visibility →
  item_value visibility = private →
  env (2 + n) _ (showQuickPick Extension.algorithmItems "Choose encryption algorithm")
    = Some algorithm →
  env (3 + n) _ (showInputBox Extension.passphraseBox) = Some passphrase →
  passphrase ≠ EmptyString →
  env (4 + n) _ (showInputBox (Extension.confirmBox passphrase)) = Some confirmPassphrase →
  confirmPassphrase ≠ EmptyString →
  (Crypto.encryptContent content passphrase rng).1 = Ok e →
  posted (run env n (Extension.createPaste fileName content language pastesProvider rng)).2
  = [ {| payload_title := title;
         payload_files :=
           [ if truthy (Some (Crypto.salt e)) && truthy (Some (Crypto.iv e))
             then mkPasteFile fileName (Crypto.encrypted e) language true
                    (Some (Crypto.salt e)) (Some (Crypto.iv e))
             else mkPasteFile fileName (Crypto.encrypted e) language true None None ];
         payload_visibility := private;
         payload_isPasswordProtected := true;
         payload_encryptionLevel := Some (item_value algorithm);
         payload_password := Some passphrase |} ].
Proof.
  intros Ht Htitle Hv Hprivate Ha Hp Hpass Hc Hconfirm He.
  destruct title as [|t0 title]; [congruence|].
  destruct passphrase as [|p0 passphrase]; [congruence|].
  destruct confirmPassphrase as [|c0 confirmPassphrase]; [congruence|].
  cbn [Nat.add] in Hv, Ha, Hp, Hc. unfold Extension.createPaste. cbn.
  rewrite Ht. cbn. rewrite Hv. cbn. rewrite Hprivate. cbn.
  rewrite Ha. cbn. rewrite Hp. cbn. rewrite Hc. cbn.
  destruct (Crypto.encryptContent content _ rng) as [sealed rng'].
  cbn in He. subst sealed. cbn.
  destruct (env (S (S (S (S (S (S n)))))) _ _) as [paste|error]; cbn; [|reflexivity].
  destruct (bool_decide _); reflexivity.
Qed.

Lemma algorithm_choice_is_cosmetic_witness :
  posted (run (Sim.env (Sample.creator 1)) 0
            (@Extension.createPaste Sim.buffer Sim.crypto
               "notes.txt" "hello world" "plaintext" PastesProvider.init Sim.tape)).2
  = [ {| payload_title := "my notes";
         payload_files :=
           [ mkPasteFile "notes.txt" (Crypto.encrypted Sample.blob) "plaintext" true
               (Some (Crypto.salt Sample.blob)) (Some (Crypto.iv Sample.blob)) ];
         payload_visibility := private;
         payload_isPasswordProtected := true;
         payload_encryptionLevel := Some des;
         payload_password := Some "correct-horse" |} ].
Proof.
  apply (@algorithm_choice_is_cosmetic Sim.buffer Sim.crypto
           "notes.txt" "hello world" "plaintext" PastesProvider.init Sim.tape
           (Sim.env (Sample.creator 1)) 0 "my notes" "correct-horse" "correct-horse"
           (mkQuickPickItem "🔒 Private" "Password protected & encrypted" private)
           (mkQuickPickItem "3DES" "Legacy triple DES" des)
           Sample.blob);
    solve [reflexivity | discriminate | vm_compute; reflexivity].
Defined.

(** The three algorithms of the menu on the same content, passphrase and
    entropy: the posted files coincide, only the level differs, and the blob
    opens with [decryptContent]. *)
Example algorithm_choice_sample :
  let create := fun algorithm =>
    posted (run (Sim.env (Sample.creator algorithm)) 0
              (@Extension.createPaste Sim.buffer Sim.crypto
                 "notes.txt" "hello world" "plaintext" PastesProvider.init Sim.tape)).2 in
  map payload_encryptionLevel (create 0) = [Some aes]
  ∧ map payload_encryptionLevel (create 1) = [Some des]
  ∧ map payload_encryptionLevel (create 2) = [Some rc4]
  ∧ map payload_files (create 0) = map payload_files (create 1)
  ∧ map payload_files (create 1) = map payload_files (create 2)
  ∧ @Crypto.decryptContent Sim.buffer Sim.crypto (Crypto.encrypted Sample.blob)
      "correct-horse" (Crypto.salt Sample.blob) (Crypto.iv Sample.blob)
    = Ok "hello world".
Proof. vm_compute. repeat split. Qed.

(** ** Further properties of the unlock cache *)

Section CacheFacts.
Context `{NB : NodeBuffer} `{NC : NodeCrypto}.
Import PastesProvider.

Implicit Types (this : PastesProvider.t) (element : PasteItem.t).

Lemma sessions_keyed_insert this id paste (a : Ascii.ascii) (s : string) :
  sessions_keyed this →
  sessions_keyed
    (mk (pasteCache this) (<[id := Unlocked.mk paste (String a s)]> (unlockedPastes this))).
Proof.
  intros H id' u. cbn. rewrite lookup_insert. case_decide.
  - now intros [= <-].
  - apply H.
Qed.

Lemma sessions_keyed_cache this (cache : gmap string Paste) :
  sessions_keyed this → sessions_keyed (mk cache (unlockedPastes this)).
Proof. intros H id u. apply H. Qed.

Lemma getChildren_catch_keyed this element error (env : Env) (n : nat) :
  sessions_keyed this →
  sessions_keyed (run env n (getChildren_catch this element error)).1.2.
Proof.
  intros H. unfold getChildren_catch.
  destruct (_ && _); [|exact H]. cbn.
  destruct (env n _ _) as [[|a s]|]; try exact H. cbn.
  destruct (env (S n) _ _) as [paste|e]; cbn; [|exact H].
  destruct (nonempty_files paste); cbn; now apply sessions_keyed_insert.
Qed.

Lemma getChildren_files_keyed this element (env : Env) (n : nat) :
  sessions_keyed this →
  sessions_keyed (run env n (getChildren_files this element)).1.2.
Proof.
  intros H. unfold getChildren_files.
  destruct (cached _ _); [exact H|]. cbn.
  destruct (env n _ _) as [paste|e]; cbn.
  - now apply sessions_keyed_cache.
  - pose proof (getChildren_catch_keyed this element e env (S n) H) as K.
    now destruct (run env (S n) _).
Qed.

Lemma getChildren_keyed this (element : option TreeItem) (env : Env) (n : nat) :
  sessions_keyed this →
  sessions_keyed (run env n (getChildren this element)).1.2.
Proof.
  intros H. destruct element as [[element|file]|].
  - unfold getChildren. destruct (_ && _); [|now apply getChildren_files_keyed]. cbn.
    destruct (env n _ _) as [[|a s]|]; try exact H. cbn.
    destruct (env (S n) _ _) as [paste|e]; cbn; [|exact H].
    erewrite getChildren_files_cached
      by (apply cached_session; cbn; apply lookup_insert_eq).
    now apply sessions_keyed_insert.
  - cbn. destruct (env n _ _) as [pastes|e]; cbn; [exact H|].
    destruct (bool_decide _); [|exact H]. cbn.
    destruct (bool_decide _); exact H.
  - cbn. destruct (env n _ _) as [pastes|e]; cbn; [exact H|].
    destruct (bool_decide _); [|exact H]. cbn.
    destruct (bool_decide _); exact H.
Qed.

End CacheFacts.

(** Sessions always carry a passphrase: the invariant holds initially, after
    a refresh, and is kept by every call of [getChildren], whatever the user
    and the store answer. *)
Theorem sessions_stay_keyed `{NB : NodeBuffer} `{NC : NodeCrypto} :
  PastesProvider.sessions_keyed PastesProvider.init
  ∧ (∀ this (env : Env) (n : nat),
       PastesProvider.sessions_keyed (run env n (PastesProvider.refresh this)).1)
  ∧ (∀ this (element : option TreeItem) (env : Env) (n : nat),
       PastesProvider.sessions_keyed this →
       PastesProvider.sessions_keyed
         (run env n (PastesProvider.getChildren this element)).1.2).
Proof.
  split; [|split].
  - intros id u. cbn. now rewrite lookup_empty.
  - intros this env n id u. cbn. now rewrite lookup_empty.
  - intros this element env n. apply getChildren_keyed.
Qed.

(** Cache reuse after an unlock: the first call for a protected paste asks
    for the passphrase once and sends it to the store once; when the store
    accepts, the session holds the payload and the passphrase, the files are
    shown in that same call, and a second call contacts neither the store
    nor the user. *)
Theorem unlock_then_reuse `{NB : NodeBuffer} `{NC : NodeCrypto}
    (this : PastesProvider.t) (element : PasteItem.t) (env : Env) (n : nat)
    (password : string) (paste : Paste) :
  PasteItem.isPasswordProtected element = true →
  PastesProvider.unlockedPastes this !! PasteItem.id element = None →
  env n _ (showInputBox (PastesProvider.unlockPrompt element)) = Some password →
  password ≠ EmptyString →
  env (S n) _ (client_post_unlock ("/api/pastes/" +:+ PasteItem.id element +:+ "/unlock")
                 password) = Ok paste →
  let r := run env n (PastesProvider.getChildren this (Some (TPaste element))) in
  let unlocked := r.1.2 in
  unlocked = PastesProvider.mk (PastesProvider.pasteCache this)
               (<[PasteItem.id element := Unlocked.mk paste password]>
                  (PastesProvider.unlockedPastes this))
  ∧ r.1.1 = PastesProvider.fileItems unlocked element paste
  ∧ r.2 = [ Ev (showInputBox (PastesProvider.unlockPrompt element)) (Some password);
            Ev (client_post_unlock ("/api/pastes/" +:+ PasteItem.id element +:+ "/unlock")
                  password) (Ok paste) ]
  ∧ ∀ (env' : Env) (m : nat),
      run env' m (PastesProvider.getChildren unlocked (Some (TPaste element)))
      = ((PastesProvider.fileItems unlocked element paste, unlocked), []).
Proof.
  intros Hp Hs Hprompt Hpw Hunlock. cbn zeta.
  destruct password as [|a s]; [congruence|].
  set (unlocked := PastesProvider.mk (PastesProvider.pasteCache this)
         (<[PasteItem.id element := Unlocked.mk paste (String a s)]>
            (PastesProvider.unlockedPastes this))).
  assert (Hc : PastesProvider.cached unlocked (PasteItem.id element) = Some paste).
  { apply (cached_session unlocked _ (Unlocked.mk paste (String a s))).
    cbn. apply lookup_insert_eq. }
  assert (Hrun : run env n (PastesProvider.getChildren this (Some (TPaste element)))
                 = ((PastesProvider.fileItems unlocked element paste, unlocked),
                    [ Ev (showInputBox (PastesProvider.unlockPrompt element))
                         (Some (String a s));
                      Ev (client_post_unlock
                            ("/api/pastes/" +:+ PasteItem.id element +:+ "/unlock")
                            (String a s)) (Ok paste) ])).
  { unfold PastesProvider.getChildren. rewrite Hp, Hs.
    rewrite bool_decide_eq_false_2 by (intros [? ?]; discriminate).
    cbn. rewrite Hprompt. cbn. rewrite Hunlock. cbn.
    fold unlocked. now rewrite (getChildren_files_cached _ _ _ Hc). }
  rewrite Hrun. cbn [fst snd]. repeat split.
  intros env' m. apply getChildren_served; [exact Hc|].
  right. eexists. cbn. apply lookup_insert_eq.
Qed.

Lemma unlock_then_reuse_witness :
  let paste := Sample.paste [Sample.notes; Sample.stray; Sample.readme] in
  let r := run (Sim.env Sample.rightGuess) 0
    (@PastesProvider.getChildren Sim.buffer Sim.crypto
       PastesProvider.init (Some (TPaste Sample.protectedItem))) in
  let unlocked := r.1.2 in
  unlocked = PastesProvider.mk (PastesProvider.pasteCache PastesProvider.init)
               (<[PasteItem.id Sample.protectedItem := Unlocked.mk paste "correct-horse"]>
                  (PastesProvider.unlockedPastes PastesProvider.init))
  ∧ r.1.1 = @PastesProvider.fileItems Sim.buffer Sim.crypto unlocked Sample.protectedItem paste
  ∧ r.2 = [ Ev (showInputBox (PastesProvider.unlockPrompt Sample.protectedItem))
               (Some "correct-horse");
            Ev (client_post_unlock
                  ("/api/pastes/" +:+ PasteItem.id Sample.protectedItem +:+ "/unlock")
                  "correct-horse") (Ok paste) ]
  ∧ ∀ (env' : Env) (m : nat),
      run env' m (@PastesProvider.getChildren Sim.buffer Sim.crypto
                    unlocked (Some (TPaste Sample.protectedItem)))
      = ((@PastesProvider.fileItems Sim.buffer Sim.crypto unlocked Sample.protectedItem paste,
          unlocked), []).
Proof.
  intros paste.
  apply (@unlock_then_reuse Sim.buffer Sim.crypto PastesProvider.init
           Sample.protectedItem (Sim.env Sample.rightGuess) 0 "correct-horse" paste);
    solve [reflexivity | discriminate].
Defined.

(** Refresh clears sessions: it empties both maps, so that the next call for
    a protected item starts with the passphrase prompt, whatever had been
    unlocked before. *)
Theorem refresh_clears_sessions `{NB : NodeBuffer} `{NC : NodeCrypto}
    (this : PastesProvider.t) (env : Env) (n : nat) :
  let refreshed := (run env n (PastesProvider.refresh this)).1 in
  PastesProvider.pasteCache refreshed = ∅
  ∧ PastesProvider.unlockedPastes refreshed = ∅
  ∧ ∀ (element : PasteItem.t) (env' : Env) (m : nat),
      PasteItem.isPasswordProtected element = true →
      ∃ rest,
        (run env' m (PastesProvider.getChildren refreshed (Some (TPaste element)))).2
        = Ev (showInputBox (PastesProvider.unlockPrompt element))
             (env' m _ (showInputBox (PastesProvider.unlockPrompt element))) :: rest.
Proof.
  cbn zeta. split; [reflexivity|]. split; [reflexivity|].
  intros element env' m Hp.
  now apply getChildren_guarded_prompts.
Qed.

(** User abort: when the prompt of a protected paste is dismissed or left
    empty, the call shows a warning and ends with no files, no store request
    and both maps as they were. *)
Theorem user_abort_leaves_no_trace `{NB : NodeBuffer} `{NC : NodeCrypto}
    (this : PastesProvider.t) (element : PasteItem.t) (env : Env) (n : nat) :
  PasteItem.isPasswordProtected element = true →
  PastesProvider.unlockedPastes this !! PasteItem.id element = None →
  truthy (env n _ (showInputBox (PastesProvider.unlockPrompt element))) = false →
  run env n (PastesProvider.getChildren this (Some (TPaste element)))
  = (([], this),
     [ Ev (showInputBox (PastesProvider.unlockPrompt element))
          (env n _ (showInputBox (PastesProvider.unlockPrompt element)));
       Ev (showWarningMessage "Paste access cancelled") tt ]).
Proof.
  intros Hp Hs Hcancel. unfold PastesProvider.getChildren. rewrite Hp, Hs.
  rewrite bool_decide_eq_false_2 by (intros [? ?]; discriminate).
  cbn. rewrite Hcancel. cbn.
  now destruct (env (S n) _ _).
Qed.

Lemma user_abort_leaves_no_trace_witness :
  run (Sim.env Sim.silent) 0
    (@PastesProvider.getChildren Sim.buffer Sim.crypto
       Sample.fetchedA (Some (TPaste Sample.protectedItem)))
  = (([], Sample.fetchedA),
     [ Ev (showInputBox (PastesProvider.unlockPrompt Sample.protectedItem))
          (Sim.env Sim.silent 0 _ (showInputBox (PastesProvider.unlockPrompt Sample.protectedItem)));
       Ev (showWarningMessage "Paste access cancelled") tt ]).
Proof.
  apply (@user_abort_leaves_no_trace Sim.buffer Sim.crypto); reflexivity.
Defined.

(** A paste that is not protected is fetched once: the first call asks the
    store for it and stores the payload in the plain cache; later calls
    through the same item are served from there. *)
Theorem public_fetch_is_cached `{NB : NodeBuffer} `{NC : NodeCrypto}
    (this : PastesProvider.t) (element : PasteItem.t) (env : Env) (n : nat)
    (paste : Paste) :
  PasteItem.isPasswordProtected element = false →
  PastesProvider.cached this (PasteItem.id element) = None →
  env n _ (client_get ("/api/pastes/" +:+ PasteItem.id element)) = Ok paste →
  let r := run env n (PastesProvider.getChildren this (Some (TPaste element))) in
  let fetched := r.1.2 in
  fetched = PastesProvider.mk (<[PasteItem.id element := paste]> (PastesProvider.pasteCache this))
              (PastesProvider.unlockedPastes this)
  ∧ r.1.1 = PastesProvider.fileItems fetched element paste
  ∧ r.2 = [Ev (client_get ("/api/pastes/" +:+ PasteItem.id element)) (Ok paste)]
  ∧ ∀ (env' : Env) (m : nat),
      run env' m (PastesProvider.getChildren fetched (Some (TPaste element)))
      = ((PastesProvider.fileItems fetched element paste, fetched), []).
Proof.
  intros Hp Hc Hget. cbn zeta.
  set (fetched := PastesProvider.mk
         (<[PasteItem.id element := paste]> (PastesProvider.pasteCache this))
         (PastesProvider.unlockedPastes this)).
  assert (Hrun : run env n (PastesProvider.getChildren this (Some (TPaste element)))
                 = ((PastesProvider.fileItems fetched element paste, fetched),
                    [Ev (client_get ("/api/pastes/" +:+ PasteItem.id element)) (Ok paste)])).
  { rewrite getChildren_unguarded by auto.
    unfold PastesProvider.getChildren_files. rewrite Hc. cbn. now rewrite Hget. }
  rewrite Hrun. cbn [fst snd]. do 3 (split; [reflexivity|]).
  intros env' m. apply getChildren_served; [|auto].
  unfold PastesProvider.cached in *. cbn.
  destruct (PastesProvider.unlockedPastes this !! PasteItem.id element); [discriminate|].
  apply lookup_insert_eq.
Qed.

Lemma public_fetch_is_cached_witness :
  let paste := Sample.paste [Sample.readme] in
  let r := run (Sim.env Sample.openStore) 0
    (@PastesProvider.getChildren Sim.buffer Sim.crypto
       PastesProvider.init (Some (TPaste Sample.publicItem))) in
  let fetched := r.1.2 in
  fetched = PastesProvider.mk
              (<[PasteItem.id Sample.publicItem := paste]>
                 (PastesProvider.pasteCache PastesProvider.init))
              (PastesProvider.unlockedPastes PastesProvider.init)
  ∧ r.1.1 = @PastesProvider.fileItems Sim.buffer Sim.crypto fetched Sample.publicItem paste
  ∧ r.2 = [Ev (client_get ("/api/pastes/" +:+ PasteItem.id Sample.publicItem)) (Ok paste)]
  ∧ ∀ (env' : Env) (m : nat),
      run env' m (@PastesProvider.getChildren Sim.buffer Sim.crypto
                    fetched (Some (TPaste Sample.publicItem)))
      = ((@PastesProvider.fileItems Sim.buffer Sim.crypto fetched Sample.publicItem paste,
          fetched), []).
Proof.
  intros paste.
  apply (@public_fetch_is_cached Sim.buffer Sim.crypto PastesProvider.init
           Sample.publicItem (Sim.env Sample.openStore) 0 paste); reflexivity.
Defined.

(** ** Reachable states under one listing *)

Section ReachFacts.
Context `{NB : NodeBuffer} `{NC : NodeCrypto}.
Import PastesProvider.

Implicit Types (this : PastesProvider.t) (element : PasteItem.t).
Variable listed : string → bool.

Lemma plain_entries_session this id (unlocked : Unlocked.t) :
  plain_entries_unlocked listed this →
  plain_entries_unlocked listed
    (mk (pasteCache this) (<[id := unlocked]> (unlockedPastes this))).
Proof.
  intros H id' Hc. cbn in *. destruct (H id' Hc) as [Hl|Hs]; [now left|right].
  rewrite lookup_insert. case_decide; eauto.
Qed.

Lemma plain_entries_fetch this id (paste : Paste) :
  listed id = false ∨ is_Some (unlockedPastes this !! id) →
  plain_entries_unlocked listed this →
  plain_entries_unlocked listed
    (mk (<[id := paste]> (pasteCache this)) (unlockedPastes this)).
Proof.
  intros Hid H id'. cbn. rewrite lookup_insert. case_decide as E.
  - intros _. now subst.
  - apply H.
Qed.

Lemma getChildren_catch_entries this element error (env : Env) (n : nat) :
  plain_entries_unlocked listed this →
  plain_entries_unlocked listed (run env n (getChildren_catch this element error)).1.2.
Proof.
  intros H. unfold getChildren_catch.
  destruct (_ && _); [|exact H]. cbn.
  destruct (truthy _); [|exact H]. cbn.
  destruct (env (S n) _ _) as [paste|e]; cbn; [|exact H].
  destruct (nonempty_files paste); cbn; now apply plain_entries_session.
Qed.

Lemma getChildren_files_entries this element (env : Env) (n : nat) :
  listed (PasteItem.id element) = false
  ∨ is_Some (unlockedPastes this !! PasteItem.id element) →
  plain_entries_unlocked listed this →
  plain_entries_unlocked listed (run env n (getChildren_files this element)).1.2.
Proof.
  intros Hid H. unfold getChildren_files.
  destruct (cached _ _); [exact H|]. cbn.
  destruct (env n _ _) as [paste|e]; cbn.
  - now apply plain_entries_fetch.
  - pose proof (getChildren_catch_entries this element e env (S n) H) as K.
    now destruct (run env (S n) _).
Qed.

Lemma getChildren_entries this (element : option TreeItem) (env : Env) (n : nat) :
  (∀ item, element = Some (TPaste item) →
     PasteItem.isPasswordProtected item = listed (PasteItem.id item)) →
  plain_entries_unlocked listed this →
  plain_entries_unlocked listed (run env n (getChildren this element)).1.2.
Proof.
  intros Hflag H. destruct element as [[element|file]|].
  - specialize (Hflag element eq_refl). unfold getChildren.
    destruct (bool_decide (is_Some _)) eqn:Hs.
    + apply bool_decide_eq_true_1 in Hs. rewrite andb_false_r.
      apply getChildren_files_entries; auto.
    + destruct (PasteItem.isPasswordProtected element) eqn:Hp; cbn [andb negb].
      * cbn. destruct (truthy _); [|exact H]. cbn.
        destruct (env (S n) _ _) as [paste|e]; cbn; [|exact H].
        erewrite getChildren_files_cached
          by (apply cached_session; cbn; apply lookup_insert_eq).
        now apply plain_entries_session.
      * apply getChildren_files_entries; auto.
  - cbn. destruct (env n _ _) as [pastes|e]; cbn; [exact H|].
    destruct (bool_decide _); [|exact H]. cbn.
    now destruct (bool_decide _).
  - cbn. destruct (env n _ _) as [pastes|e]; cbn; [exact H|].
    destruct (bool_decide _); [|exact H]. cbn.
    now destruct (bool_decide _).
Qed.

(** The invariant of the reachable states. *)
Lemma reachable_entries this :
  reachable listed this → plain_entries_unlocked listed this.
Proof.
  induction 1 as [|this env n _ _|this element env n _ IH Hflag].
  - intros id [? Hc]. cbn in Hc. now rewrite lookup_empty in Hc.
  - intros id [? Hc]. cbn in Hc. now rewrite lookup_empty in Hc.
  - now apply getChildren_entries.
Qed.

End ReachFacts.

(** Cache reuse under one listing: in every state reached through items
    whose protection flag is the one their paste is listed with, a paste that
    has a plain cache entry or a session is served from it, with no store
    request and no prompt. *)
Theorem cache_reuse_under_one_listing `{NB : NodeBuffer} `{NC : NodeCrypto}
    (listed : string → bool) (this : PastesProvider.t) (element : PasteItem.t) :
  PastesProvider.reachable listed this →
  PasteItem.isPasswordProtected element = listed (PasteItem.id element) →
  is_Some (PastesProvider.pasteCache this !! PasteItem.id element)
  ∨ is_Some (PastesProvider.unlockedPastes this !! PasteItem.id element) →
  ∃ paste,
    PastesProvider.cached this (PasteItem.id element) = Some paste
    ∧ ∀ (env : Env) (n : nat),
        run env n (PastesProvider.getChildren this (Some (TPaste element)))
        = ((PastesProvider.fileItems this element paste, this), []).
Proof.
  intros Hreach Hflag Hentry.
  pose proof (reachable_entries listed this Hreach) as Hinv.
  assert (Hguard : PasteItem.isPasswordProtected element = false
                   ∨ is_Some (PastesProvider.unlockedPastes this !! PasteItem.id element)).
  { destruct Hentry as [Hc|Hs]; [|now right].
    rewrite Hflag. now apply Hinv. }
  assert (Hcached : is_Some (PastesProvider.cached this (PasteItem.id element))).
  { unfold PastesProvider.cached.
    destruct (PastesProvider.unlockedPastes this !! PasteItem.id element) as [u|] eqn:E;
      [eauto|].
    destruct Hentry as [Hc|[? Hs]]; [exact Hc|discriminate]. }
  destruct Hcached as [paste Hpaste]. exists paste. split; [exact Hpaste|].
  intros env n. now apply getChildren_served.
Qed.

Lemma cache_reuse_under_one_listing_witness :
  let this := (run (Sim.env Sample.rightGuess) 0
                 (@PastesProvider.getChildren Sim.buffer Sim.crypto
                    PastesProvider.init (Some (TPaste Sample.protectedItem)))).1.2 in
  ∃ paste,
    PastesProvider.cached this (PasteItem.id Sample.protectedItem) = Some paste
    ∧ ∀ (env : Env) (n : nat),
        run env n (@PastesProvider.getChildren Sim.buffer Sim.crypto
                     this (Some (TPaste Sample.protectedItem)))
        = ((@PastesProvider.fileItems Sim.buffer Sim.crypto this Sample.protectedItem paste,
            this), []).
Proof.
  intros this.
  apply (@cache_reuse_under_one_listing Sim.buffer Sim.crypto (fun _ => true)).
  - apply PastesProvider.reachable_getChildren.
    + apply PastesProvider.reachable_init.
    + now intros item [= <-].
  - reflexivity.
  - right. eexists. reflexivity.
Defined.

(** ** Command handlers and their traces *)

Lemma exec_lift {A} (env : Env) (wenv : WEnv) (n : nat) (p : Prog A) :
  exec env wenv n (lift p) = ((run env n p).1, map Called (run env n p).2).
Proof.
  revert n. induction p as [a|X c k IH]; intros n; [reflexivity|].
  cbn. rewrite IH. now destruct (run env (S n) (k (env n X c))).
Qed.

Lemma exec_bind {A B} (env : Env) (wenv : WEnv) (n : nat) (m : Cmd A) (k : A → Cmd B) :
  exec env wenv n (m ≫= k) =
    let '(a, t) := exec env wenv n m in
    let '(b, t') := exec env wenv (n + length t) (k a) in
    (b, t ++ t').
Proof.
  revert n. induction m as [a|X c h IH|X w h IH]; intros n.
  - cbn. rewrite Nat.add_0_r. now destruct (exec env wenv n (k a)).
  - cbn. change (Cmd_bind k (h (env n X c))) with (h (env n X c) ≫= k).
    rewrite IH. destruct (exec env wenv (S n) (h (env n X c))) as [a t].
    cbn. replace (n + S (length t)) with (S (n + length t)) by lia.
    now destruct (exec env wenv (S (n + length t)) (k a)).
  - cbn. change (Cmd_bind k (h (wenv n X w))) with (h (wenv n X w) ≫= k).
    rewrite IH. destruct (exec env wenv (S n) (h (wenv n X w))) as [a t].
    cbn. replace (n + S (length t)) with (S (n + length t)) by lia.
    now destruct (exec env wenv (S (n + length t)) (k a)).
Qed.

(** ** Relative dates *)

Section TimeFacts.
Local Open Scope Z_scope.

Lemma seconds_between (elapsed unit k : Z) :
  0 < unit → unit * 1000 * k ≤ elapsed < unit * 1000 * (k + 1) →
  unit * k ≤ elapsed / 1000 < unit * (k + 1) ∧ elapsed / 1000 / unit = k.
Proof.
  intros Hu [Hlo Hhi].
  assert (Hs : unit * k ≤ elapsed / 1000 < unit * (k + 1)).
  { split.
    - apply Z.div_le_lower_bound; lia.
    - apply Z.div_lt_upper_bound; lia. }
  split; [exact Hs|].
  symmetry. apply (Z.div_unique_pos _ _ _ (elapsed / 1000 - unit * k)); lia.
Qed.

End TimeFacts.

(** Whole units.  A valid date that lies [k] whole minutes in the past, and
    less than [k + 1], reads "[k]m ago" for [k] from 1 to 59; likewise whole
    hours from 1 to 23 and whole days from 1 to 6.  The count shown is the
    number of completed units, never zero. *)
Theorem getTimeAgo_whole_units (now time k : Z) (date : Date) :
  getTime date = Some time →
  (1 ≤ k)%Z →
  ((k < 60)%Z → (60000 * k ≤ now - time < 60000 * (k + 1))%Z →
     Presentation.getTimeAgo now date = pretty k +:+ "m ago")
  ∧ ((k < 24)%Z → (3600000 * k ≤ now - time < 3600000 * (k + 1))%Z →
     Presentation.getTimeAgo now date = pretty k +:+ "h ago")
  ∧ ((k < 7)%Z → (86400000 * k ≤ now - time < 86400000 * (k + 1))%Z →
     Presentation.getTimeAgo now date = pretty k +:+ "d ago").
Proof.
  intros Hdate Hk. unfold Presentation.getTimeAgo. rewrite Hdate. cbn zeta.
  split; [|split]; intros Hlt Hrange.
  - destruct (seconds_between (now - time) 60 k) as [Hs Hq]; [lia|lia|].
    rewrite Hq.
    rewrite (proj2 (Z.ltb_ge _ _)) by lia.
    now rewrite (proj2 (Z.ltb_lt _ _)) by lia.
  - destruct (seconds_between (now - time) 3600 k) as [Hs Hq]; [lia|lia|].
    rewrite Hq.
    do 2 rewrite (proj2 (Z.ltb_ge _ _)) by lia.
    now rewrite (proj2 (Z.ltb_lt _ _)) by lia.
  - destruct (seconds_between (now - time) 86400 k) as [Hs Hq]; [lia|lia|].
    rewrite Hq.
    do 3 rewrite (proj2 (Z.ltb_ge _ _)) by lia.
    now rewrite (proj2 (Z.ltb_lt _ _)) by lia.
Qed.

Lemma getTimeAgo_whole_units_witness :
  Presentation.getTimeAgo 1700000300000 Desk.yesterday = "23h ago".
Proof.
  refine (proj1 (proj2 (getTimeAgo_whole_units 1700000300000 1699915200000 23
                          Desk.yesterday _ _)) _ _).
  - reflexivity.
  - lia.
  - lia.
  - lia.
Defined.

(** The ends of the scale.  A valid date less than a minute old reads "just
    now", and so does every date in the future; a date a week old or older,
    and every invalid date, reads as its locale date. *)
Theorem getTimeAgo_ends (now : Z) (date : Date) :
  (∀ time, getTime date = Some time → (now - time < 60000)%Z →
     Presentation.getTimeAgo now date = "just now")
  ∧ ((∀ time, getTime date = Some time → (604800000 ≤ now - time)%Z) →
     Presentation.getTimeAgo now date = toLocaleDateString date).
Proof.
  unfold Presentation.getTimeAgo. split.
  - intros time -> Hlt. cbn zeta.
    assert ((now - time) / 1000 < 60)%Z by (apply Z.div_lt_upper_bound; lia).
    now rewrite (proj2 (Z.ltb_lt _ _)) by lia.
  - intros Hold. destruct (getTime date) as [time|]; [|reflexivity].
    specialize (Hold time eq_refl). cbn zeta.
    assert (604800 ≤ (now - time) / 1000)%Z by (apply Z.div_le_lower_bound; lia).
    now do 4 rewrite (proj2 (Z.ltb_ge _ _)) by lia.
Qed.

(** ** Tree items *)

Section ViewFacts.
Context `{NB : NodeBuffer} `{NC : NodeCrypto}.

(** The file count of a listed paste: the length of its file list, and 1
    when the list is missing or empty. *)
Lemma pasteItem_fileCount (paste : Paste) :
  ∃ item, PastesProvider.pasteItem paste = TPaste item
    ∧ PasteItem.id item = _id paste
    ∧ PasteItem.fileCount item = Nat.max 1 (length (default [] (files paste)))
    ∧ PasteItem.isPasswordProtected item
      = default false (isPasswordProtected paste)
        || bool_decide (visibility paste = Some "private").
Proof.
  unfold PastesProvider.pasteItem. eexists. split; [reflexivity|]. cbn.
  split; [reflexivity|]. split; [|reflexivity].
  destruct (files paste) as [[|f fs]|]; reflexivity.
Qed.

End ViewFacts.

(** A listed paste is either expandable or opens on click, never both and
    never neither: with two files or more its item is collapsed and carries
    no command; otherwise (one file, none, or no file list at all) it cannot
    be expanded and a click runs [pastezen.openPasteInEditor]. *)
Theorem listed_paste_expands_or_opens `{NB : NodeBuffer} `{NC : NodeCrypto}
    (now : Z) (date : Date) (paste : Paste) :
  ∃ item,
    PastesProvider.pasteItem paste = TPaste item
    ∧ let view := Presentation.PasteItem_view now date item in
      if Nat.leb 2 (length (default [] (files paste)))
      then collapsibleState view = Collapsed ∧ view_command view = None
      else collapsibleState view = Collapsible_None
           ∧ view_command view = Some ("pastezen.openPasteInEditor", "Open Paste").
Proof.
  destruct (pasteItem_fileCount paste) as (item & Hitem & _ & Hcount & _).
  exists item. split; [exact Hitem|]. cbn zeta.
  unfold Presentation.PasteItem_view. cbn. rewrite Hcount.
  destruct (length (default [] (files paste))) as [|[|n]]; cbn; split; reflexivity.
Qed.

(** What the lock stands for.  A paste that the store lists with visibility
    [private], or marks as password protected, is shown with the red lock
    and the context value [paste-private] whatever its file count; and while
    the provider holds no session for it, expanding its item starts with the
    passphrase prompt, before any request to the store. *)
Theorem private_paste_is_locked `{NB : NodeBuffer} `{NC : NodeCrypto}
    (now : Z) (date : Date) (this : PastesProvider.t) (paste : Paste)
    (item : PasteItem.t) (env : Env) (n : nat) :
  PastesProvider.pasteItem paste = TPaste item →
  visibility paste = Some "private" ∨ isPasswordProtected paste = Some true →
  PastesProvider.unlockedPastes this !! _id paste = None →
  let view := Presentation.PasteItem_view now date item in
  iconPath view = mkThemeIcon (own "lock") (Some "charts.red")
  ∧ contextValue view = "paste-private"
  ∧ ∃ rest,
      (run env n (PastesProvider.getChildren this (Some (TPaste item)))).2
      = Ev (showInputBox (PastesProvider.unlockPrompt item))
           (env n _ (showInputBox (PastesProvider.unlockPrompt item))) :: rest.
Proof.
  intros Hitem Hprivate Hsession. cbn zeta.
  destruct (pasteItem_fileCount paste) as (item' & Hitem' & Hid & _ & Hflag).
  rewrite Hitem in Hitem'. injection Hitem' as Heq. subst item'.
  assert (Hp : PasteItem.isPasswordProtected item = true).
  { rewrite Hflag. destruct Hprivate as [-> | ->]; [|reflexivity].
    rewrite bool_decide_eq_true_2 by reflexivity. apply orb_true_r. }
  split; [|split].
  - unfold Presentation.PasteItem_view. cbn. now rewrite Hp.
  - unfold Presentation.PasteItem_view. cbn. now rewrite Hp.
  - apply getChildren_guarded_prompts; [exact Hp|]. now rewrite Hid.
Qed.

Lemma private_paste_is_locked_witness :
  let view := Presentation.PasteItem_view 1700000300000 Desk.yesterday Sample.protectedItem in
  iconPath view = mkThemeIcon (own "lock") (Some "charts.red")
  ∧ contextValue view = "paste-private"
  ∧ ∃ rest,
      (run (Sim.env Sim.silent) 0
         (@PastesProvider.getChildren Sim.buffer Sim.crypto PastesProvider.init
            (Some (TPaste Sample.protectedItem)))).2
      = Ev (showInputBox (PastesProvider.unlockPrompt Sample.protectedItem))
           (Sim.env Sim.silent 0 _
              (showInputBox (PastesProvider.unlockPrompt Sample.protectedItem))) :: rest.
Proof.
  apply (@private_paste_is_locked Sim.buffer Sim.crypto _ _ _ Desk.privatePaste).
  - reflexivity.
  - left. reflexivity.
  - reflexivity.
Defined.

(** ** The children of a paste *)

Section ChildFacts.
Context `{NB : NodeBuffer} `{NC : NodeCrypto}.
Import PastesProvider.

Implicit Types (this : PastesProvider.t) (element : PasteItem.t).

Lemma indexed_nil element : indexed element [].
Proof. intros i item H. now rewrite lookup_nil in H. Qed.

Lemma indexed_fileItem passphrase element files :
  indexed element (imap (fileItem passphrase element) files).
Proof.
  intros i item H. rewrite list_lookup_imap in H.
  destruct (files !! i) as [file|]; [|discriminate].
  injection H as <-. eexists. split; [reflexivity|]. now split.
Qed.

Lemma indexed_fileItem403 password element files :
  indexed element (imap (fileItem403 password element) files).
Proof.
  intros i item H. rewrite list_lookup_imap in H.
  destruct (files !! i) as [file|]; [|discriminate].
  injection H as <-. eexists. split; [reflexivity|]. now split.
Qed.

Lemma indexed_fileItems this element paste :
  indexed element (fileItems this element paste).
Proof.
  unfold fileItems. destruct (nonempty_files paste).
  - apply indexed_fileItem.
  - apply indexed_nil.
Qed.

Lemma getChildren_catch_indexed this element error (env : Env) (n : nat) :
  indexed element (run env n (getChildren_catch this element error)).1.1.
Proof.
  unfold getChildren_catch.
  destruct (_ && _); [|apply indexed_nil].
  cbn. destruct (truthy (env n _ _)); [|apply indexed_nil].
  cbn. destruct (env (S n) _ _) as [unlockedPaste|unlockError]; cbn.
  - destruct (nonempty_files unlockedPaste); cbn.
    + apply indexed_fileItem403.
    + apply indexed_nil.
  - apply indexed_nil.
Qed.

Lemma getChildren_files_indexed this element (env : Env) (n : nat) :
  indexed element (run env n (getChildren_files this element)).1.1.
Proof.
  unfold getChildren_files. destruct (cached this _) as [paste|].
  - apply indexed_fileItems.
  - cbn. destruct (env n _ _) as [paste|error] eqn:E; cbn.
    + apply indexed_fileItems.
    + pose proof (getChildren_catch_indexed this element error env (S n)) as H.
      now destruct (run env (S n) (getChildren_catch this element error)).
Qed.

Lemma getChildren_indexed this element (env : Env) (n : nat) :
  indexed element (run env n (getChildren this (Some (TPaste element)))).1.1.
Proof.
  unfold getChildren. destruct (_ && _); [|apply getChildren_files_indexed].
  cbn. destruct (truthy (env n _ _)); cbn; [|apply indexed_nil].
  destruct (env (S n) _ _) as [unlockedPaste|error]; cbn.
  - match goal with |- context [run env (S (S n)) (getChildren_files ?t element)] =>
      pose proof (getChildren_files_indexed t element env (S (S n))) as H;
      now destruct (run env (S (S n)) (getChildren_files t element))
    end.
  - apply indexed_nil.
Qed.

End ChildFacts.

(** The children of a paste know their place.  Whatever path a call for
    the children of a paste item takes (session, cache, fetch, unlock, the
    403 handler) and however the user and the store answer, the item at
    position [i] of the result is a file item that carries the identifier of
    that paste item and the index [i]; it cannot be expanded, and a click on
    it runs [pastezen.openFileInEditor]. *)
Theorem children_know_their_place `{NB : NodeBuffer} `{NC : NodeCrypto}
    (this : PastesProvider.t) (element : PasteItem.t) (env : Env) (n : nat)
    (i : nat) (item : TreeItem) :
  (run env n (PastesProvider.getChildren this (Some (TPaste element)))).1.1 !! i
    = Some item →
  ∃ f,
    item = TFile f
    ∧ FileItem.pasteId f = PasteItem.id element
    ∧ FileItem.fileIndex f = i
    ∧ collapsibleState (Presentation.FileItem_view f) = Collapsible_None
    ∧ view_command (Presentation.FileItem_view f)
      = Some ("pastezen.openFileInEditor", "Open File").
Proof.
  intros H.
  destruct (getChildren_indexed this element env n i item H) as (f & -> & Hid & Hi).
  exists f. split; [reflexivity|]. split; [exact Hid|]. split; [exact Hi|].
  split; reflexivity.
Qed.

Lemma children_know_their_place_witness :
  ∃ f,
    TFile (FileItem.mk "stray.txt" "[Decryption failed]" "plaintext" false "A" 1 true) = TFile f
    ∧ FileItem.pasteId f = PasteItem.id Sample.protectedItem
    ∧ FileItem.fileIndex f = 1
    ∧ collapsibleState (Presentation.FileItem_view f) = Collapsible_None
    ∧ view_command (Presentation.FileItem_view f)
      = Some ("pastezen.openFileInEditor", "Open File").
Proof.
  apply (@children_know_their_place Sim.buffer Sim.crypto PastesProvider.init
           Sample.protectedItem (Sim.env Sample.rightGuess) 0).
  vm_compute. reflexivity.
Defined.



(** ** The request of [createPaste] *)

(** What [PastezenAPI.createPaste] sends.  Whatever the options, the call
    makes exactly one request, a POST to [/api/pastes] with a single file
    marked as main.  The file carries a salt exactly when it carries a nonce,
    and then both are the non-empty ones of the options: no file is ever sent
    half-keyed.  An empty password is never sent. *)
Theorem created_payload_shape (options : CreatePasteOptions.t) (env : Env) (n : nat) :
  ∃ payload file,
    (run env n (PastezenAPI.createPaste options)).2
      = [Ev (client_post_pastes "/api/pastes" payload)
            (env n _ (client_post_pastes "/api/pastes" payload))]
    ∧ payload_files payload = [file]
    ∧ isMain file = true
    ∧ name file = CreatePasteOptions.fileName options
    ∧ content file = CreatePasteOptions.content options
    ∧ (salt file = None ↔ iv file = None)
    ∧ (salt file ≠ None →
         truthy (salt file) = true ∧ truthy (iv file) = true
         ∧ salt file = CreatePasteOptions.salt options
         ∧ iv file = CreatePasteOptions.iv options)
    ∧ payload_password payload ≠ Some EmptyString.
Proof.
  unfold PastezenAPI.createPaste. cbn.
  eexists. eexists. split; [reflexivity|]. cbn.
  split; [reflexivity|].
  destruct (truthy (CreatePasteOptions.salt options)) eqn:Hs;
    destruct (truthy (CreatePasteOptions.iv options)) eqn:Hi; cbn;
    (split; [reflexivity|]; split; [reflexivity|]; split; [reflexivity|]).
  - destruct (CreatePasteOptions.salt options) as [s|]; [|discriminate].
    destruct (CreatePasteOptions.iv options) as [v|]; [|discriminate].
    split; [split; discriminate|].
    split; [intros _; repeat split; assumption|].
    destruct (CreatePasteOptions.password options) as [[|c p]|]; discriminate.
  - split; [split; reflexivity|]. split; [intros H; now destruct H|].
    destruct (CreatePasteOptions.password options) as [[|c p]|]; discriminate.
  - split; [split; reflexivity|]. split; [intros H; now destruct H|].
    destruct (CreatePasteOptions.password options) as [[|c p]|]; discriminate.
  - split; [split; reflexivity|]. split; [intros H; now destruct H|].
    destruct (CreatePasteOptions.password options) as [[|c p]|]; discriminate.
Qed.

(** ** Opening in the editor *)

Section EditorFacts.
Context `{NB : NodeBuffer} `{NC : NodeCrypto} `{JS : JsString}.
Import Commands.

(** Once the editor has created the document, a file item is tracked under
    the document's URI with its own paste and index, whether or not the
    document could be shown. *)
Lemma openFileInEditor_tracks (env : Env) (wenv : WEnv) (n : nat)
    (documentMetadataMap : DocumentTracker.t) (fileItem : FileItem.t) (doc : TextDocument) :
  wenv n _ (openTextDocument (FileItem.content fileItem)
              (object_get_or languageMap (toLowerCase (FileItem.language fileItem))
                 "plaintext")) = Ok doc →
  (exec env wenv n (openFileInEditor documentMetadataMap fileItem)).1
  = DocumentTracker.trackDocument documentMetadataMap (uri doc)
      (DocumentMetadata.mk (FileItem.pasteId fileItem) (FileItem.fileIndex fileItem)
         (FileItem.fileName fileItem) (FileItem.language fileItem)).
Proof.
  intros Hdoc. unfold openFileInEditor.
  change (exec env wenv n (?m ≫= ?k)) with (exec env wenv n (Cmd_bind k m)).
  unfold openContentInEditor. cbn. rewrite Hdoc. cbn.
  destruct (wenv (S n) _ (showTextDocument doc)) as [[]|error]; reflexivity.
Qed.

(** The single update of a save whose target exists. *)
Lemma saveToPastezen_uploads (documentMetadataMap : DocumentTracker.t)
    (pastesProvider : PastesProvider.t) (env : Env) (n : nat)
    (document : TextDocument) (metadata : DocumentMetadata.t)
    (paste : Paste) (fs : list PasteFile) (file : PasteFile) :
  env n _ activeTextEditor = Some document →
  DocumentTracker.getDocumentMetadata documentMetadataMap (uri document) = Some metadata →
  env (S n) _ (client_get ("/api/pastes/" +:+ DocumentMetadata.pasteId metadata)) = Ok paste →
  files paste = Some fs →
  fs !! DocumentMetadata.fileIndex metadata = Some file →
  uploads (run env n (Extension.saveToPastezen documentMetadataMap pastesProvider)).2
  = [("/api/pastes/" +:+ DocumentMetadata.pasteId metadata,
      {| updates_files :=
           <[DocumentMetadata.fileIndex metadata :=
               mkPasteFile (name file) (getText document) (language file)
                 (isMain file) (salt file) (iv file)]> fs |})].
Proof.
  intros Hed Hmeta Hget Hfiles Hfile.
  unfold Extension.saveToPastezen. cbn. rewrite Hed, Hmeta. cbn. rewrite Hget.
  rewrite (set_file_content_ok _ _ _ _ _ Hfiles Hfile). cbn.
  destruct (env (S (S n)) _ _) as [updated|error]; reflexivity.
Qed.

End EditorFacts.

(** From the tree to the editor and back.  Take the item at position [i]
    among the children of a paste item, open it with [openFileInEditor], and
    let the editor create the document.  A later save from an editor showing
    that document (edited or not) sends exactly one update: to the paste of
    the tree item, with the editor's text as the content of the file at
    position [i] of the fetched list, and everything else as fetched. *)
Theorem listed_file_is_saved_in_place `{NB : NodeBuffer} `{NC : NodeCrypto} `{JS : JsString}
    (this : PastesProvider.t) (element : PasteItem.t) (env0 : Env) (n0 : nat)
    (i : nat) (f : FileItem.t)
    (documentMetadataMap : DocumentTracker.t) (env : Env) (wenv : WEnv) (n : nat)
    (doc : TextDocument)
    (pastesProvider : PastesProvider.t) (env' : Env) (m : nat) (edited : TextDocument)
    (paste : Paste) (fs : list PasteFile) (file : PasteFile) :
  (run env0 n0 (PastesProvider.getChildren this (Some (TPaste element)))).1.1 !! i
    = Some (TFile f) →
  wenv n _ (openTextDocument (FileItem.content f)
              (object_get_or Commands.languageMap (toLowerCase (FileItem.language f))
                 "plaintext")) = Ok doc →
  env' m _ activeTextEditor = Some edited →
  uri edited = uri doc →
  env' (S m) _ (client_get ("/api/pastes/" +:+ PasteItem.id element)) = Ok paste →
  files paste = Some fs →
  fs !! i = Some file →
  let tracked := (exec env wenv n (Commands.openFileInEditor documentMetadataMap f)).1 in
  uploads (run env' m (Extension.saveToPastezen tracked pastesProvider)).2
  = [("/api/pastes/" +:+ PasteItem.id element,
      {| updates_files :=
           <[i := mkPasteFile (name file) (getText edited) (language file)
                    (isMain file) (salt file) (iv file)]> fs |})].
Proof.
  intros Hchild Hdoc Hed Huri Hget Hfiles Hfile. cbn zeta.
  destruct (getChildren_indexed this element env0 n0 i _ Hchild) as (f' & Hf & Hid & Hi).
  injection Hf as <-.
  rewrite (openFileInEditor_tracks env wenv n documentMetadataMap f doc Hdoc).
  rewrite Hid, Hi.
  apply (saveToPastezen_uploads _ pastesProvider env' m edited
           (DocumentMetadata.mk (PasteItem.id element) i (FileItem.fileName f)
              (FileItem.language f)) paste fs file); try assumption.
  unfold DocumentTracker.getDocumentMetadata, DocumentTracker.trackDocument.
  rewrite Huri. apply lookup_insert_eq.
Qed.

Lemma listed_file_is_saved_in_place_witness :
  let tracked :=
    (exec (Sim.env Sim.silent) (SimWindow.wenv SimWindow.desk) 0
       (@Commands.openFileInEditor SimWindow.js ∅
          (FileItem.mk "notes.txt" "hello world" "plaintext" false "A" 0 true))).1 in
  uploads (run (Sim.env Sample.writable) 0
             (Extension.saveToPastezen tracked Sample.unlockedA)).2
  = [("/api/pastes/" +:+ "A",
      {| updates_files :=
           <[0 := mkPasteFile "notes.txt" "edited text" "plaintext" false
                    (salt Sample.notes) (iv Sample.notes)]>
             [Sample.notes; Sample.stray; Sample.readme] |})].
Proof.
  apply (@listed_file_is_saved_in_place Sim.buffer Sim.crypto SimWindow.js
           PastesProvider.init Sample.protectedItem (Sim.env Sample.rightGuess) 0
           0 (FileItem.mk "notes.txt" "hello world" "plaintext" false "A" 0 true)
           ∅ (Sim.env Sim.silent) (SimWindow.wenv SimWindow.desk) 0
           (mkTextDocument "untitled:Untitled-1" "hello world" EmptyString "plaintext")
           Sample.unlockedA (Sim.env Sample.writable) 0 Sample.document
           (Sample.paste [Sample.notes; Sample.stray; Sample.readme])
           [Sample.notes; Sample.stray; Sample.readme] Sample.notes);
    solve [reflexivity | vm_compute; reflexivity].
Defined.

(** ** Opening a paste *)

Section OpenFacts.
Context `{NB : NodeBuffer} `{NC : NodeCrypto} `{JS : JsString}.
Import Commands.

(** The 403 handler opens and tracks nothing unless its unlock request is
    answered. *)
Lemma openPasteInEditor_catch_unserved (env : Env) (wenv : WEnv) (n : nat)
    (documentMetadataMap : DocumentTracker.t) (paste : PasteItem.t) (error : JsError) :
  let r := exec env wenv n (openPasteInEditor_catch documentMetadataMap paste error) in
  existsb is_served r.2 = false →
  opened r.2 = [] ∧ r.1 = documentMetadataMap.
Proof.
  cbn zeta. unfold openPasteInEditor_catch.
  destruct (_ || _); cbn.
  - destruct (truthy (env n _ _)); cbn; [|now intros _].
    destruct (env (S n) _ _) as [fullPaste|unlockError]; cbn.
    + destruct (exec env wenv (S (S n)) _) as [a t]. cbn. discriminate.
    + now intros _.
  - now intros _.
Qed.

End OpenFacts.

(** Nothing opens unless the store serves the paste.  In every run of
    [openPasteInEditor], for a flagged or an unflagged item and whatever the
    user types, if no GET and no unlock request was answered by the store
    then no document was created in the editor and the tracked documents are
    as before. *)
Theorem nothing_opens_unless_served `{NB : NodeBuffer} `{NC : NodeCrypto} `{JS : JsString}
    (documentMetadataMap : DocumentTracker.t) (paste : PasteItem.t)
    (env : Env) (wenv : WEnv) (n : nat) :
  let r := exec env wenv n (Commands.openPasteInEditor documentMetadataMap paste) in
  existsb is_served r.2 = false →
  opened r.2 = [] ∧ r.1 = documentMetadataMap.
Proof.
  cbn zeta. unfold Commands.openPasteInEditor.
  destruct (PasteItem.isPasswordProtected paste); cbn.
  - destruct (truthy (env n _ _)); cbn; [|now intros _].
    destruct (env (S n) _ _) as [fullPaste|unlockError]; cbn.
    + destruct (exec env wenv (S (S n)) _) as [a t]. cbn. discriminate.
    + now intros _.
  - destruct (env n _ _) as [fullPaste|error]; cbn.
    + destruct (exec env wenv (S n) _) as [a t]. cbn. discriminate.
    + pose proof (openPasteInEditor_catch_unserved env wenv (S n)
                    documentMetadataMap paste error) as H.
      cbn zeta in H.
      destruct (exec env wenv (S n) (Commands.openPasteInEditor_catch _ _ _)) as [a t].
      exact H.
Qed.

Lemma nothing_opens_unless_served_witness :
  let r := exec (Sim.env Sample.wrongGuess) (SimWindow.wenv SimWindow.desk) 0
    (@Commands.openPasteInEditor Sim.buffer Sim.crypto SimWindow.js
       Sample.tracker Sample.publicItem) in
  opened r.2 = [] ∧ r.1 = Sample.tracker.
Proof.
  apply (@nothing_opens_unless_served Sim.buffer Sim.crypto SimWindow.js).
  vm_compute. reflexivity.
Defined.

(** A sealed file reaches the editor decrypted or not at all.  A flagged
    paste is unlocked with the typed passphrase; when the first file of the
    answer carries a salt and a nonce, the first document the editor is asked
    to create holds the text that [decryptContent] gives under that
    passphrase, and when [decryptContent] throws, no document is created,
    nothing is tracked and the message is "Failed to decrypt content". *)
Theorem sealed_file_opens_decrypted `{NB : NodeBuffer} `{NC : NodeCrypto} `{JS : JsString}
    (documentMetadataMap : DocumentTracker.t) (paste : PasteItem.t)
    (env : Env) (wenv : WEnv) (n : nat)
    (passphrase : string) (fullPaste : Paste) (file : PasteFile) (others : list PasteFile) :
  PasteItem.isPasswordProtected paste = true →
  env n _ (showInputBox (PastesProvider.unlockPrompt paste)) = Some passphrase →
  passphrase ≠ EmptyString →
  env (S n) _ (client_post_unlock ("/api/pastes/" +:+ PasteItem.id paste +:+ "/unlock")
                 passphrase) = Ok fullPaste →
  files fullPaste = Some (file :: others) →
  truthy (salt file) = true →
  truthy (iv file) = true →
  let r := exec env wenv n (Commands.openPasteInEditor documentMetadataMap paste) in
  match Crypto.decryptContent (content file) passphrase
          (default EmptyString (salt file)) (default EmptyString (iv file)) with
  | Ok text =>
      ∃ rest,
        opened r.2
        = (text, object_get_or Commands.languageMap (toLowerCase (language file))
                   "plaintext") :: rest
  | Throw _ =>
      opened r.2 = [] ∧ r.1 = documentMetadataMap
      ∧ errors r.2 = ["Failed to decrypt content"]
  end.
Proof.
  intros Hflag Hprompt Hpass Hunlock Hfiles Hsalt Hiv. cbn zeta.
  destruct passphrase as [|p0 passphrase]; [congruence|].
  unfold Commands.openPasteInEditor. rewrite Hflag. cbn. rewrite Hprompt. cbn.
  rewrite Hunlock. unfold Commands.openPasteInEditor_first, PastesProvider.nonempty_files.
  rewrite Hfiles. cbn. rewrite Hsalt, Hiv. cbn.
  destruct (Crypto.decryptContent _ _ _ _) as [text|decryptError]; cbn.
  - unfold Commands.openContentInEditor. cbn.
    destruct (wenv (S (S n)) _ _) as [doc|error]; cbn.
    + destruct (wenv (S (S (S n))) _ _) as [[]|error]; cbn; [eauto|].
      destruct (exec env wenv (S (S (S (S n)))) _) as [a t]. cbn. eauto.
    + destruct (exec env wenv (S (S (S n))) _) as [a t]. cbn. eauto.
  - repeat split; reflexivity.
Qed.

Lemma sealed_file_opens_decrypted_witness :
  let r := exec (Sim.env Sample.rightGuess) (SimWindow.wenv SimWindow.desk) 0
    (@Commands.openPasteInEditor Sim.buffer Sim.crypto SimWindow.js
       ∅ Sample.protectedItem) in
  ∃ rest, opened r.2 = ("hello world", own "plaintext") :: rest.
Proof.
  apply (@sealed_file_opens_decrypted Sim.buffer Sim.crypto SimWindow.js
           ∅ Sample.protectedItem (Sim.env Sample.rightGuess)
           (SimWindow.wenv SimWindow.desk) 0 "correct-horse"
           (Sample.paste [Sample.notes; Sample.stray; Sample.readme])
           Sample.notes [Sample.stray; Sample.readme]);
    solve [reflexivity | discriminate].
Defined.

(** After a 403 the store's word is doubted.  When the GET of an unflagged
    paste is rejected with status 403, the command asks for a passphrase and
    unlocks with it; if the store accepts but the first file does not open
    under that passphrase, the run ends with the message "Incorrect
    passphrase", with no document created and nothing tracked. *)
Theorem decryption_failure_after_403 `{NB : NodeBuffer} `{NC : NodeCrypto} `{JS : JsString}
    (documentMetadataMap : DocumentTracker.t) (paste : PasteItem.t)
    (env : Env) (wenv : WEnv) (n : nat) (error decryptError : JsError)
    (passphrase : string) (fullPaste : Paste) (file : PasteFile) (others : list PasteFile) :
  PasteItem.isPasswordProtected paste = false →
  env n _ (client_get ("/api/pastes/" +:+ PasteItem.id paste)) = Throw error →
  response_status error = Some 403 →
  env (S n) _ (showInputBox Commands.protectedPrompt) = Some passphrase →
  passphrase ≠ EmptyString →
  env (S (S n)) _ (client_post_unlock ("/api/pastes/" +:+ PasteItem.id paste +:+ "/unlock")
                     passphrase) = Ok fullPaste →
  files fullPaste = Some (file :: others) →
  truthy (salt file) = true →
  truthy (iv file) = true →
  Crypto.decryptContent (content file) passphrase
    (default EmptyString (salt file)) (default EmptyString (iv file)) = Throw decryptError →
  let r := exec env wenv n (Commands.openPasteInEditor documentMetadataMap paste) in
  r.1 = documentMetadataMap
  ∧ opened r.2 = []
  ∧ errors r.2 = ["Incorrect passphrase"]
  ∧ requests r.2
    = [ Ev (client_get ("/api/pastes/" +:+ PasteItem.id paste)) (Throw error);
        Ev (client_post_unlock ("/api/pastes/" +:+ PasteItem.id paste +:+ "/unlock")
              passphrase) (Ok fullPaste) ].
Proof.
  intros Hflag Hget Hstatus Hprompt Hpass Hunlock Hfiles Hsalt Hiv Hdecrypt. cbn zeta.
  destruct passphrase as [|p0 passphrase]; [congruence|].
  unfold Commands.openPasteInEditor. rewrite Hflag. cbn. rewrite Hget.
  unfold Commands.openPasteInEditor_catch. rewrite Hstatus.
  rewrite bool_decide_eq_true_2 by reflexivity. cbn. rewrite Hprompt. cbn.
  rewrite Hunlock. unfold PastesProvider.nonempty_files. rewrite Hfiles.
  rewrite Hsalt, Hiv. cbn [andb]. rewrite Hdecrypt. cbn.
  repeat split; reflexivity.
Qed.

Lemma decryption_failure_after_403_witness :
  let r := exec (Sim.env Desk.lenient) (SimWindow.wenv SimWindow.desk) 0
    (@Commands.openPasteInEditor Sim.buffer Sim.crypto SimWindow.js
       Sample.tracker Sample.publicItem) in
  r.1 = Sample.tracker
  ∧ opened r.2 = []
  ∧ errors r.2 = ["Incorrect passphrase"]
  ∧ requests r.2
    = [ Ev (client_get ("/api/pastes/" +:+ "A")) (Throw Sim.forbidden);
        Ev (client_post_unlock ("/api/pastes/" +:+ "A" +:+ "/unlock") "wrong-pass")
           (Ok (Sample.paste [Sample.notes; Sample.stray; Sample.readme])) ].
Proof.
  apply (@decryption_failure_after_403 Sim.buffer Sim.crypto SimWindow.js
           Sample.tracker Sample.publicItem (Sim.env Desk.lenient)
           (SimWindow.wenv SimWindow.desk) 0 Sim.forbidden
           (Sim.TypeError "Unsupported state or unable to authenticate data")
           "wrong-pass"
           (Sample.paste [Sample.notes; Sample.stray; Sample.readme])
           Sample.notes [Sample.stray; Sample.readme]);
    solve [reflexivity | discriminate | vm_compute; reflexivity].
Defined.

(** ** Deleting a paste and setting the token *)

(** No deletion without the word.  Unless the warning is answered with
    "Delete" (any other button, or dismissing it), the command sends nothing
    to the store, shows nothing more and leaves the provider as it is. *)
Theorem delete_needs_confirmation
    (pastesProvider : PastesProvider.t) (paste : PasteItem.t)
    (env : Env) (wenv : WEnv) (n : nat) :
  let warning := showWarningMessage_items
    ("Delete paste " +:+ dquote +:+ PasteItem.title paste +:+ dquote +:+ "?")
    ["Delete"; "Cancel"] in
  wenv n _ warning ≠ Some "Delete" →
  exec env wenv n (Commands.deletePaste pastesProvider paste)
  = (pastesProvider, [Asked warning (wenv n _ warning)]).
Proof.
  cbn zeta. intros Hno. unfold Commands.deletePaste. cbn.
  now rewrite bool_decide_eq_false_2 by exact Hno.
Qed.

Lemma delete_needs_confirmation_witness :
  let warning := showWarningMessage_items
    ("Delete paste " +:+ dquote +:+ "sample" +:+ dquote +:+ "?") ["Delete"; "Cancel"] in
  exec (Sim.env Sample.writable) (SimWindow.wenv Desk.hesitant) 0
    (Commands.deletePaste Sample.unlockedA Sample.protectedItem)
  = (Sample.unlockedA, [Asked warning (Some "Cancel")]).
Proof.
  apply (delete_needs_confirmation Sample.unlockedA
           Sample.protectedItem (Sim.env Sample.writable) (SimWindow.wenv Desk.hesitant) 0).
  discriminate.
Defined.

(** A confirmed deletion sends exactly one request, a DELETE for the item's
    paste.  When the store rejects it, the provider keeps its cache and its
    sessions and the error is reported; when the store accepts, both maps
    are emptied, so that every paste is fetched or unlocked anew. *)
Theorem confirmed_delete_outcomes
    (pastesProvider : PastesProvider.t) (paste : PasteItem.t)
    (env : Env) (wenv : WEnv) (n : nat) :
  wenv n _ (showWarningMessage_items
              ("Delete paste " +:+ dquote +:+ PasteItem.title paste +:+ dquote +:+ "?")
              ["Delete"; "Cancel"]) = Some "Delete" →
  let r := exec env wenv n (Commands.deletePaste pastesProvider paste) in
  let answer := env (S n) _ (client_delete ("/api/pastes/" +:+ PasteItem.id paste)) in
  requests r.2 = [Ev (client_delete ("/api/pastes/" +:+ PasteItem.id paste)) answer]
  ∧ match answer with
    | Ok _ => r.1 = PastesProvider.init ∧ errors r.2 = []
    | Throw error =>
        r.1 = pastesProvider
        ∧ errors r.2 = ["Failed to delete paste: " +:+ Extension.error_message error]
    end.
Proof.
  intros Hyes. cbn zeta. unfold Commands.deletePaste. cbn. rewrite Hyes.
  rewrite bool_decide_eq_true_2 by reflexivity. cbn.
  destruct (env (S n) _ _) as [[]|error]; cbn; repeat split; reflexivity.
Qed.

Lemma confirmed_delete_outcomes_witness :
  let r := exec (Sim.env Sample.revoked) (SimWindow.wenv Desk.resolute) 0
    (Commands.deletePaste Sample.unlockedA Sample.protectedItem) in
  requests r.2 = [Ev (client_delete ("/api/pastes/" +:+ "A")) (Throw Sim.forbidden)]
  ∧ r.1 = Sample.unlockedA
  ∧ errors r.2 = ["Failed to delete paste: Request failed with status code 403"].
Proof.
  apply (confirmed_delete_outcomes Sample.unlockedA
           Sample.protectedItem (Sim.env Sample.revoked) (SimWindow.wenv Desk.resolute) 0).
  reflexivity.
Defined.

(** The token is written as typed or not at all.  When the input box is
    dismissed or left empty, [setApiToken] does nothing more.  Otherwise it
    writes once, under [pastezen.apiToken], globally, exactly what was typed;
    it announces success only when the write succeeded, and its promise
    rejects when the write failed. *)
Theorem token_is_written_as_typed (env : Env) (wenv : WEnv) (n : nat) :
  let box := showInputBox_placeHolder Commands.tokenBox
               "Get your token from https://pastezen.com/tokens" in
  let token := wenv n _ box in
  let update := configuration_update "pastezen" "apiToken"
                  (default EmptyString token) Global in
  let r := exec env wenv n Commands.setApiToken in
  if truthy token then
    written r.2 = [("pastezen", "apiToken", default EmptyString token)]
    ∧ r.1 = wenv (S n) _ update
    ∧ infos r.2 = match wenv (S n) _ update with
                  | Ok _ => ["API token saved! Please reload VS Code."]
                  | Throw _ => []
                  end
  else r = (Ok tt, [Asked box token]).
Proof.
  cbn zeta. unfold Commands.setApiToken. cbn.
  destruct (truthy (wenv n _ _)); [|reflexivity]. cbn.
  destruct (wenv (S n) _ _) as [[]|error]; cbn; repeat split; reflexivity.
Qed.

(** ** Creating a paste from the editor *)

Section NameFacts.

Lemma split_slash_no_slash (s : string) :
  no_slash s = true → split_slash s = [s].
Proof.
  induction s as [|c s IH]; [reflexivity|]. cbn.
  destruct (Ascii.eqb c _); [discriminate|]. cbn. intros H. now rewrite IH.
Qed.

(** Everything up to a slash ends up in earlier pieces. *)
Lemma split_slash_app (dir base : string) :
  ∃ piece pieces,
    split_slash (dir +:+ "/" +:+ base) = (piece :: pieces) ++ split_slash base.
Proof.
  induction dir as [|c dir (piece & pieces & IH)].
  - exists EmptyString, []. reflexivity.
  - change (String c dir +:+ "/" +:+ base) with (String c (dir +:+ "/" +:+ base)).
    cbn [split_slash]. rewrite IH. destruct (Ascii.eqb c _).
    + exists EmptyString, (piece :: pieces). reflexivity.
    + exists (String c piece), pieces. reflexivity.
Qed.

Lemma or_else_nonempty (s fallback : string) :
  PastesProvider.or_else (Some s) fallback
  = match s with EmptyString => fallback | _ => s end.
Proof. now destruct s. Qed.

End NameFacts.

(** The base name of a path.  For a path that ends in a piece without
    slashes, [split('/').pop() || fallback] gives that piece, whatever comes
    before the last slash, if there is one; when the piece is empty (the path
    is empty or ends with a slash), it gives the fallback. *)
Theorem base_name_of_path (dir base fallback : string) :
  no_slash base = true →
  let expected := match base with EmptyString => fallback | _ => base end in
  split_pop_or base fallback = expected
  ∧ split_pop_or (dir +:+ "/" +:+ base) fallback = expected.
Proof.
  intros Hbase. cbn zeta. unfold split_pop_or. split.
  - rewrite (split_slash_no_slash _ Hbase). cbn [last]. apply or_else_nonempty.
  - destruct (split_slash_app dir base) as (piece & pieces & ->).
    rewrite last_app, (split_slash_no_slash _ Hbase). cbn [last].
    apply or_else_nonempty.
Qed.

Lemma base_name_of_path_witness :
  split_pop_or "main.py" "file.txt" = "main.py"
  ∧ split_pop_or ("/home/me/project/src" +:+ "/" +:+ "main.py") "file.txt" = "main.py".
Proof.
  apply (base_name_of_path "/home/me/project/src" "main.py" "file.txt").
  reflexivity.
Defined.

#[local] Arguments Extension.createPaste : simpl never.

(** From the editor to [createPaste].  With an editor active,
    [createPasteFromFile] hands the whole text of the document, empty or
    not, to [createPaste]; [createPasteFromSelection] hands over the selected
    text, and refuses an empty selection with "No text selected" before any
    prompt.  Both name the file by the base name of the document's path and
    pass the document's language on. *)
Theorem create_from_editor `{NB : NodeBuffer} `{NC : NodeCrypto}
    (pastesProvider : PastesProvider.t) (rng : Entropy)
    (env : Env) (wenv : WEnv) (n : nat) (document : TextDocument) :
  env n _ activeTextEditor = Some document →
  let active := Called (Ev activeTextEditor (Some document)) in
  let text := wenv (S n) _ selection_getText in
  let whole := run env (S n)
    (Extension.createPaste (split_pop_or (fileName document) "file.txt")
       (getText document) (languageId document) pastesProvider rng) in
  let part := run env (S (S n))
    (Extension.createPaste (split_pop_or (fileName document) "selection.txt")
       text (languageId document) pastesProvider rng) in
  exec env wenv n (Commands.createFromFile pastesProvider rng)
  = (whole.1, active :: map Called whole.2)
  ∧ exec env wenv n (Commands.createFromSelection pastesProvider rng)
    = match text with
      | EmptyString =>
          ((pastesProvider, rng),
           [active; Asked selection_getText text;
            Called (Ev (showErrorMessage "No text selected" [])
                      (env (S (S n)) _ (showErrorMessage "No text selected" [])))])
      | _ => (part.1, active :: Asked selection_getText text :: map Called part.2)
      end.
Proof.
  intros Hed. cbn zeta. split.
  - unfold Commands.createFromFile. cbn. rewrite Hed. cbn.
    rewrite exec_lift. reflexivity.
  - unfold Commands.createFromSelection. cbn. rewrite Hed. cbn.
    destruct (wenv (S n) _ selection_getText) as [|c text]; cbn; [reflexivity|].
    rewrite exec_lift. reflexivity.
Qed.

Lemma create_from_editor_witness :
  let active := Called (Ev activeTextEditor (Some Desk.source)) in
  let whole := run (Sim.env Desk.coding) 1
    (@Extension.createPaste Sim.buffer Sim.crypto "main.py"
       (getText Desk.source) "python" PastesProvider.init Sim.tape) in
  let part := run (Sim.env Desk.coding) 2
    (@Extension.createPaste Sim.buffer Sim.crypto "main.py"
       "print(2)" "python" PastesProvider.init Sim.tape) in
  exec (Sim.env Desk.coding) (SimWindow.wenv Desk.selecting) 0
    (@Commands.createFromFile Sim.buffer Sim.crypto PastesProvider.init Sim.tape)
  = (whole.1, active :: map Called whole.2)
  ∧ exec (Sim.env Desk.coding) (SimWindow.wenv Desk.selecting) 0
      (@Commands.createFromSelection Sim.buffer Sim.crypto PastesProvider.init Sim.tape)
    = (part.1, active :: Asked selection_getText "print(2)" :: map Called part.2).
Proof.
  apply (@create_from_editor Sim.buffer Sim.crypto PastesProvider.init Sim.tape
           (Sim.env Desk.coding) (SimWindow.wenv Desk.selecting) 0 Desk.source).
  reflexivity.
Defined.

Section CreateFacts.
Context `{NB : NodeBuffer} `{NC : NodeCrypto}.



End CreateFacts.



(** ** Saving to a stale position *)

(** A save whose target is gone uploads nothing.  When the paste that the
    store returns has no file list, or none at the tracked index, the command
    sends no update: after the GET it only reports "Failed to save: ..." and
    leaves the provider, its cache and its sessions as they are. *)
Theorem stale_index_uploads_nothing `{NB : NodeBuffer} `{NC : NodeCrypto}
    (documentMetadataMap : DocumentTracker.t) (pastesProvider : PastesProvider.t)
    (env : Env) (n : nat) (document : TextDocument) (metadata : DocumentMetadata.t)
    (paste : Paste) :
  env n _ activeTextEditor = Some document →
  DocumentTracker.getDocumentMetadata documentMetadataMap (uri document) = Some metadata →
  env (S n) _ (client_get ("/api/pastes/" +:+ DocumentMetadata.pasteId metadata)) = Ok paste →
  (∀ fs, files paste = Some fs → fs !! DocumentMetadata.fileIndex metadata = None) →
  let r := run env n (Extension.saveToPastezen documentMetadataMap pastesProvider) in
  r.1 = pastesProvider
  ∧ uploads r.2 = []
  ∧ ∃ reason answer,
      r.2 = [ Ev activeTextEditor (Some document);
              Ev (client_get ("/api/pastes/" +:+ DocumentMetadata.pasteId metadata)) (Ok paste);
              Ev (showErrorMessage ("Failed to save: " +:+ reason) []) answer ].
Proof.
  intros Hed Hmeta Hget Hgone. cbn zeta.
  unfold Extension.saveToPastezen. cbn. rewrite Hed, Hmeta. cbn. rewrite Hget.
  unfold Extension.set_file_content.
  destruct (files paste) as [fs|] eqn:Hfiles.
  - rewrite (Hgone fs eq_refl). cbn. split; [reflexivity|]. split; [reflexivity|].
    eexists. eexists. reflexivity.
  - cbn. split; [reflexivity|]. split; [reflexivity|].
    eexists. eexists. reflexivity.
Qed.

Lemma stale_index_uploads_nothing_witness :
  let r := run (Sim.env Sample.writable) 0
    (Extension.saveToPastezen Desk.staleTracker Sample.unlockedA) in
  r.1 = Sample.unlockedA
  ∧ uploads r.2 = []
  ∧ ∃ reason answer,
      r.2 = [ Ev activeTextEditor (Some Sample.document);
              Ev (client_get ("/api/pastes/" +:+ "A"))
                 (Ok (Sample.paste [Sample.notes; Sample.stray; Sample.readme]));
              Ev (showErrorMessage ("Failed to save: " +:+ reason) []) answer ].
Proof.
  apply (@stale_index_uploads_nothing Sim.buffer Sim.crypto Desk.staleTracker
           Sample.unlockedA (Sim.env Sample.writable) 0 Sample.document
           (DocumentMetadata.mk "A" 3 "gone.txt" "plaintext")
           (Sample.paste [Sample.notes; Sample.stray; Sample.readme])).
  - reflexivity.
  - reflexivity.
  - reflexivity.
  - intros fs Hfs. injection Hfs as <-. reflexivity.
Defined.

(** ** Unlocking after a 403 *)

Section ForbiddenFacts.
Context `{NB : NodeBuffer} `{NC : NodeCrypto}.
Import PastesProvider.

(** With a passphrase that is not empty, the two callbacks build the same
    item up to the flag. *)
Lemma fileItem403_fileItem (password : string) (element : PasteItem.t)
    (index : nat) (file : PasteFile) :
  password ≠ EmptyString →
  ∃ f,
    fileItem403 password element index file = TFile f
    ∧ FileItem.isEncrypted f = true
    ∧ fileItem (Some password) element index file
      = TFile (FileItem.mk (FileItem.fileName f) (FileItem.content f)
                 (FileItem.language f) (FileItem.isMain f) (FileItem.pasteId f)
                 (FileItem.fileIndex f) (PasteItem.isPasswordProtected element)).
Proof.
  intros Hpw. destruct password as [|p0 password]; [congruence|].
  eexists. split; [reflexivity|]. split; reflexivity.
Qed.

End ForbiddenFacts.

(** A 403 opens a session too.  When the GET for an unflagged paste that is
    not cached is rejected with status 403, the tree asks for a passphrase
    and unlocks with it; once the store accepts, the session is recorded
    like after a flagged unlock.  The files shown in that call are marked as
    encrypted; every later call for the same item is served from the session
    without store or user, with the same names, contents and positions, and
    the mark now follows the item's flag. *)
Theorem unlock_after_403 `{NB : NodeBuffer} `{NC : NodeCrypto}
    (this : PastesProvider.t) (element : PasteItem.t) (env : Env) (n : nat)
    (error : JsError) (password : string) (unlockedPaste : Paste) :
  PasteItem.isPasswordProtected element = false →
  PastesProvider.cached this (PasteItem.id element) = None →
  env n _ (client_get ("/api/pastes/" +:+ PasteItem.id element)) = Throw error →
  response_status error = Some 403 →
  env (S n) _ (showInputBox (PastesProvider.unlockPrompt element)) = Some password →
  password ≠ EmptyString →
  env (S (S n)) _ (client_post_unlock ("/api/pastes/" +:+ PasteItem.id element +:+ "/unlock")
                     password) = Ok unlockedPaste →
  let r := run env n (PastesProvider.getChildren this (Some (TPaste element))) in
  let after := r.1.2 in
  after = PastesProvider.mk (PastesProvider.pasteCache this)
            (<[PasteItem.id element := Unlocked.mk unlockedPaste password]>
               (PastesProvider.unlockedPastes this))
  ∧ ∀ (env' : Env) (m : nat),
      let again := run env' m (PastesProvider.getChildren after (Some (TPaste element))) in
      again.2 = [] ∧ again.1.2 = after
      ∧ length again.1.1 = length r.1.1
      ∧ ∀ i f, r.1.1 !! i = Some (TFile f) →
          FileItem.isEncrypted f = true
          ∧ again.1.1 !! i
            = Some (TFile (FileItem.mk (FileItem.fileName f) (FileItem.content f)
                             (FileItem.language f) (FileItem.isMain f)
                             (FileItem.pasteId f) (FileItem.fileIndex f) false)).
Proof.
  intros Hflag Hcached Hget Hstatus Hprompt Hpw Hunlock. cbn zeta.
  assert (Hsession : PastesProvider.unlockedPastes this !! PasteItem.id element = None).
  { unfold PastesProvider.cached in Hcached.
    now destruct (PastesProvider.unlockedPastes this !! PasteItem.id element). }
  set (after := PastesProvider.mk (PastesProvider.pasteCache this)
         (<[PasteItem.id element := Unlocked.mk unlockedPaste password]>
            (PastesProvider.unlockedPastes this))).
  assert (Hrun : (run env n (PastesProvider.getChildren this (Some (TPaste element)))).1
                 = (match PastesProvider.nonempty_files unlockedPaste with
                    | Some files => imap (PastesProvider.fileItem403 password element) files
                    | None => []
                    end, after)).
  { rewrite getChildren_unguarded by now left.
    unfold PastesProvider.getChildren_files. rewrite Hcached. cbn. rewrite Hget.
    unfold PastesProvider.getChildren_catch. rewrite Hstatus, Hsession.
    rewrite bool_decide_eq_true_2 by reflexivity.
    rewrite bool_decide_eq_false_2 by (intros [? ?]; discriminate).
    cbn. rewrite Hprompt.
    destruct password as [|p0 password]; [congruence|]. cbn. rewrite Hunlock.
    now destruct (PastesProvider.nonempty_files unlockedPaste). }
  rewrite Hrun. cbn [fst snd]. split; [reflexivity|].
  intros env' m.
  assert (Hc : PastesProvider.cached after (PasteItem.id element) = Some unlockedPaste).
  { unfold PastesProvider.cached, after. cbn. now rewrite lookup_insert_eq. }
  rewrite (getChildren_served after element unlockedPaste env' m Hc) by now left.
  cbn [fst snd]. split; [reflexivity|]. split; [reflexivity|].
  unfold PastesProvider.fileItems.
  destruct (PastesProvider.nonempty_files unlockedPaste) as [files|].
  - assert (Hpass : Unlocked.passphrase <$>
                      PastesProvider.unlockedPastes after !! PasteItem.id element
                    = Some password).
    { unfold after. cbn. now rewrite lookup_insert_eq. }
    rewrite Hpass. split; [now rewrite !length_imap|].
    intros i f Hi. rewrite list_lookup_imap in Hi |- *.
    destruct (files !! i) as [file|]; [|discriminate]. cbn in Hi |- *.
    destruct (fileItem403_fileItem password element i file Hpw) as (f' & Hf' & Henc & Hsame).
    rewrite Hf' in Hi. injection Hi as <-.
    split; [exact Henc|]. rewrite Hsame, Hflag. reflexivity.
  - split; [reflexivity|]. intros i f Hi. now rewrite lookup_nil in Hi.
Qed.

Lemma unlock_after_403_witness :
  let r := run (Sim.env Desk.guarded) 0
    (@PastesProvider.getChildren Sim.buffer Sim.crypto PastesProvider.init
       (Some (TPaste Sample.publicItem))) in
  let after := r.1.2 in
  after = Sample.unlockedA
  ∧ ∀ (env' : Env) (m : nat),
      let again := run env' m
        (@PastesProvider.getChildren Sim.buffer Sim.crypto after
           (Some (TPaste Sample.publicItem))) in
      again.2 = [] ∧ again.1.2 = after
      ∧ length again.1.1 = length r.1.1
      ∧ ∀ i f, r.1.1 !! i = Some (TFile f) →
          FileItem.isEncrypted f = true
          ∧ again.1.1 !! i
            = Some (TFile (FileItem.mk (FileItem.fileName f) (FileItem.content f)
                             (FileItem.language f) (FileItem.isMain f)
                             (FileItem.pasteId f) (FileItem.fileIndex f) false)).
Proof.
  apply (@unlock_after_403 Sim.buffer Sim.crypto PastesProvider.init Sample.publicItem
           (Sim.env Desk.guarded) 0 Sim.forbidden "correct-horse"
           (Sample.paste [Sample.notes; Sample.stray; Sample.readme]));
    solve [reflexivity | discriminate].
Defined.

(** ** Opening a file *)

(** A file is tracked once its document exists.  When the editor cannot
    create the document, [openFileInEditor] reports "Failed to open file:
    ..." and the tracked documents are as before.  When the document is
    created, it is tracked under its URI with the paste, index, name and
    language of the file item, also when showing it fails afterwards, which
    is reported in the same way. *)
Theorem file_is_tracked_once_created `{JS : JsString}
    (documentMetadataMap : DocumentTracker.t) (fileItem : FileItem.t)
    (env : Env) (wenv : WEnv) (n : nat) :
  let vscodeLang := object_get_or Commands.languageMap
                      (toLowerCase (FileItem.language fileItem)) "plaintext" in
  let r := exec env wenv n (Commands.openFileInEditor documentMetadataMap fileItem) in
  opened r.2 = [(FileItem.content fileItem, vscodeLang)]
  ∧ match wenv n _ (openTextDocument (FileItem.content fileItem) vscodeLang) with
    | Throw error =>
        r.1 = documentMetadataMap
        ∧ errors r.2 = ["Failed to open file: " +:+ Extension.error_message error]
    | Ok doc =>
        DocumentTracker.getDocumentMetadata r.1 (uri doc)
        = Some (DocumentMetadata.mk (FileItem.pasteId fileItem) (FileItem.fileIndex fileItem)
                  (FileItem.fileName fileItem) (FileItem.language fileItem))
        ∧ (∀ other, other ≠ uri doc →
             DocumentTracker.getDocumentMetadata r.1 other
             = DocumentTracker.getDocumentMetadata documentMetadataMap other)
        ∧ errors r.2 = match wenv (S n) _ (showTextDocument doc) with
                       | Ok _ => []
                       | Throw error =>
                           ["Failed to open file: " +:+ Extension.error_message error]
                       end
    end.
Proof.
  cbn zeta. unfold Commands.openFileInEditor, Commands.openContentInEditor. cbn.
  destruct (wenv n _ _) as [doc|error]; cbn.
  - destruct (wenv (S n) _ _) as [[]|error]; cbn;
      (split; [reflexivity|]);
      (split; [apply lookup_insert_eq|]);
      (split; [|reflexivity]);
      intros other Hother; unfold DocumentTracker.getDocumentMetadata,
        DocumentTracker.trackDocument; now apply lookup_insert_ne.
  - repeat split; reflexivity.
Qed.

(** ** Lookups in object literals *)

Section LookupFacts.






End LookupFacts.



(** ** One link per paste *)

(** The link of a paste.  The link that [createPaste] puts on the clipboard
    for the paste the store has created is the link that [copyPasteUrl]
    copies and that [openPaste] opens for the tree item made of that paste,
    under the same [webUrl] setting: the setting, "/pastes/" and the paste's
    identifier (with "undefined" for a missing setting). *)
Theorem one_link_per_paste
    (pasteOptions : CreatePasteOptions.t) (visibility : Visibility)
    (pastesProvider : PastesProvider.t) (env : Env) (n : nat)
    (paste : Paste) (item : PasteItem.t) (webUrl : option string)
    (env' : Env) (wenv : WEnv) (m : nat) :
  (run env n (PastezenAPI.createPaste pasteOptions)).1 = Ok paste →
  env (S n) _ (getConfiguration "pastezen" "webUrl") = webUrl →
  env' m _ (getConfiguration "pastezen" "webUrl") = webUrl →
  PastesProvider.pasteItem paste = TPaste item →
  let link := default "undefined" webUrl +:+ "/pastes/" +:+ _id paste in
  copied (run env n (Extension.createPaste_progress pasteOptions visibility pastesProvider)).2
    = [link]
  ∧ copied (events (exec env' wenv m (Commands.copyPasteUrl item)).2) = [link]
  ∧ browsed (events (exec env' wenv m (Commands.openPaste item)).2) = [link].
Proof.
  intros Hcreated Hurl Hurl' Hitem. cbn zeta.
  destruct (pasteItem_fileCount paste) as (item' & Hitem' & Hid & _).
  rewrite Hitem in Hitem'. injection Hitem' as Heq. subst item'.
  split; [|split].
  - unfold Extension.createPaste_progress.
    unfold PastezenAPI.createPaste in *. cbn in *. rewrite Hcreated. cbn.
    rewrite Hurl. cbn.
    destruct (bool_decide _); reflexivity.
  - unfold Commands.copyPasteUrl, Commands.pasteUrl. cbn. now rewrite Hurl', Hid.
  - unfold Commands.openPaste, Commands.pasteUrl. cbn. now rewrite Hurl', Hid.
Qed.

Lemma one_link_per_paste_witness :
  let link := "https://pastezen.com" +:+ "/pastes/" +:+ "A" in
  copied (run (Sim.env Desk.online) 0
            (Extension.createPaste_progress
               Desk.publicOptions public PastesProvider.init)).2
    = [link]
  ∧ copied (events (exec (Sim.env Desk.online) (SimWindow.wenv SimWindow.desk) 7
                      (Commands.copyPasteUrl Sample.publicItem)).2) = [link]
  ∧ browsed (events (exec (Sim.env Desk.online) (SimWindow.wenv SimWindow.desk) 7
                       (Commands.openPaste Sample.publicItem)).2) = [link].
Proof.
  apply (one_link_per_paste Desk.publicOptions public
           PastesProvider.init (Sim.env Desk.online) 0
           (Sample.paste [mkPasteFile "README.md" "IyBwbGFpbg==" "markdown" true None None])
           (PasteItem.mk "sample" "A" "2024-01-01T00:00:00Z" "public" "plaintext" 1 false)
           (Some "https://pastezen.com")
           (Sim.env Desk.online) (SimWindow.wenv SimWindow.desk) 7);
    reflexivity.
Defined.

(** ** The document tracker *)

(** The tracker is a map keyed by URI.  A tracked document is found again
    with the metadata it was tracked with; tracking the same URI again
    replaces the entry; removing a URI forgets it; tracking or removing one
    URI leaves every other URI as it was; and [isTrackedDocument] says
    whether [getDocumentMetadata] finds something. *)
Theorem tracker_is_a_map (documentMetadataMap : DocumentTracker.t)
    (uri other : string) (metadata metadata' : DocumentMetadata.t) :
  let tracked := DocumentTracker.trackDocument documentMetadataMap uri metadata in
  let removed := DocumentTracker.removeDocumentMetadata documentMetadataMap uri in
  DocumentTracker.getDocumentMetadata tracked uri = Some metadata
  ∧ DocumentTracker.trackDocument tracked uri metadata'
    = DocumentTracker.trackDocument documentMetadataMap uri metadata'
  ∧ DocumentTracker.getDocumentMetadata removed uri = None
  ∧ DocumentTracker.removeDocumentMetadata tracked uri = removed
  ∧ (other ≠ uri →
       DocumentTracker.getDocumentMetadata tracked other
       = DocumentTracker.getDocumentMetadata documentMetadataMap other
       ∧ DocumentTracker.getDocumentMetadata removed other
         = DocumentTracker.getDocumentMetadata documentMetadataMap other)
  ∧ (DocumentTracker.isTrackedDocument documentMetadataMap other = true
     ↔ is_Some (DocumentTracker.getDocumentMetadata documentMetadataMap other))
  ∧ DocumentTracker.getAllTrackedDocuments tracked !! uri = Some metadata.
Proof.
  cbn zeta. unfold DocumentTracker.getDocumentMetadata, DocumentTracker.trackDocument,
    DocumentTracker.removeDocumentMetadata, DocumentTracker.isTrackedDocument,
    DocumentTracker.getAllTrackedDocuments.
  split; [apply lookup_insert_eq|].
  split; [apply insert_insert_eq|].
  split; [apply lookup_delete_eq|].
  split; [apply delete_insert_eq|].
  split.
  - intros Hne. split.
    + now apply lookup_insert_ne.
    + now apply lookup_delete_ne.
  - split; [apply bool_decide_eq_true|apply lookup_insert_eq].
Qed.
